(** * R10FieldMaps: ellipsoid-to-orthometric post-processing of survey points

    A shallow embedding of [r10_field_maps.py]: the scraping of the geoid18
    calculator page ([parse_geoid18_response]), the height conversion
    ([postprocess_geoid18]) and the CSV read-transform-write loop
    ([transform]), with the properties stated for them.

    Conventions.
    - A Python [float] is an IEEE 754 binary64 number, here a [spec_float]
      with precision 53 and exponents bounded by 1024; [-] is the correctly
      rounded subtraction [SFsub] and [abs] is [SFabs].
    - A Python [str] is a [string], one character per code point; only code
      points below 256 are represented.
    - A raised exception is the left injection of a sum; the script has no
      [try], so an exception ends the run.
    - What the script reaches outside itself (the network, the host
      application's message window, the two files) is the [world] that
      every effectful function threads.
    - The calls into the host application that surround [transform] in
      [main] (the workspace set-up, the build of the point dataset and the
      polling of its status) are outside the embedding. *)

From Stdlib Require Import ZArith NArith String Ascii List Lia Bool.
From Corelib Require Import SpecFloat.
From stdpp Require Import base option list gmap strings.
Import ListNotations.

Local Open Scope Z_scope.
Local Open Scope string_scope.
Local Open Scope list_scope.

(** ** Exceptions *)

Inductive exn : Type :=
| AttributeError
| IndexError
| TypeError
| ValueError
| FileNotFoundError
| UnicodeDecodeError
| CsvError
| RequestException.

(** ** Floats *)

Module PyFloat.

Definition prec : Z := 53.
Definition emax : Z := 1024.

Definition float : Type := spec_float.

(** [x - y] *)
Definition sub (x y : float) : float := SFsub prec emax x y.

(** [abs(x)] *)
Definition abs (x : float) : float := SFabs x.


(** The binary64 number nearest to a quotient of two positive integers. *)
Definition of_ratio (neg : bool) (num den : positive) : float :=
  let '(q, e, l) := SFdiv_core_binary prec emax (Zpos num) 0 (Zpos den) 0 in
  binary_round_aux prec emax neg q e l.

(** The binary64 number nearest to [m * 10^e10], as a decimal literal or
    [float] applied to a decimal string denotes it. *)
Definition of_decimal (neg : bool) (m : N) (e10 : Z) : float :=
  match m with
  | N0 => S754_zero neg
  | Npos p =>
      match e10 with
      | Zneg k => of_ratio neg p (Pos.pow 10 k)
      | Z0 => binary_normalize prec emax (if neg then Zneg p else Zpos p) 0 neg
      | Zpos k =>
          let n := (p * Pos.pow 10 k)%positive in
          binary_normalize prec emax (if neg then Zneg n else Zpos n) 0 neg
      end
  end.

(** Decimal digits of a natural number, most significant first. *)
Definition digit_char (d : N) : ascii := ascii_of_N (48 + d).

Fixpoint dec_digits (fuel : nat) (n : N) (acc : string) : string :=
  match fuel with
  | O => acc
  | S fuel' =>
      let acc' := String (digit_char (n mod 10)%N) acc in
      if (n / 10 =? 0)%N then acc' else dec_digits fuel' (n / 10)%N acc'
  end.

Definition string_of_N (n : N) : string :=
  dec_digits (S (N.to_nat (N.log2 n))) n "".

(** Rounding of a non-negative quotient to an integer, ties to even. *)
Definition round_half_even (num den : N) : N :=
  let q := (num / den)%N in
  let r := (num mod den)%N in
  match (2 * r ?= den)%N with
  | Lt => q
  | Gt => (q + 1)%N
  | Eq => if N.even q then q else (q + 1)%N
  end.

(** The integer nearest to [100 * m * 2^e]. *)
Definition hundredths (m : positive) (e : Z) : N :=
  match e with
  | Zneg k => round_half_even (100 * Npos m) (Npos (Pos.pow 2 k))
  | Z0 => (100 * Npos m)%N
  | Zpos k => (100 * Npos m * Npos (Pos.pow 2 k))%N
  end.

Definition sign_string (s : bool) : string := if s then "-" else "".

Definition fixed2 (s : bool) (n : N) : string :=
  sign_string s +:+ string_of_N (n / 100)%N +:+ "." +:+
  String (digit_char ((n / 10) mod 10)%N) (String (digit_char (n mod 10)%N) "").

(** [format(x, '0.2f')], the conversion [f'{x:0.2f}'] applies: the value
    rounded to two decimals (exactly, ties to even), or [inf], [-inf],
    [nan] when it is not finite. *)
Definition format_0_2f (x : float) : string :=
  match x with
  | S754_zero s => fixed2 s 0
  | S754_finite s m e => fixed2 s (hundredths m e)
  | S754_infinity s => sign_string s +:+ "inf"
  | S754_nan => "nan"
  end.

End PyFloat.

Abbreviation float := PyFloat.float.

(** The rod height, the literal [1.55]. *)
Definition rh : float := S754_finite false 6980579422424269 (-52).

(** ** Strings and lists *)

Module PyStr.

(** [s.split(sep)] for a one-character separator: every occurrence cuts,
    so the result has one more piece than there are separators. *)
Fixpoint split_on (sep : ascii) (s : string) : list string :=
  match s with
  | EmptyString => [EmptyString]
  | String c s' =>
      if Ascii.eqb c sep then EmptyString :: split_on sep s'
      else match split_on sep s' with
           | w :: ws => String c w :: ws
           | [] => [String c EmptyString]
           end
  end.

Definition newline : ascii := ascii_of_nat 10.

(** [str.isspace] on one character, for code points below 256. *)
Definition isspace (c : ascii) : bool :=
  let n := N_of_ascii c in
  ((9 <=? n) && (n <=? 13) || (28 <=? n) && (n <=? 32)
   || (n =? 133) || (n =? 160))%N.

(** [s.split()]: the maximal runs of characters that are not whitespace. *)
Fixpoint split (s : string) : list string :=
  match s with
  | EmptyString => []
  | String c s' =>
      if isspace c then split s'
      else match s' with
           | EmptyString => [String c EmptyString]
           | String c' _ =>
               if isspace c' then String c EmptyString :: split s'
               else match split s' with
                    | w :: ws => String c w :: ws
                    | [] => [String c EmptyString]
                    end
           end
  end.

(** The characters [0] to [9]. *)
Definition is_digit (c : ascii) : bool :=
  let n := N_of_ascii c in ((48 <=? n) && (n <=? 57))%N.


(** [l[i]], where a negative index counts from the end. *)
Definition getitem {A : Type} (l : list A) (i : Z) : exn + A :=
  let n := Z.of_nat (length l) in
  let j := (if i <? 0 then i + n else i)%Z in
  if ((0 <=? j) && (j <? n))%Z then
    match nth_error l (Z.to_nat j) with
    | Some x => inr x
    | None => inl IndexError
    end
  else inl IndexError.

End PyStr.

(** ** Values, the runtime and the world *)

(** The values the script stores in a row: [None], a [str] or a [float]. *)
Inductive pyval : Type :=
| VNone
| VStr (s : string)
| VFloat (x : float).

(** A dictionary with [str] keys. *)
Abbreviation dict := (gmap string pyval).

(** What [requests.get] returns. *)
Record response : Type := { status_code : N; content : string }.

(** The library functions the script calls and does not define. *)
Class Runtime : Type := {
  (** [float(s)] on a [str]; [None] when it raises [ValueError] *)
  float_of_str : string -> option float;
  (** [str(x)] on a [float], which [f'{x}'] and the csv writer both use *)
  str_of_float : float -> string;
  (** [BeautifulSoup(html, 'html.parser').pre], then [.string]: [None] when
      the page has no [pre] element, [Some None] when the element has no
      single text child *)
  pre_string : string -> option (option string);
  (** [bytes.decode('UTF-8')]; [None] when it raises *)
  decode_utf8 : string -> option string;
  (** [os.path.join] *)
  path_join : string -> string -> string
}.

(** One call to [arcpy.AddMessage], with the values its text interpolates. *)
Inductive message : Type :=
| MsgWd (wd : string)
| MsgPathName (path_name : string)
| MsgRequestStatus (code : N)
| MsgData (data : list string)
| MsgN (n : float)
| MsgError (e : float)
| MsgOrthometricHeight (H h n : float)
| MsgTransforming
| MsgWritingRow (row_dict : dict).

(** What [csv.reader] hands over at each step: a record, or an error. *)
Abbreviation record_stream := (list (exn + list string)).

Record world : Type := {
  (** the directory of the script, [sys.path[0]] *)
  script_dir : string;
  (** the answer of the network to a GET of a URL *)
  net : string -> exn + response;
  (** the records of [R10Points.csv], [None] when it cannot be opened *)
  in_csv : option record_stream;
  (** the records of [orthometric_R10Points.csv] *)
  out_csv : list (list string);
  (** the URLs requested so far, oldest first *)
  sent : list string;
  (** the messages shown so far, oldest first *)
  messages : list message
}.

(** ** Computations that act on the world and may raise *)

Definition M (A : Type) : Type := world -> (exn + A) * world.

#[global] Instance M_ret : MRet M := fun A a w => (inr a, w).

#[global] Instance M_bind : MBind M := fun A B f m w =>
  match m w with
  | (inr a, w') => f a w'
  | (inl e, w') => (inl e, w')
  end.

Definition raise {A : Type} (e : exn) : M A := fun w => (inl e, w).

Definition lift {A : Type} (r : exn + A) : M A := fun w => (r, w).

Definition AddMessage (m : message) : M unit := fun w =>
  (inr tt,
   {| script_dir := script_dir w; net := net w; in_csv := in_csv w;
      out_csv := out_csv w; sent := sent w;
      messages := messages w ++ [m] |}).

Definition requests_get (url : string) : M response := fun w =>
  (net w url,
   {| script_dir := script_dir w; net := net w; in_csv := in_csv w;
      out_csv := out_csv w; sent := sent w ++ [url];
      messages := messages w |}).

(** [sys.path[0]] *)
Definition sys_path_0 : M string := fun w => (inr (script_dir w), w).

(** [open(new_csv_path, 'w')] empties the output file; the directory is
    taken to exist and to be writable. *)
Definition open_w : M unit := fun w =>
  (inr tt,
   {| script_dir := script_dir w; net := net w; in_csv := in_csv w;
      out_csv := []; sent := sent w; messages := messages w |}).

(** [open(csv_path, 'r')] *)
Definition open_r : M record_stream := fun w =>
  (match in_csv w with
   | Some recs => inr recs
   | None => inl FileNotFoundError
   end, w).

(** One record appended to the output file. *)
Definition write_record (cells : list string) : M unit := fun w =>
  (inr tt,
   {| script_dir := script_dir w; net := net w; in_csv := in_csv w;
      out_csv := out_csv w ++ [cells]; sent := sent w;
      messages := messages w |}).

(** ** The [csv] module *)

(** The text the csv writer puts in a cell. *)
Definition cell_text `{Runtime} (v : pyval) : string :=
  match v with
  | VNone => ""
  | VStr s => s
  | VFloat x => str_of_float x
  end.

(** The row [csv.DictReader] builds from a record: the cells under the
    field names, in order, a later duplicate name replacing an earlier one,
    and [None] under the names that have no cell. The surplus cells, kept
    under the key [None] that the script never reads, are left out. *)
Definition dict_row (fieldnames cells : list string) : dict :=
  let d := foldl (fun d kv => <[kv.1 := VStr kv.2]> d) ∅ (zip fieldnames cells) in
  foldl (fun d k => <[k := VNone]> d) d (drop (length cells) fieldnames).

(** [row.get(key)] *)
Definition get (row : dict) (key : string) : pyval := default VNone (row !! key).

(** [DictWriter._dict_to_list]: a key outside the field names raises, a field
    name without a key gives the empty string. *)
Definition dict_to_list (fieldnames : list string) (rowdict : dict) : exn + list pyval :=
  if forallb (fun k => bool_decide (k ∈ fieldnames)) (map fst (map_to_list rowdict))
  then inr (map (fun k => default (VStr "") (rowdict !! k)) fieldnames)
  else inl ValueError.

Definition writeheader (fieldnames : list string) : M unit :=
  write_record fieldnames.

Definition writerow `{Runtime} (fieldnames : list string) (rowdict : dict) : M unit :=
  vals ← lift (dict_to_list fieldnames rowdict);
  write_record (map cell_text vals).

(** The loop [for row in csv.DictReader(...)]: blank records are skipped, an
    error of the reader is raised where it occurs, an exception of the body
    ends the loop. *)
Fixpoint for_rows (fieldnames : list string) (recs : record_stream)
    (body : dict -> M unit) : M unit :=
  match recs with
  | [] => mret tt
  | inl e :: _ => raise e
  | inr [] :: rest => for_rows fieldnames rest body
  | inr cells :: rest =>
      body (dict_row fieldnames cells);; for_rows fieldnames rest body
  end.

(** The first record gives the field names. *)
Definition for_dict_reader (recs : record_stream) (body : dict -> M unit) : M unit :=
  match recs with
  | [] => mret tt
  | inl e :: _ => raise e
  | inr fieldnames :: rest => for_rows fieldnames rest body
  end.

(** [float(v)]: [None] is a [TypeError], text that is not a number a
    [ValueError]. *)
Definition py_float `{Runtime} (v : pyval) : exn + float :=
  match v with
  | VNone => inl TypeError
  | VStr s =>
      match float_of_str s with
      | Some x => inr x
      | None => inl ValueError
      end
  | VFloat x => inr x
  end.

(** ** The script *)

Section Script.

Context `{Runtime}.

Definition pwd : M string :=
  wd ← sys_path_0;
  AddMessage (MsgWd wd);;
  mret wd.

Definition set_path (wd data_path : string) : M string :=
  let path_name := path_join wd data_path in
  AddMessage (MsgPathName path_name);;
  mret path_name.

Definition parse_geoid18_response (html : string) : M (float * float) :=
  n ← match pre_string html with
      | Some (Some n) => mret n
      | _ => raise AttributeError
      end;
  let lines := PyStr.split_on PyStr.newline n in
  l3 ← lift (PyStr.getitem lines 3);
  let data := PyStr.split l3 in
  d2 ← lift (PyStr.getitem data (-2));
  n ← lift (py_float (VStr d2));
  d1 ← lift (PyStr.getitem data (-1));
  e ← lift (py_float (VStr d1));
  AddMessage (MsgData data);;
  AddMessage (MsgN n);;
  AddMessage (MsgError e);;
  mret (n, e).

Definition geoid18_url (lat long : float) : string :=
  "https://geodesy.noaa.gov/cgi-bin/GEOID_STUFF/geoid18_single.prl?PGM=intg&MODEL=14&LAT="
  +:+ str_of_float lat +:+ "&LONG=" +:+ str_of_float long
  +:+ "&longitude_direction=2".

Definition postprocess_geoid18 (lat long h : float) : M float :=
  let url := geoid18_url lat long in
  r ← requests_get url;
  AddMessage (MsgRequestStatus (status_code r));;
  html_file ← match decode_utf8 (content r) with
              | Some s => mret s
              | None => raise UnicodeDecodeError
              end;
  ne ← parse_geoid18_response html_file;
  let n := ne.1 in
  let orthometric_height := PyFloat.sub h n in
  AddMessage (MsgOrthometricHeight orthometric_height h n);;
  mret orthometric_height.

Definition fieldnames : list string :=
  ["Name"; "Ortho_Measured"; "ReceiverName"; "HorizontalAccuracy";
   "VerticalAccuracy"; "Latitude"; "Longitude"; "Elevation";
   "NumberSatellites"; "FixTime"; "Measured_Ortho"; "Calculated_Ortho"].

(** The dictionary literal of lines 183-190. *)
Definition row_dict (row : dict) (measured_ortho calculated_ortho : float) : dict :=
  list_to_map
    [("Name", get row "Name");
     ("Ortho_Measured", get row "Ortho_Measured");
     ("ReceiverName", get row "ReceiverName");
     ("HorizontalAccuracy", get row "HorizontalAccuracy");
     ("VerticalAccuracy", get row "VerticalAccuracy");
     ("Latitude", get row "Latitude");
     ("Longitude", get row "Longitude");
     ("Elevation", get row "Elevation");
     ("NumberSatellites", get row "NumberSatellites");
     ("FixTime", get row "FixTime");
     ("Measured_Ortho", VFloat measured_ortho);
     ("Calculated_Ortho", VStr (PyFloat.format_0_2f calculated_ortho))].

(** The body of the loop of [transform], lines 178-192. *)
Definition transform_row (row : dict) : M unit :=
  lat ← lift (py_float (get row "Latitude"));
  lon ← lift (py_float (get row "Longitude"));
  let long := PyFloat.abs lon in
  elev ← lift (py_float (get row "Elevation"));
  calculated_ortho ← postprocess_geoid18 lat long elev;
  om ← lift (py_float (get row "Ortho_Measured"));
  let measured_ortho := PyFloat.sub om rh in
  let rd := row_dict row measured_ortho calculated_ortho in
  AddMessage (MsgWritingRow rd);;
  writerow fieldnames rd.

Definition transform : M unit :=
  AddMessage MsgTransforming;;
  wd ← pwd;
  data_path ← set_path wd "Data";
  csv_path ← set_path data_path "R10Points.csv";
  new_csv_path ← set_path data_path "orthometric_R10Points.csv";
  open_w;;
  writeheader fieldnames;;
  recs ← open_r;
  for_dict_reader recs transform_row.

End Script.

(** ** The host application and [main]

    The script runs inside a desktop application and calls it through
    [arcpy]: it sets three values of the geoprocessing environment, asks for
    the description of a dataset, starts the tool that builds points from a
    table and polls the job the tool returns. The application is an
    oracle: what [Describe] and the tool answer is part of the [session],
    as is the status the job shows at each successive read. The
    environment is taken to hold what is assigned to it. *)

Module Host.

(** An exception in [main]: one of those of the script proper, the
    [KeyError] of a dictionary, or an error of the application. *)
Inductive host_exn : Type :=
| ScriptError (e : exn)
| KeyError
| ExecuteError.

(** How a call ends: it returns, it raises, or it is still in its loop
    when the steps allowed to it are spent. *)
Inductive outcome (A : Type) : Type :=
| Returned (a : A)
| Raised (e : host_exn)
| Waiting.

Arguments Returned {A} a.
Arguments Raised {A} e.
Arguments Waiting {A}.

(** A spatial reference, with its [name]. *)
Record spatial_reference : Type := { name : string }.

(** [arcpy.env] *)
Record arc_env : Type := {
  workspace : option string;
  overwriteOutput : bool;
  outputCoordinateSystem : option spatial_reference
}.

(** The [Result] object of a tool: the value of [status] at each
    successive read, and what [getMessages] returns. *)
Record job : Type := { status_at : nat -> Z; getMessages : string }.

(** The arguments of [arcpy.management.XYTableToPoint]. *)
Record tool_call : Type := {
  in_table : string;
  out_feature_class : string;
  x_field : string;
  y_field : string
}.

(** The messages of the functions that face the application. *)
Inductive host_message : Type :=
| MsgSpatialReference (sr_name : string)
| MsgWorkspace (path : option string)
| MsgOverwriteOutput (b : bool)
| MsgOutputCoordinateSystem (sr_name : string)
| MsgJobStatus (status : Z) (text : string)
| MsgJobStatusInLoop (status : Z) (text : string)
| MsgJobMessages (text : string).

Record session : Type := {
  (** the world of the script proper *)
  wld : world;
  (** the geoprocessing environment *)
  env : arc_env;
  (** what [arcpy.Describe(dataset).spatialReference] gives, in an
      environment *)
  describe : arc_env -> string -> host_exn + spatial_reference;
  (** what [XYTableToPoint] gives, in an environment and a world *)
  xy_table_to_point : arc_env -> world -> tool_call -> host_exn + job;
  (** the messages of the functions of this section, oldest first, each
      with the number of messages of the script proper shown before it *)
  window : list (nat * host_message);
  (** the calls of the tool so far *)
  tools : list tool_call;
  (** how many times the status of a job has been read *)
  polls : nat;
  (** how many times [time.sleep(0.2)] has been called *)
  sleeps : nat
}.

Definition HM (A : Type) : Type := session -> outcome A * session.

#[global] Instance HM_ret : MRet HM := fun A a s => (Returned a, s).

#[global] Instance HM_bind : MBind HM := fun A B f m s =>
  match m s with
  | (Returned a, s') => f a s'
  | (Raised e, s') => (Raised e, s')
  | (Waiting, s') => (Waiting, s')
  end.

Definition raise {A : Type} (e : host_exn) : HM A := fun s => (Raised e, s).

(** A computation of the script proper, run on the world of the session. *)
Definition script {A : Type} (m : M A) : HM A := fun s =>
  let '(r, w') := m (wld s) in
  (match r with
   | inr a => Returned a
   | inl e => Raised (ScriptError e)
   end,
   {| wld := w'; env := env s; describe := describe s;
      xy_table_to_point := xy_table_to_point s; window := window s;
      tools := tools s; polls := polls s; sleeps := sleeps s |}).

Definition AddMessage (m : host_message) : HM unit := fun s =>
  (Returned tt,
   {| wld := wld s; env := env s; describe := describe s;
      xy_table_to_point := xy_table_to_point s;
      window := window s ++ [(length (messages (wld s)), m)];
      tools := tools s; polls := polls s; sleeps := sleeps s |}).

Definition get_env : HM arc_env := fun s => (Returned (env s), s).

Definition set_env (e : arc_env) : HM unit := fun s =>
  (Returned tt,
   {| wld := wld s; env := e; describe := describe s;
      xy_table_to_point := xy_table_to_point s; window := window s;
      tools := tools s; polls := polls s; sleeps := sleeps s |}).

(** [arcpy.Describe(dataset).spatialReference] *)
Definition Describe (dataset : string) : HM spatial_reference := fun s =>
  (match describe s (env s) dataset with
   | inr sr => Returned sr
   | inl e => Raised e
   end, s).

(** [arcpy.management.XYTableToPoint(...)] *)
Definition XYTableToPoint (table out_name x y : string) : HM job := fun s =>
  let call := {| in_table := table; out_feature_class := out_name;
                 x_field := x; y_field := y |} in
  (match xy_table_to_point s (env s) (wld s) call with
   | inr j => Returned j
   | inl e => Raised e
   end,
   {| wld := wld s; env := env s; describe := describe s;
      xy_table_to_point := xy_table_to_point s; window := window s;
      tools := tools s ++ [call]; polls := polls s; sleeps := sleeps s |}).

(** [result.status] *)
Definition read_status (result : job) : HM Z := fun s =>
  (Returned (status_at result (polls s)),
   {| wld := wld s; env := env s; describe := describe s;
      xy_table_to_point := xy_table_to_point s; window := window s;
      tools := tools s; polls := S (polls s); sleeps := sleeps s |}).

(** [time.sleep(0.2)] *)
Definition sleep : HM unit := fun s =>
  (Returned tt,
   {| wld := wld s; env := env s; describe := describe s;
      xy_table_to_point := xy_table_to_point s; window := window s;
      tools := tools s; polls := polls s; sleeps := S (sleeps s) |}).

Section Functions.

Context `{Runtime}.

Definition import_spatial_reference (dataset : string) : HM spatial_reference :=
  spatial_reference ← Describe dataset;
  AddMessage (MsgSpatialReference (name spatial_reference));;
  mret spatial_reference.

Definition setup_env (workspace_path spatial_ref_dataset : string) : HM unit :=
  e ← get_env;
  set_env {| workspace := Some workspace_path;
             overwriteOutput := overwriteOutput e;
             outputCoordinateSystem := outputCoordinateSystem e |};;
  e ← get_env;
  AddMessage (MsgWorkspace (workspace e));;
  set_env {| workspace := workspace e;
             overwriteOutput := true;
             outputCoordinateSystem := outputCoordinateSystem e |};;
  e ← get_env;
  AddMessage (MsgOverwriteOutput (overwriteOutput e));;
  sr ← import_spatial_reference spatial_ref_dataset;
  e ← get_env;
  set_env {| workspace := workspace e;
             overwriteOutput := overwriteOutput e;
             outputCoordinateSystem := Some sr |};;
  e ← get_env;
  match outputCoordinateSystem e with
  | Some cs => AddMessage (MsgOutputCoordinateSystem (name cs))
  | None => raise (ScriptError AttributeError)
  end.

(** The dictionary of [check_status]. *)
Definition status_code : gmap Z string :=
  list_to_map
    [(0, "New"); (1, "Submitted"); (2, "Waiting"); (3, "Executing");
     (4, "Succeeded"); (5, "Failed"); (6, "Timed Out"); (7, "Canceling");
     (8, "Canceled"); (9, "Deleting"); (10, "Deleted")]%Z.

(** [status_code[key]] *)
Definition status_code_getitem (key : Z) : HM string :=
  match status_code !! key with
  | Some text => mret text
  | None => raise KeyError
  end.

(** The loop [while result.status < 4] of [check_status], for [fuel] turns
    at most. *)
Fixpoint wait_loop (fuel : nat) (result : job) : HM unit :=
  match fuel with
  | O => fun s => (Waiting, s)
  | S fuel' =>
      st ← read_status result;
      if (st <? 4)%Z then
        shown ← read_status result;
        key ← read_status result;
        text ← status_code_getitem key;
        AddMessage (MsgJobStatusInLoop shown text);;
        sleep;;
        wait_loop fuel' result
      else mret tt
  end.

Definition check_status (fuel : nat) (result : job) : HM string :=
  shown ← read_status result;
  key ← read_status result;
  text ← status_code_getitem key;
  AddMessage (MsgJobStatus shown text);;
  wait_loop fuel result;;
  let messages := getMessages result in
  AddMessage (MsgJobMessages messages);;
  mret messages.

Definition main (fuel : nat) : HM unit :=
  let spatial_ref_dataset := "usgs_dem_05m" in
  wd ← script pwd;
  db ← script (set_path wd "R10FieldMaps.gdb");
  setup_env db spatial_ref_dataset;;
  wd' ← script pwd;
  data_path ← script (set_path wd' "Data");
  csv_file ← script (set_path data_path "orthometric_R10Points.csv");
  let file_name := "orthometric_R10Points" in
  script transform;;
  generate_points ← XYTableToPoint csv_file file_name "Longitude" "Latitude";
  check_status fuel generate_points;;
  mret tt.

End Functions.

End Host.

(** ** A runtime to run the script on

    Executable stand-ins for the library functions of [Runtime], used to
    evaluate the script on concrete files and pages. They follow CPython on
    plain ASCII input: decimal literals with an optional sign, fraction and
    exponent, [inf], [infinity] and [nan]; the shortest decimal text that
    reads back as the same float, in fixed or exponent notation as [repr]
    chooses; a page whose first [pre] element holds text only; bytes that
    are ASCII; paths joined by a backslash. *)

Module Reference.

Definition digit_val (c : ascii) : N := (N_of_ascii c - 48)%N.

(** The leading digits of [s] folded into [acc], how many they are, and
    the rest of [s]. *)
Fixpoint take_digits (s : string) (acc : N) (cnt : nat) : N * nat * string :=
  match s with
  | String c s' =>
      if PyStr.is_digit c then take_digits s' (10 * acc + digit_val c)%N (S cnt)
      else (acc, cnt, s)
  | EmptyString => (acc, cnt, s)
  end.

Definition take_sign (s : string) : bool * string :=
  match s with
  | String "-" s' => (true, s')
  | String "+" s' => (false, s')
  | _ => (false, s)
  end.

Fixpoint lstrip (s : string) : string :=
  match s with
  | String c s' => if PyStr.isspace c then lstrip s' else s
  | EmptyString => s
  end.

Fixpoint rstrip (s : string) : string :=
  match s with
  | String c s' =>
      match rstrip s' with
      | EmptyString => if PyStr.isspace c then EmptyString else String c EmptyString
      | t => String c t
      end
  | EmptyString => s
  end.

Definition lower (c : ascii) : ascii :=
  let n := N_of_ascii c in
  if ((65 <=? n) && (n <=? 90))%N then ascii_of_N (n + 32) else c.

Fixpoint lowercase (s : string) : string :=
  match s with
  | String c s' => String (lower c) (lowercase s')
  | EmptyString => s
  end.

(** Underscores may stand between two digits, and nowhere else; they are
    dropped. *)
Fixpoint drop_underscores (after_digit : bool) (s : string) : option string :=
  match s with
  | EmptyString => Some EmptyString
  | String c s' =>
      if Ascii.eqb c "_" then
        match s' with
        | String d _ =>
            if (after_digit && PyStr.is_digit d)%bool then drop_underscores false s'
            else None
        | EmptyString => None
        end
      else option_map (String c) (drop_underscores (PyStr.is_digit c) s')
  end.

Definition parse_exponent (s : string) : option Z :=
  match s with
  | EmptyString => Some 0%Z
  | String c s' =>
      if (Ascii.eqb c "e" || Ascii.eqb c "E")%bool then
        let '(neg, s'') := take_sign s' in
        match take_digits s'' 0 0 with
        | (_, O, _) => None
        | (n, S _, EmptyString) => Some (if neg then - Z.of_N n else Z.of_N n)%Z
        | _ => None
        end
      else None
  end.

Definition parse_decimal (neg : bool) (body : string) : option float :=
  let '(ip, n1, rest1) := take_digits body 0 0 in
  let '(m, n2, rest2) :=
    match rest1 with
    | String "." r => take_digits r ip 0
    | _ => (ip, O, rest1)
    end in
  match (n1 + n2)%nat with
  | O => None
  | S _ =>
      match parse_exponent rest2 with
      | Some ex => Some (PyFloat.of_decimal neg m (ex - Z.of_nat n2))
      | None => None
      end
  end.

Definition ref_float_of_str (s : string) : option float :=
  let '(neg, body) := take_sign (rstrip (lstrip s)) in
  let low := lowercase body in
  if (String.eqb low "inf" || String.eqb low "infinity")%bool
  then Some (S754_infinity neg)
  else if String.eqb low "nan" then Some S754_nan
  else
    match drop_underscores false body with
    | Some digits => parse_decimal neg digits
    | None => None
    end.

Definition float_eqb (x y : float) : bool :=
  match x, y with
  | S754_zero a, S754_zero b => Bool.eqb a b
  | S754_infinity a, S754_infinity b => Bool.eqb a b
  | S754_nan, S754_nan => true
  | S754_finite a m e, S754_finite b n f =>
      (Bool.eqb a b && Pos.eqb m n && Z.eqb e f)%bool
  | _, _ => false
  end.

(** [m * 2^e * 10^s] as a quotient. *)
Definition scaled (m : positive) (e s : Z) : N * N :=
  let '(n2, d2) :=
    match e with
    | Zneg k => (Npos m, Npos (Pos.pow 2 k))
    | Z0 => (Npos m, 1%N)
    | Zpos k => (Npos m * Npos (Pos.pow 2 k), 1)%N
    end in
  match s with
  | Zneg k => (n2, d2 * Npos (Pos.pow 10 k))%N
  | Z0 => (n2, d2)
  | Zpos k => (n2 * Npos (Pos.pow 10 k), d2)%N
  end.

(** The least [k], from [k0] on, with [m * 2^e < 10^k]. *)
Fixpoint find_decpt (fuel : nat) (m : positive) (e k0 : Z) : Z :=
  match fuel with
  | O => k0
  | S fuel' =>
      let '(n, d) := scaled m e (- k0) in
      if (n <? d)%N then k0 else find_decpt fuel' m e (k0 + 1)%Z
  end.

(** The position of the decimal point of [m * 2^e]: the search starts one
    below the estimate that the binary logarithm gives. *)
Definition decpt_of (m : positive) (e : Z) : Z :=
  let b := (Zpos (digits2_pos m) + e)%Z in
  find_decpt 4 m e ((b - 1) * 30103 / 100000 - 1)%Z.

(** The [p] significant digits nearest to [m * 2^e], whose decimal point
    is at [k], with the position of the decimal point after rounding. *)
Definition sig_digits (m : positive) (e k : Z) (p : positive) : N * Z :=
  let '(n, d) := scaled m e (Zpos p - k) in
  let D := PyFloat.round_half_even n d in
  if (D =? Npos (Pos.pow 10 p))%N
  then ((Npos (Pos.pow 10 p) / 10)%N, (k + 1)%Z)
  else (D, k).

Fixpoint shortest (fuel : nat) (m : positive) (e k : Z) (p : positive) : N * Z :=
  let '(D, k') := sig_digits m e k p in
  match fuel with
  | O => (D, k')
  | S fuel' =>
      if float_eqb (PyFloat.of_decimal false D (k' - Zpos p)) (S754_finite false m e)
      then (D, k')
      else shortest fuel' m e k (Pos.succ p)
  end.

Fixpoint zeros (n : nat) : string :=
  match n with
  | O => EmptyString
  | S n' => String "0" (zeros n')
  end.

Definition exp_digits (n : N) : string :=
  if (n <? 10)%N then String "0" (PyFloat.string_of_N n) else PyFloat.string_of_N n.

Definition repr_finite (m : positive) (e : Z) : string :=
  let '(D, decpt) := shortest 16 m e (decpt_of m e) 1 in
  let ds := PyFloat.string_of_N D in
  let len := Z.of_nat (String.length ds) in
  if ((-4 <? decpt) && (decpt <=? 16))%Z then
    if (decpt <=? 0)%Z then "0." +:+ zeros (Z.to_nat (- decpt)) +:+ ds
    else if (len <=? decpt)%Z then ds +:+ zeros (Z.to_nat (decpt - len)) +:+ ".0"
    else String.substring 0 (Z.to_nat decpt) ds +:+ "." +:+
         String.substring (Z.to_nat decpt) (Z.to_nat (len - decpt)) ds
  else
    let x := (decpt - 1)%Z in
    String.substring 0 1 ds +:+
    (if (len <=? 1)%Z then "" else "." +:+ String.substring 1 (Z.to_nat (len - 1)) ds) +:+
    "e" +:+ (if (x <? 0)%Z then "-" else "+") +:+ exp_digits (Z.abs_N x).

Definition ref_str_of_float (x : float) : string :=
  match x with
  | S754_zero s => PyFloat.sign_string s +:+ "0.0"
  | S754_infinity s => PyFloat.sign_string s +:+ "inf"
  | S754_nan => "nan"
  | S754_finite s m e => PyFloat.sign_string s +:+ repr_finite m e
  end.

(** The text from the start of [s] up to the first occurrence of [stop],
    and what follows that occurrence. *)
Fixpoint until (stop s : string) : option (string * string) :=
  if String.prefix stop s
  then Some (EmptyString, String.substring (String.length stop) (String.length s) s)
  else match s with
       | String c s' =>
           match until stop s' with
           | Some (a, b) => Some (String c a, b)
           | None => None
           end
       | EmptyString => None
       end.

Fixpoint has_char (c : ascii) (s : string) : bool :=
  match s with
  | String d s' => (Ascii.eqb c d || has_char c s')%bool
  | EmptyString => false
  end.

Definition ref_pre_string (html : string) : option (option string) :=
  match until "<pre>" html with
  | None => None
  | Some (_, after) =>
      match until "</pre>" after with
      | None => Some None
      | Some (inner, _) => if has_char "<" inner then Some None else Some (Some inner)
      end
  end.

Fixpoint is_ascii (s : string) : bool :=
  match s with
  | String c s' => ((N_of_ascii c <? 128)%N && is_ascii s')%bool
  | EmptyString => true
  end.

Definition ref_decode_utf8 (b : string) : option string :=
  if is_ascii b then Some b else None.

Definition ref_path_join (a b : string) : string := a +:+ "\" +:+ b.

Definition runtime : Runtime :=
  {| float_of_str := ref_float_of_str;
     str_of_float := ref_str_of_float;
     pre_string := ref_pre_string;
     decode_utf8 := ref_decode_utf8;
     path_join := ref_path_join |}.

End Reference.

(** ** Files and pages to run the script on *)

Module Fixture.

Definition l0 : string := "".
Definition l1 : string := " Output from GEOID18".
Definition l2 : string := " Station Name   latitude   longitude   N   error".
Definition l3 : string :=
  " USER LOCATION   40 03  2.48040   105 16 55.11000    -16.123   0.049".

Definition nl : string := String PyStr.newline EmptyString.

(** A preformatted block in the format of the calculator's answer: its
    fourth line ends with the undulation and its error. *)
Definition block : string :=
  l0 +:+ nl +:+ l1 +:+ nl +:+ l2 +:+ nl +:+ l3 +:+ nl.

Definition page : string :=
  "<html><body><pre>" +:+ block +:+ "</pre></body></html>".

(** A page whose preformatted block has two lines only. *)
Definition short_page : string :=
  "<html><body><pre>" +:+ nl +:+ " ERROR</pre></body></html>".

(** The numbers [-16.123] and [0.049]. *)
Definition undulation : float := PyFloat.of_decimal true 16123 (-3).
Definition error : float := PyFloat.of_decimal false 49 (-3).

(** The numbers [40.050689], [105.281975] and [1584.5]. *)
Definition lat : float := PyFloat.of_decimal false 40050689 (-6).
Definition long : float := PyFloat.of_decimal false 105281975 (-6).
Definition h : float := PyFloat.of_decimal false 15845 (-1).

Definition header : list string :=
  ["Name"; "Ortho_Measured"; "ReceiverName"; "HorizontalAccuracy";
   "VerticalAccuracy"; "Latitude"; "Longitude"; "Elevation";
   "NumberSatellites"; "FixTime"].

Definition p1 : list string :=
  ["P1"; "1601.2"; "R10"; "0.01"; "0.02"; "40.050689"; "-105.281975";
   "1584.5"; "12"; "2022-10-01"].

Definition p2 : list string :=
  ["P2"; "1598.75"; "R10"; "0.02"; "0.03"; "40.05"; "-105.28";
   "1581.25"; "11"; "2022-10-02"].

(** The measured height is not a number. *)
Definition p3 : list string :=
  ["P3"; "n/a"; "R10"; "0.02"; "0.03"; "40.05"; "-105.28";
   "1581.25"; "11"; "2022-10-02"].

(** The elevation is infinite. *)
Definition p4 : list string :=
  ["P4"; "1598.75"; "R10"; "0.02"; "0.03"; "40.05"; "-105.28";
   "inf"; "11"; "2022-10-02"].

(** The records written for [p1] and [p2] when the service answers
    [page]. *)
Definition o1 : list string := p1 ++ ["1599.65"; "1600.62"].
Definition o2 : list string := p2 ++ ["1597.2"; "1597.37"].

Definition answer (html : string) : response :=
  {| status_code := 200; content := html |}.

Definition serve (html : string) : string -> exn + response :=
  fun _ => inr (answer html).

Definition unreachable : string -> exn + response :=
  fun _ => inl RequestException.

Definition world_of (nt : string -> exn + response)
    (recs : list (list string)) : world :=
  {| script_dir := "C:\R10FieldMaps";
     net := nt;
     in_csv := Some (map inr recs);
     out_csv := [];
     sent := [];
     messages := [] |}.

(** Two points under the documented header. *)
Definition survey : world := world_of (serve page) [header; p1; p2].

(** The same file with a blank line between the points. *)
Definition survey_blank : world := world_of (serve page) [header; p1; []; p2].

(** The same points in a file that has a further column. *)
Definition header_notes : list string := header ++ ["Notes"].
Definition survey_notes : world :=
  world_of (serve page)
    [header_notes; p1 ++ ["north corner"]; p2 ++ ["fence"]].

(** A file whose second point cannot be converted. *)
Definition survey_bad : world := world_of (serve page) [header; p1; p3; p2].

(** A file with another first point, of infinite elevation. *)
Definition survey_other : world := world_of (serve page) [header; p4; p2].

(** The survey when the service cannot be reached, and when it answers
    with a page of two lines. *)
Definition survey_offline : world := world_of unreachable [header; p1; p2].
Definition survey_short_page : world :=
  world_of (serve short_page) [header; p1; p2].

(** A record that stops before the last two fields, and one that stops
    before the elevation. *)
Definition survey_truncated : world :=
  world_of (serve page) [header; take 8 p1; p2].
Definition survey_no_elevation : world :=
  world_of (serve page) [header; take 7 p1; p2].

End Fixture.

(** ** Further inputs and sessions *)

Module Scenario.

Import Fixture.

(** A file with the header and blank lines only. *)
Definition survey_header_only : world := world_of (serve page) [header; []; []].

(** No input file. *)
Definition survey_missing : world :=
  {| script_dir := script_dir survey; net := net survey; in_csv := None;
     out_csv := [o1]; sent := []; messages := [] |}.

(** The point [p1] with its longitude given east of Greenwich, and in
    another spelling of the same numbers. *)
Definition p1_east : list string :=
  ["P1 east"; "1601.2"; "R10"; "0.01"; "0.02"; "+40.050689"; "105.2819750";
   "1584.50"; "12"; "2022-10-01"].

Definition survey_east : world := world_of (serve page) [header; p1_east].

(** The answer of the service with the status of a server error. *)
Definition serve_error (html : string) : string -> exn + response :=
  fun _ => inr {| status_code := 500; content := html |}.

Definition survey_server_error : world :=
  world_of (serve_error page) [header; p1; p2].

(** The block of [page] with lines that end in CR LF. *)
Definition cr : string := String (ascii_of_nat 13) EmptyString.

Definition block_crlf : string :=
  l0 +:+ cr +:+ nl +:+ l1 +:+ cr +:+ nl +:+ l2 +:+ cr +:+ nl +:+ l3 +:+ cr +:+ nl.

Definition page_crlf : string :=
  "<html><body><pre>" +:+ block_crlf +:+ "</pre></body></html>".

(** The spatial reference of the dataset. *)
Definition nad83 : Host.spatial_reference :=
  {| Host.name := "NAD_1983_UTM_Zone_13N" |}.

(** A job that is Executing at its first seven reads and Failed from
    then on; one that stays Executing; one of a status that has no name. *)
Definition failing_job : Host.job :=
  {| Host.status_at := fun n => if (n <? 8)%nat then 3%Z else 5%Z;
     Host.getMessages := "ERROR 000732: Input Table does not exist" |}.

Definition stuck_job : Host.job :=
  {| Host.status_at := fun _ => 3%Z; Host.getMessages := "" |}.

Definition odd_job : Host.job :=
  {| Host.status_at := fun _ => 11%Z; Host.getMessages := "" |}.

(** A session in a world, with what [Describe] and the tool answer. *)
Definition session_of (w : world)
    (d : Host.host_exn + Host.spatial_reference)
    (t : Host.host_exn + Host.job) : Host.session :=
  {| Host.wld := w;
     Host.env := {| Host.workspace := None; Host.overwriteOutput := false;
                    Host.outputCoordinateSystem := None |};
     Host.describe := fun _ _ => d;
     Host.xy_table_to_point := fun _ _ _ => t;
     Host.window := []; Host.tools := []; Host.polls := 0; Host.sleeps := 0 |}.

(** The dataset is not there. *)
Definition session_no_dataset : Host.session :=
  session_of survey (inl Host.ExecuteError) (inr failing_job).

(** The second point of the file cannot be converted. *)
Definition session_bad_file : Host.session :=
  session_of survey_bad (inr nad83) (inr failing_job).

(** All goes well up to the tool, whose job fails. *)
Definition session_failing_job : Host.session :=
  session_of survey (inr nad83) (inr failing_job).

End Scenario.

(** ** Vocabulary of the properties *)

(** What a computation leaves alone: the script directory, the network and
    the input file; messages are only ever added. *)
Definition extends (w w' : world) : Prop :=
  script_dir w' = script_dir w /\ net w' = net w /\ in_csv w' = in_csv w /\
  exists ms, messages w' = messages w ++ ms.

(** The rows [csv.DictReader] yields from the records after the header:
    the records that are not blank, up to the first error of the reader. *)
Fixpoint data_rows (recs : record_stream) : list (list string) :=
  match recs with
  | [] => []
  | inl _ :: _ => []
  | inr [] :: rest => data_rows rest
  | inr cells :: rest => cells :: data_rows rest
  end.

(** The keys of the dictionary literal in [transform] whose value is
    [row.get] of the same key. *)
Definition pass_through : list string :=
  ["Name"; "Ortho_Measured"; "ReceiverName"; "HorizontalAccuracy";
   "VerticalAccuracy"; "Latitude"; "Longitude"; "Elevation";
   "NumberSatellites"; "FixTime"].

(** The keys of that literal whose value is computed. *)
Definition derived : list string := ["Measured_Ortho"; "Calculated_Ortho"].


(** Every character of a text satisfies a test. *)
Fixpoint string_forall (p : ascii -> bool) (s : string) : bool :=
  match s with
  | EmptyString => true
  | String c s' => p c && string_forall p s'
  end.


(** The fields [transform] converts with [float]. *)
Definition numeric_fields : list string :=
  ["Latitude"; "Longitude"; "Elevation"; "Ortho_Measured"].

Section Vocabulary.

Context `{Runtime}.

(** The cells written for a row, given the two heights computed. *)
Definition written_cells (row : dict) (measured_ortho calculated_ortho : float) :
    list string :=
  map cell_text
    [get row "Name"; get row "Ortho_Measured"; get row "ReceiverName";
     get row "HorizontalAccuracy"; get row "VerticalAccuracy";
     get row "Latitude"; get row "Longitude"; get row "Elevation";
     get row "NumberSatellites"; get row "FixTime";
     VFloat measured_ortho;
     VStr (PyFloat.format_0_2f calculated_ortho)].

(** In a run started in [w], the row [row] was converted, the service was
    asked at [url] and the record [o] was written. *)
Definition row_written (w : world) (row : dict) (o : list string)
    (url : string) : Prop :=
  exists lat lon elev om H0 wi w1,
    extends w wi /\
    py_float (get row "Latitude") = inr lat /\
    py_float (get row "Longitude") = inr lon /\
    py_float (get row "Elevation") = inr elev /\
    postprocess_geoid18 lat (PyFloat.abs lon) elev wi = (inr H0, w1) /\
    py_float (get row "Ortho_Measured") = inr om /\
    o = written_cells row (PyFloat.sub om rh) H0 /\
    url = geoid18_url lat (PyFloat.abs lon).

(** A page [parse_geoid18_response] cannot read: no preformatted text,
    no fourth line in it, or a fourth line that does not end in two
    tokens that [float] accepts. *)
Inductive page_unusable (html : string) : Prop :=
| no_pre_text :
    pre_string html = None \/ pre_string html = Some None ->
    page_unusable html
| no_fourth_line (block : string) :
    pre_string html = Some (Some block) ->
    (length (PyStr.split_on PyStr.newline block) <= 3)%nat ->
    page_unusable html
| no_numeric_tokens (block l0 l1 l2 line : string) (rest : list string) :
    pre_string html = Some (Some block) ->
    PyStr.split_on PyStr.newline block = l0 :: l1 :: l2 :: line :: rest ->
    (length (PyStr.split line) < 2)%nat \/
    (exists toks tN tE,
       PyStr.split line = toks ++ [tN; tE] /\
       (float_of_str tN = None \/ float_of_str tE = None)) ->
    page_unusable html.

(** A record on which the loop of [transform] raises, under the network
    [nt] and the header [hdr]: the reader raises on it; one of the four
    numeric fields is missing or is not a number; the service cannot be
    reached; the answer is not text or is a page that cannot be read. *)
Inductive record_fails (nt : string -> exn + response) (hdr : list string) :
    exn + list string -> Prop :=
| reader_raises (e : exn) :
    record_fails nt hdr (inl e)
| field_not_a_number (c : string) (cs : list string) (k : string) (e : exn) :
    k ∈ numeric_fields ->
    py_float (get (dict_row hdr (c :: cs)) k) = inl e ->
    record_fails nt hdr (inr (c :: cs))
| service_unreachable (c : string) (cs : list string) (lat lon : float) (e : exn) :
    py_float (get (dict_row hdr (c :: cs)) "Latitude") = inr lat ->
    py_float (get (dict_row hdr (c :: cs)) "Longitude") = inr lon ->
    nt (geoid18_url lat (PyFloat.abs lon)) = inl e ->
    record_fails nt hdr (inr (c :: cs))
| answer_not_text (c : string) (cs : list string) (lat lon : float) (r : response) :
    py_float (get (dict_row hdr (c :: cs)) "Latitude") = inr lat ->
    py_float (get (dict_row hdr (c :: cs)) "Longitude") = inr lon ->
    nt (geoid18_url lat (PyFloat.abs lon)) = inr r ->
    decode_utf8 (content r) = None ->
    record_fails nt hdr (inr (c :: cs))
| page_rejected (c : string) (cs : list string) (lat lon : float) (r : response)
    (html : string) :
    py_float (get (dict_row hdr (c :: cs)) "Latitude") = inr lat ->
    py_float (get (dict_row hdr (c :: cs)) "Longitude") = inr lon ->
    nt (geoid18_url lat (PyFloat.abs lon)) = inr r ->
    decode_utf8 (content r) = Some html ->
    page_unusable html ->
    record_fails nt hdr (inr (c :: cs)).

End Vocabulary.

(** ** Vocabulary of the further properties *)

(** What a computation adds to the world: requests, messages and records. *)
Record effects : Type := {
  e_sent : list string;
  e_messages : list message;
  e_written : list (list string)
}.

Definition no_effect : effects :=
  {| e_sent := []; e_messages := []; e_written := [] |}.

Definition effects_app (d1 d2 : effects) : effects :=
  {| e_sent := e_sent d1 ++ e_sent d2;
     e_messages := e_messages d1 ++ e_messages d2;
     e_written := e_written d1 ++ e_written d2 |}.

Definition affect (w : world) (d : effects) : world :=
  {| script_dir := script_dir w; net := net w; in_csv := in_csv w;
     out_csv := out_csv w ++ e_written d;
     sent := sent w ++ e_sent d;
     messages := messages w ++ e_messages d |}.

(** A computation that reads nothing of the world but the network: run in
    two worlds with the same network, it gives the same result and adds the
    same requests, messages and records to each. *)
Definition net_determined {A : Type} (m : M A) : Prop :=
  forall w1 w2, net w1 = net w2 ->
  exists d, (m w1).1 = (m w2).1 /\ (m w1).2 = affect w1 d /\ (m w2).2 = affect w2 d.

(** The same world with another input file. *)
Definition with_input (i : option record_stream) (w : world) : world :=
  {| script_dir := script_dir w; net := net w; in_csv := i;
     out_csv := out_csv w; sent := sent w; messages := messages w |}.

Section Start.

Context `{Runtime}.

(** The messages [transform] shows before it opens a file. *)
Definition prelude_messages (dir : string) : list message :=
  [MsgTransforming; MsgWd dir; MsgPathName (path_join dir "Data");
   MsgPathName (path_join (path_join dir "Data") "R10Points.csv");
   MsgPathName (path_join (path_join dir "Data") "orthometric_R10Points.csv")].

(** The world when [transform] has written the header and is about to open
    the input file. *)
Definition started (w : world) : world :=
  {| script_dir := script_dir w; net := net w; in_csv := in_csv w;
     out_csv := [fieldnames]; sent := sent w;
     messages := messages w ++ prelude_messages (script_dir w) |}.

End Start.

(** The records that are not blank. *)
Definition is_blank (r : exn + list string) : bool :=
  match r with
  | inr [] => true
  | _ => false
  end.

Definition without_blanks (recs : record_stream) : record_stream :=
  List.filter (fun r => negb (is_blank r)) recs.

(** What a run leaves behind: its result, the output file, the requests and
    the messages. *)
Definition observed (r : (exn + unit) * world) :
    (exn + unit) * list (list string) * list string * list message :=
  (r.1, out_csv r.2, sent r.2, messages r.2).

Section Calls.

Context `{Runtime}.

(** The environment when [setup_env] asks for the spatial reference. *)
Definition env_before_describe (s : Host.session) : Host.arc_env :=
  {| Host.workspace :=
       Some (path_join (script_dir (Host.wld s)) "R10FieldMaps.gdb");
     Host.overwriteOutput := true;
     Host.outputCoordinateSystem := Host.outputCoordinateSystem (Host.env s) |}.

(** The environment when [setup_env] has returned. *)
Definition env_after_setup (s : Host.session) (sr : Host.spatial_reference) :
    Host.arc_env :=
  {| Host.workspace :=
       Some (path_join (script_dir (Host.wld s)) "R10FieldMaps.gdb");
     Host.overwriteOutput := true;
     Host.outputCoordinateSystem := Some sr |}.

(** The call of the tool in [main]. *)
Definition points_call (dir : string) : Host.tool_call :=
  {| Host.in_table := path_join (path_join dir "Data") "orthometric_R10Points.csv";
     Host.out_feature_class := "orthometric_R10Points";
     Host.x_field := "Longitude";
     Host.y_field := "Latitude" |}.

(** The world when [main] calls [transform]. *)
Definition world_before_transform (w : world) : world :=
  let dir := script_dir w in
  {| script_dir := dir; net := net w; in_csv := in_csv w;
     out_csv := out_csv w; sent := sent w;
     messages := messages w ++
       [MsgWd dir; MsgPathName (path_join dir "R10FieldMaps.gdb");
        MsgWd dir; MsgPathName (path_join dir "Data");
        MsgPathName (path_join (path_join dir "Data") "orthometric_R10Points.csv")] |}.

End Calls.

(** * Properties *)

(** ** List indexing and splitting *)

Lemma getitem_fourth {A : Type} (a b c d : A) (rest : list A) :
  PyStr.getitem (a :: b :: c :: d :: rest) 3 = inr d.
Proof.
  unfold PyStr.getitem.
  replace (3 <? 0)%Z with false by reflexivity.
  assert (Hlen : (3 < Z.of_nat (length (a :: b :: c :: d :: rest)))%Z)
    by (simpl length; lia).
  apply Z.ltb_lt in Hlen. rewrite Hlen. reflexivity.
Qed.

Lemma getitem_short {A : Type} (l : list A) :
  (length l <= 3)%nat -> PyStr.getitem l 3 = inl IndexError.
Proof.
  intros Hlen. unfold PyStr.getitem.
  replace (3 <? 0)%Z with false by reflexivity.
  assert (Hge : (3 <? Z.of_nat (length l))%Z = false) by (apply Z.ltb_ge; lia).
  rewrite Hge. reflexivity.
Qed.

Lemma getitem_neg {A : Type} (l : list A) (k : nat) (x : A) :
  (0 < k)%nat ->
  nth_error l (length l - k) = Some x ->
  (k <= length l)%nat ->
  PyStr.getitem l (- Z.of_nat k) = inr x.
Proof.
  intros Hk Hnth Hle. unfold PyStr.getitem.
  assert (Hneg : (- Z.of_nat k <? 0)%Z = true) by (apply Z.ltb_lt; lia).
  rewrite Hneg.
  assert (H0 : (0 <=? - Z.of_nat k + Z.of_nat (length l))%Z = true)
    by (apply Z.leb_le; lia).
  assert (H1 : (- Z.of_nat k + Z.of_nat (length l) <? Z.of_nat (length l))%Z = true)
    by (apply Z.ltb_lt; lia).
  rewrite H0, H1. simpl andb.
  replace (Z.to_nat (- Z.of_nat k + Z.of_nat (length l))) with (length l - k)%nat by lia.
  rewrite Hnth. reflexivity.
Qed.

Lemma getitem_second_to_last {A : Type} (pre : list A) (a b : A) :
  PyStr.getitem (pre ++ [a; b]) (-2) = inr a.
Proof.
  apply (getitem_neg (pre ++ [a; b]) 2 a); rewrite ?length_app; simpl; try lia.
  replace (length pre + 2 - 2)%nat with (length pre + 0)%nat by lia.
  rewrite nth_error_app2 by lia.
  replace (length pre + 0 - length pre)%nat with 0%nat by lia. reflexivity.
Qed.

Lemma getitem_last {A : Type} (pre : list A) (a b : A) :
  PyStr.getitem (pre ++ [a; b]) (-1) = inr b.
Proof.
  apply (getitem_neg (pre ++ [a; b]) 1 b); rewrite ?length_app; simpl; try lia.
  replace (length pre + 2 - 1)%nat with (length pre + 1)%nat by lia.
  rewrite nth_error_app2 by lia.
  replace (length pre + 1 - length pre)%nat with 1%nat by lia. reflexivity.
Qed.

Lemma getitem_neg_short {A : Type} (l : list A) (k : nat) :
  (length l < k)%nat -> PyStr.getitem l (- Z.of_nat k) = inl IndexError.
Proof.
  intros Hlen. unfold PyStr.getitem.
  assert (Hneg : (- Z.of_nat k <? 0)%Z = true) by (apply Z.ltb_lt; lia).
  rewrite Hneg.
  assert (H0 : (0 <=? - Z.of_nat k + Z.of_nat (length l))%Z = false)
    by (apply Z.leb_gt; lia).
  rewrite H0. reflexivity.
Qed.

Lemma split_on_nonempty (sep : ascii) (s : string) : PyStr.split_on sep s <> [].
Proof.
  destruct s as [|c s]; simpl; [discriminate|].
  destruct (Ascii.eqb c sep); [discriminate|].
  destruct (PyStr.split_on sep s); discriminate.
Qed.

(** A text without the separator is one piece. *)
Lemma split_on_whole (sep : ascii) (a : string) :
  string_forall (fun c => negb (Ascii.eqb c sep)) a = true ->
  PyStr.split_on sep a = [a].
Proof.
  induction a as [|c a IH]; simpl; [reflexivity|].
  intros Hall. apply andb_prop in Hall as [Hc Ha].
  destruct (Ascii.eqb c sep); [discriminate|].
  rewrite (IH Ha). reflexivity.
Qed.

(** The first piece ends at the first separator. *)
Lemma split_on_app (sep : ascii) (a b : string) :
  string_forall (fun c => negb (Ascii.eqb c sep)) a = true ->
  PyStr.split_on sep (a +:+ String sep b) = a :: PyStr.split_on sep b.
Proof.
  induction a as [|c a IH]; intros Hall.
  - simpl. rewrite Ascii.eqb_refl. reflexivity.
  - simpl in Hall. apply andb_prop in Hall as [Hc Ha].
    change (String c a +:+ String sep b) with (String c (a +:+ String sep b)).
    simpl. destruct (Ascii.eqb c sep); [discriminate|].
    rewrite (IH Ha). reflexivity.
Qed.

(** The tokens of [split] are not empty and hold no whitespace. *)
Lemma split_tokens (s : string) :
  Forall (fun t => t <> "" /\ string_forall (fun c => negb (PyStr.isspace c)) t = true)
    (PyStr.split s).
Proof.
  induction s as [|c s IH]; [constructor|].
  simpl. destruct (PyStr.isspace c) eqn:Hc; [exact IH|].
  destruct s as [|c' s'].
  - constructor; [|constructor]. split; [discriminate|]. simpl. rewrite Hc. reflexivity.
  - destruct (PyStr.isspace c') eqn:Hc'.
    + constructor; [|exact IH]. split; [discriminate|]. simpl. rewrite Hc. reflexivity.
    + destruct (PyStr.split (String c' s')) as [|t ts].
      * constructor; [|constructor]. split; [discriminate|]. simpl. rewrite Hc. reflexivity.
      * inversion IH as [|? ? [Hne Ht] Hts]; subst.
        constructor; [|exact Hts]. split; [discriminate|].
        simpl. rewrite Hc, Ht. reflexivity.
Qed.

(** A token followed by whitespace is the first token. *)
Lemma split_token_first (t rest : string) (c : ascii) :
  t <> "" ->
  string_forall (fun c => negb (PyStr.isspace c)) t = true ->
  PyStr.isspace c = true ->
  PyStr.split (t +:+ String c rest) = t :: PyStr.split rest.
Proof.
  intros Hne Ht Hc. induction t as [|x t IH]; [congruence|].
  simpl in Ht. apply andb_prop in Ht as [Hx Ht].
  apply negb_true_iff in Hx.
  change (String x t +:+ String c rest) with (String x (t +:+ String c rest)).
  destruct t as [|y t].
  - simpl. rewrite Hx, Hc. reflexivity.
  - specialize (IH ltac:(discriminate) Ht).
    change (String y t +:+ String c rest) with (String y (t +:+ String c rest)) in *.
    cbn [PyStr.split]. rewrite Hx.
    simpl in Ht. apply andb_prop in Ht as [Hy _]. apply negb_true_iff in Hy.
    rewrite Hy. cbn [PyStr.split] in IH. rewrite Hy in IH.
    fold PyStr.split in *.
    rewrite IH. reflexivity.
Qed.

(** ** Running the script *)

Lemma extends_refl (w : world) : extends w w.
Proof.
  repeat split; exists []; rewrite app_nil_r; reflexivity.
Qed.

Lemma extends_trans (w1 w2 w3 : world) :
  extends w1 w2 -> extends w2 w3 -> extends w1 w3.
Proof.
  intros (Hd & Hn & Hi & ms & Hm) (Hd' & Hn' & Hi' & ms' & Hm').
  repeat split; try congruence.
  exists (ms ++ ms'). rewrite Hm', Hm, app_assoc. reflexivity.
Qed.

Ltac unfold_m :=
  unfold mbind, mret, M_bind, M_ret, lift, raise, AddMessage, requests_get,
    write_record, writeheader, sys_path_0, open_w, open_r in *.

(** Case analysis on the innermost scrutinee of the goal. *)
Ltac step :=
  match goal with
  | |- context [match ?x with _ => _ end] =>
      lazymatch x with
      | context [match _ with _ => _ end] => fail
      | _ => destruct x eqn:?
      end
  end.

Ltac run := repeat (simpl; try step).

Ltac solve_extends :=
  repeat split; simpl; try reflexivity;
  first [ exists []; rewrite app_nil_r; reflexivity
        | rewrite <- ?app_assoc; eexists; reflexivity ].

Section Runs.

Context `{Runtime}.

(** An exception of the first computation is the exception of the
    sequence: nothing after it runs. *)
Lemma mbind_raise {A B : Type} (m : M A) (f : A -> M B) (w : world) (e : exn) :
  (m w).1 = inl e -> (m ≫= f) w = (inl e, (m w).2).
Proof.
  unfold mbind, M_bind. destruct (m w) as [[e'|a] w']; simpl; congruence.
Qed.

Lemma mbind_return {A B : Type} (m : M A) (f : A -> M B) (w : world) (a : A) :
  (m w).1 = inr a -> (m ≫= f) w = f a (m w).2.
Proof.
  unfold mbind, M_bind. destruct (m w) as [[e'|a'] w']; simpl; congruence.
Qed.

(** *** [parse_geoid18_response] *)

Lemma parse_value_indep (html : string) (w w' : world) :
  (parse_geoid18_response html w).1 = (parse_geoid18_response html w').1.
Proof.
  unfold parse_geoid18_response. unfold_m. run; reflexivity.
Qed.

Lemma parse_frame (html : string) (w : world) :
  let w' := (parse_geoid18_response html w).2 in
  extends w w' /\ out_csv w' = out_csv w /\ sent w' = sent w.
Proof.
  unfold parse_geoid18_response. unfold_m.
  run; (split; [solve_extends | split; reflexivity]).
Qed.

(** C2: a page whose preformatted block has at least four lines, the
    fourth ending in two tokens that [float] accepts, parses to the pair
    of those two tokens as numbers, the second-to-last first. *)
Theorem parse_geoid18_response_fourth_line
    (html block l0 l1 l2 line tN tE : string) (rest toks : list string)
    (N e : float) (w : world) :
  pre_string html = Some (Some block) ->
  PyStr.split_on PyStr.newline block = l0 :: l1 :: l2 :: line :: rest ->
  PyStr.split line = toks ++ [tN; tE] ->
  float_of_str tN = Some N ->
  float_of_str tE = Some e ->
  (parse_geoid18_response html w).1 = inr (N, e).
Proof.
  intros Hpre Hlines Htoks HN He.
  unfold parse_geoid18_response. unfold_m.
  rewrite Hpre, Hlines, getitem_fourth, Htoks.
  rewrite getitem_second_to_last, getitem_last.
  simpl. rewrite HN, He. reflexivity.
Qed.

(** *** [postprocess_geoid18] *)

Lemma postprocess_geoid18_inv (lat long h H0 : float) (w w' : world) :
  postprocess_geoid18 lat long h w = (inr H0, w') ->
  exists r html n e,
    net w (geoid18_url lat long) = inr r /\
    decode_utf8 (content r) = Some html /\
    (forall w0, (parse_geoid18_response html w0).1 = inr (n, e)) /\
    H0 = PyFloat.sub h n /\
    sent w' = sent w ++ [geoid18_url lat long] /\
    out_csv w' = out_csv w /\
    extends w w'.
Proof.
  unfold postprocess_geoid18. unfold_m. cbn beta zeta.
  destruct (net w (geoid18_url lat long)) as [ex|r] eqn:Hnet; [discriminate|].
  destruct (decode_utf8 (content r)) as [html|] eqn:Hdec; [|discriminate].
  match goal with
  | |- context [parse_geoid18_response html ?w1] =>
      pose proof (parse_frame html w1) as Hfr;
      pose proof (fun w0 => parse_value_indep html w0 w1) as Hval;
      destruct (parse_geoid18_response html w1) as [[ex|[n e]] w2] eqn:Hparse
  end; [discriminate|].
  simpl in Hfr, Hval. intros Heq. injection Heq as <- <-.
  destruct Hfr as ((Hd & Hn & Hi & ms & Hm) & Hout & Hsent).
  exists r, html, n, e. simpl in *.
  repeat split; try assumption; try congruence.
  exists ([MsgRequestStatus (status_code r)] ++ ms ++ [MsgOrthometricHeight (PyFloat.sub h n) h n]).
  simpl. rewrite Hm. rewrite <- !app_assoc. reflexivity.
Qed.


Lemma postprocess_geoid18_frame (lat long h : float) (w : world) :
  let w' := (postprocess_geoid18 lat long h w).2 in
  extends w w' /\ out_csv w' = out_csv w /\
  sent w' = sent w ++ [geoid18_url lat long].
Proof.
  unfold postprocess_geoid18. unfold_m. cbn beta zeta.
  destruct (net w (geoid18_url lat long)) as [ex|r];
    [simpl; split; [apply extends_refl || solve_extends | split; reflexivity]|].
  destruct (decode_utf8 (content r)) as [html|];
    [|simpl; split; [solve_extends | split; reflexivity]].
  match goal with
  | |- context [parse_geoid18_response html ?w1] =>
      pose proof (parse_frame html w1) as Hfr;
      destruct (parse_geoid18_response html w1) as [[ex|[n e]] w2]
  end;
    destruct Hfr as ((Hd & Hn & Hi & ms & Hm) & Hout & Hsent);
    simpl in *; (split; [|split; assumption]).
  - repeat split; try assumption.
    exists ([MsgRequestStatus (status_code r)] ++ ms).
    simpl. rewrite Hm, <- ?app_assoc. reflexivity.
  - repeat split; try assumption.
    exists ([MsgRequestStatus (status_code r)] ++ ms
            ++ [MsgOrthometricHeight (PyFloat.sub h n) h n]).
    simpl. rewrite Hm, <- !app_assoc. reflexivity.
Qed.

(** C7: the height returned depends on the three arguments and on the
    answer of the service to the one request they determine, and on
    nothing else of the world; the call leaves the script directory, the
    network, the input file and the output file as they were, sends that
    one request and adds messages. *)
Theorem postprocess_geoid18_deterministic
    (lat long h : float) (w1 w2 : world) :
  net w1 (geoid18_url lat long) = net w2 (geoid18_url lat long) ->
  (postprocess_geoid18 lat long h w1).1 = (postprocess_geoid18 lat long h w2).1
  /\ (let w1' := (postprocess_geoid18 lat long h w1).2 in
      script_dir w1' = script_dir w1 /\ net w1' = net w1 /\
      in_csv w1' = in_csv w1 /\ out_csv w1' = out_csv w1 /\
      sent w1' = sent w1 ++ [geoid18_url lat long] /\
      exists ms, messages w1' = messages w1 ++ ms).
Proof.
  intros Hnet. split.
  - unfold postprocess_geoid18. unfold_m. cbn beta zeta.
    rewrite Hnet.
    destruct (net w2 (geoid18_url lat long)) as [ex|r]; [reflexivity|].
    destruct (decode_utf8 (content r)) as [html|]; [|reflexivity].
    match goal with
    | |- context [(let (_, _) := parse_geoid18_response html ?wa in _).1 =
                  (let (_, _) := parse_geoid18_response html ?wb in _).1] =>
        pose proof (parse_value_indep html wa wb) as Hval;
        destruct (parse_geoid18_response html wa) as [[ea|[na ea]] wa'];
        destruct (parse_geoid18_response html wb) as [[eb|[nb eb]] wb']
    end; simpl in Hval |- *; congruence.
  - pose proof (postprocess_geoid18_frame lat long h w1) as Hfr.
    cbv zeta in *.
    destruct Hfr as ((Hd & Hn & Hi & Hm) & Hout & Hsent).
    repeat split; assumption.
Qed.

End Runs.

Section Rows.

Context `{Runtime}.

(** *** The csv writer *)

(** The values the writer takes from the dictionary of a row, in the
    order of the field names. *)
Lemma dict_to_list_row_dict (row : dict) (measured_ortho calculated_ortho : float) :
  dict_to_list fieldnames (row_dict row measured_ortho calculated_ortho) =
  inr [get row "Name"; get row "Ortho_Measured"; get row "ReceiverName";
       get row "HorizontalAccuracy"; get row "VerticalAccuracy";
       get row "Latitude"; get row "Longitude"; get row "Elevation";
       get row "NumberSatellites"; get row "FixTime";
       VFloat measured_ortho;
       VStr (PyFloat.format_0_2f calculated_ortho)].
Proof.
  unfold row_dict.
  generalize (get row "Name") (get row "Ortho_Measured")
    (get row "ReceiverName") (get row "HorizontalAccuracy")
    (get row "VerticalAccuracy") (get row "Latitude") (get row "Longitude")
    (get row "Elevation") (get row "NumberSatellites") (get row "FixTime")
    (PyFloat.format_0_2f calculated_ortho).
  intros. vm_compute. reflexivity.
Qed.

(** *** The body of the loop *)

Lemma transform_row_run (row : dict) (w : world) :
  match transform_row row w with
  | (inr _, w') =>
      exists lat lon elev om H0 w1,
        py_float (get row "Latitude") = inr lat /\
        py_float (get row "Longitude") = inr lon /\
        py_float (get row "Elevation") = inr elev /\
        postprocess_geoid18 lat (PyFloat.abs lon) elev w = (inr H0, w1) /\
        py_float (get row "Ortho_Measured") = inr om /\
        out_csv w' = out_csv w ++ [written_cells row (PyFloat.sub om rh) H0] /\
        sent w' = sent w ++ [geoid18_url lat (PyFloat.abs lon)] /\
        messages w' =
          messages w1 ++ [MsgWritingRow (row_dict row (PyFloat.sub om rh) H0)] /\
        extends w w'
  | (inl _, w') =>
      out_csv w' = out_csv w /\ extends w w' /\ exists l, sent w' = sent w ++ l
  end.
Proof.
  unfold transform_row. unfold_m. cbn beta zeta.
  destruct (py_float (get row "Latitude")) as [ex|lat];
    [split; [reflexivity | split; [apply extends_refl | by exists []; rewrite app_nil_r]]|].
  destruct (py_float (get row "Longitude")) as [ex|lon];
    [split; [reflexivity | split; [apply extends_refl | by exists []; rewrite app_nil_r]]|].
  destruct (py_float (get row "Elevation")) as [ex|elev];
    [split; [reflexivity | split; [apply extends_refl | by exists []; rewrite app_nil_r]]|].
  pose proof (postprocess_geoid18_frame lat (PyFloat.abs lon) elev w) as Hfr.
  destruct (postprocess_geoid18 lat (PyFloat.abs lon) elev w)
    as [[ex|H0] w1] eqn:Hpp; cbv zeta in Hfr; simpl fst in Hfr; simpl snd in Hfr;
    destruct Hfr as (Hext & Hout & Hsent);
    [split; [assumption | split; [assumption | eexists; eassumption]]|].
  destruct (py_float (get row "Ortho_Measured")) as [ex|om];
    [split; [assumption | split; [assumption | eexists; eassumption]]|].
  unfold writerow. unfold_m. rewrite dict_to_list_row_dict.
  cbn [out_csv sent messages].
  exists lat, lon, elev, om, H0, w1.
  destruct Hext as (Hd & Hn & Hi & ms & Hm).
  repeat split; try reflexivity; try assumption.
  - rewrite Hout. reflexivity.
  - cbn [messages].
    exists (ms ++ [MsgWritingRow (row_dict row (PyFloat.sub om rh) H0)]).
    rewrite Hm, <- app_assoc. reflexivity.
Qed.

Lemma row_written_extends (w w' : world) (row : dict) (o : list string)
    (url : string) :
  extends w w' -> row_written w' row o url -> row_written w row o url.
Proof.
  intros Hext (lat & lon & elev & om & H0 & wi & w1 & Hwi & Hrest).
  exists lat, lon, elev, om, H0, wi, w1.
  split; [exact (extends_trans _ _ _ Hext Hwi) | exact Hrest].
Qed.

(** *** The loop *)

(** What the loop over the records has done when it ends, normally or
    not: it has written a record for each of the first rows, in order,
    and asked the service once for each of them (and possibly once more,
    for the row that raised). *)
Lemma for_rows_run (hdr : list string) (recs : record_stream) (w : world) :
  exists outs urls,
    let fin := for_rows hdr recs transform_row w in
    out_csv fin.2 = out_csv w ++ outs /\
    sent fin.2 = sent w ++ urls /\
    extends w fin.2 /\
    (length outs <= length (data_rows recs))%nat /\
    (fin.1 = inr tt -> length outs = length (data_rows recs)) /\
    (forall i o, outs !! i = Some o ->
       exists cells url,
         data_rows recs !! i = Some cells /\
         urls !! i = Some url /\
         row_written w (dict_row hdr cells) o url).
Proof.
  revert w. induction recs as [|[e|cells] rest IH]; intros w.
  - exists [], []. cbn. rewrite !app_nil_r.
    repeat split; try reflexivity; try apply extends_refl.
    intros i o Hi. rewrite lookup_nil in Hi. discriminate.
  - exists [], []. cbn. rewrite !app_nil_r.
    repeat split; try reflexivity; try apply extends_refl.
    intros i o Hi. rewrite lookup_nil in Hi. discriminate.
  - destruct cells as [|c cs]; [exact (IH w)|].
    cbn [for_rows data_rows]. unfold mbind, M_bind.
    pose proof (transform_row_run (dict_row hdr (c :: cs)) w) as Hrow.
    destruct (transform_row (dict_row hdr (c :: cs)) w) as [[ex|[]] w'].
    + destruct Hrow as (Hout & Hext & l & Hsent).
      exists [], l. cbn. rewrite app_nil_r.
      repeat split; try assumption; try apply Hext.
      * lia.
      * discriminate.
      * intros i o Hi. rewrite lookup_nil in Hi. discriminate.
    + destruct Hrow as (lat & lon & elev & om & H0 & w1 & Hlat & Hlon & Helev
                        & Hpp & Hom & Hout & Hsent & Hmsg & Hext).
      destruct (IH w') as (outs & urls & Hout' & Hsent' & Hext' & Hle & Hlen & Hrows).
      cbv zeta in *.
      exists (written_cells (dict_row hdr (c :: cs)) (PyFloat.sub om rh) H0 :: outs),
             (geoid18_url lat (PyFloat.abs lon) :: urls).
      rewrite Hout', Hsent', Hout, Hsent, <- !app_assoc. cbn [app length].
      repeat split; try reflexivity.
      * apply (extends_trans _ _ _ Hext Hext').
      * apply (extends_trans _ _ _ Hext Hext').
      * apply (extends_trans _ _ _ Hext Hext').
      * apply (extends_trans _ _ _ Hext Hext').
      * lia.
      * intros Hfin. rewrite (Hlen Hfin). reflexivity.
      * intros [|i] o Hi; cbn in Hi.
        -- injection Hi as <-.
           exists (c :: cs), (geoid18_url lat (PyFloat.abs lon)).
           repeat split.
           exists lat, lon, elev, om, H0, w, w1.
           repeat split; try assumption; try reflexivity;
             try (exists []; rewrite app_nil_r; reflexivity).
        -- destruct (Hrows i o Hi) as (cells & url & Hc & Hu & Hw).
           exists cells, url. repeat split; try assumption.
           apply (row_written_extends w w'); assumption.
Qed.

(** *** [transform] *)

(** The start of [transform], up to the header: the output file then
    holds the field names and nothing else. *)
Lemma transform_unfold (w : world) :
  exists ms,
    transform w =
    (recs ← open_r; for_dict_reader recs transform_row)
      {| script_dir := script_dir w; net := net w; in_csv := in_csv w;
         out_csv := [fieldnames]; sent := sent w;
         messages := messages w ++ ms |}.
Proof.
  eexists. unfold transform, pwd, set_path.
  unfold mbind, mret, M_bind, M_ret, AddMessage, writeheader, write_record,
    sys_path_0, open_w.
  cbn [script_dir net in_csv out_csv sent messages app].
  rewrite <- !app_assoc. reflexivity.
Qed.

(** The whole run on a file that has a header. *)
Lemma transform_run (w : world) (hdr : list string) (recs : record_stream) :
  in_csv w = Some (inr hdr :: recs) ->
  exists outs urls,
    let fin := transform w in
    out_csv fin.2 = fieldnames :: outs /\
    sent fin.2 = sent w ++ urls /\
    extends w fin.2 /\
    (length outs <= length (data_rows recs))%nat /\
    (fin.1 = inr tt -> length outs = length (data_rows recs)) /\
    (forall i o, outs !! i = Some o ->
       exists cells url,
         data_rows recs !! i = Some cells /\
         urls !! i = Some url /\
         row_written w (dict_row hdr cells) o url).
Proof.
  intros Hin.
  destruct (transform_unfold w) as (ms & Heq).
  set (w0 := {| script_dir := script_dir w; net := net w; in_csv := in_csv w;
                out_csv := [fieldnames]; sent := sent w;
                messages := messages w ++ ms |}) in Heq.
  assert (Hext : extends w w0) by (repeat split; exists ms; reflexivity).
  unfold mbind, M_bind, open_r in Heq. cbn [in_csv w0] in Heq.
  rewrite Hin in Heq. cbn [for_dict_reader] in Heq.
  destruct (for_rows_run hdr recs w0)
    as (outs & urls & Hout' & Hsent' & Hext' & Hle & Hlen & Hrows).
  exists outs, urls. cbv zeta in *. rewrite Heq.
  rewrite Hout', Hsent'. cbn [out_csv sent w0 app].
  repeat split; try assumption; try apply (extends_trans _ _ _ Hext Hext').
  intros i o Hi. destruct (Hrows i o Hi) as (cells & url & Hc & Hu & Hw).
  exists cells, url. repeat split; try assumption.
  apply (row_written_extends w w0); assumption.
Qed.

(** Without an input file, or with a reader that raises on the header,
    the run ends with that exception after the header is written. *)
Lemma transform_no_input (w : world) :
  in_csv w = None ->
  (transform w).1 = inl FileNotFoundError /\
  out_csv (transform w).2 = [fieldnames].
Proof.
  intros Hin. destruct (transform_unfold w) as (ms & Heq).
  unfold mbind, M_bind, open_r in Heq. cbn [in_csv] in Heq.
  rewrite Hin in Heq. rewrite Heq. split; reflexivity.
Qed.

Lemma transform_header_error (w : world) (e : exn) (recs : record_stream) :
  in_csv w = Some (inl e :: recs) ->
  (transform w).1 = inl e /\
  out_csv (transform w).2 = [fieldnames].
Proof.
  intros Hin. destruct (transform_unfold w) as (ms & Heq).
  unfold mbind, M_bind, open_r in Heq. cbn [in_csv] in Heq.
  rewrite Hin in Heq. rewrite Heq. split; reflexivity.
Qed.

End Rows.

(** ** Formatting to two decimals *)






(** The two decimals are those of the nearest hundredth: the quotient is
    rounded to an integer at most one half away. *)
Lemma round_half_even_nearest (num den : N) :
  (den <> 0)%N ->
  (2 * Z.abs (Z.of_N num - Z.of_N (PyFloat.round_half_even num den) * Z.of_N den)
   <= Z.of_N den)%Z.
Proof.
  intros Hden. unfold PyFloat.round_half_even.
  pose proof (N.div_mod num den Hden) as Hdm.
  pose proof (N.mod_upper_bound num den Hden) as Hlt.
  set (q := (num / den)%N) in *. set (r := (num mod den)%N) in *.
  clearbody q r.
  assert (HZ : (Z.of_N num = Z.of_N den * Z.of_N q + Z.of_N r)%Z)
    by (rewrite Hdm at 1; rewrite N2Z.inj_add, N2Z.inj_mul; reflexivity).
  assert (Hq1 : (Z.of_N (q + 1) = Z.of_N q + 1)%Z) by lia.
  assert (Hr0 : (0 <= Z.of_N r < Z.of_N den)%Z) by lia.
  destruct (N.compare_spec (2 * r) den) as [Hcmp|Hcmp|Hcmp].
  - assert (Hrd : (2 * Z.of_N r = Z.of_N den)%Z) by lia.
    destruct (N.even q); rewrite ?Hq1, HZ.
    + replace (Z.of_N den * Z.of_N q + Z.of_N r - Z.of_N q * Z.of_N den)%Z
        with (Z.of_N r) by ring. lia.
    + replace (Z.of_N den * Z.of_N q + Z.of_N r - (Z.of_N q + 1) * Z.of_N den)%Z
        with (Z.of_N r - Z.of_N den)%Z by ring. lia.
  - rewrite HZ.
    replace (Z.of_N den * Z.of_N q + Z.of_N r - Z.of_N q * Z.of_N den)%Z
      with (Z.of_N r) by ring. lia.
  - rewrite Hq1, HZ.
    replace (Z.of_N den * Z.of_N q + Z.of_N r - (Z.of_N q + 1) * Z.of_N den)%Z
      with (Z.of_N r - Z.of_N den)%Z by ring. lia.
Qed.

Lemma hundredths_nearest (m : positive) (k : positive) :
  (2 * Z.abs (100 * Zpos m - Z.of_N (PyFloat.hundredths m (Zneg k)) * 2 ^ Zpos k)
   <= 2 ^ Zpos k)%Z.
Proof.
  unfold PyFloat.hundredths.
  pose proof (round_half_even_nearest (100 * Npos m) (Npos (Pos.pow 2 k))) as Hn.
  rewrite N2Z.inj_mul in Hn. simpl Z.of_N in Hn.
  rewrite Pos2Z.inj_pow in Hn. apply Hn. discriminate.
Qed.

(** ** The rows of the reader *)




Lemma foldl_insert_str_notin (l : list (string * string)) (d : dict) (k : string) :
  k ∉ l.*1 ->
  foldl (fun d kv => <[kv.1 := VStr kv.2]> d) d l !! k = d !! k.
Proof.
  revert d. induction l as [|[k0 c0] l IH]; intros d Hk; simpl; [reflexivity|].
  simpl in Hk. apply not_elem_of_cons in Hk as [Hne Hk].
  rewrite (IH _ Hk). apply lookup_insert_ne. congruence.
Qed.


Lemma foldl_insert_none_notin (l : list string) (d : dict) (k : string) :
  k ∉ l -> foldl (fun d k => <[k := VNone]> d) d l !! k = d !! k.
Proof.
  revert d. induction l as [|k0 l IH]; intros d Hk; simpl; [reflexivity|].
  apply not_elem_of_cons in Hk as [Hne Hk].
  rewrite (IH _ Hk). apply lookup_insert_ne. congruence.
Qed.

Lemma zip_fst_elem_of (l k : list string) (x : string) :
  x ∈ (zip l k).*1 -> x ∈ l.
Proof.
  revert k. induction l as [|a l IH]; intros [|b k] Hx; simpl in Hx;
    try (apply elem_of_nil in Hx; contradiction).
  apply elem_of_cons in Hx as [->|Hx]; [left | right; exact (IH k Hx)].
Qed.



(** A name that has no cell under it gives [None]. *)
Lemma dict_row_missing (hdr cells : list string) (n : nat) (k : string) :
  hdr !! n = Some k -> (length cells <= n)%nat ->
  get (dict_row hdr cells) k = VNone.
Proof.
  intros Hk Hlen. unfold get, dict_row.
  assert (Hin : k ∈ drop (length cells) hdr).
  { apply list_elem_of_lookup. exists (n - length cells)%nat.
    rewrite lookup_drop. replace (length cells + (n - length cells))%nat with n by lia.
    exact Hk. }
  revert Hin. generalize (drop (length cells) hdr).
  generalize (foldl (fun d kv => <[kv.1 := VStr kv.2]> d) (∅ : dict) (zip hdr cells)).
  intros d l. revert d. induction l as [|k0 l IH]; intros d Hin.
  - apply elem_of_nil in Hin. contradiction.
  - simpl. destruct (decide (k ∈ l)) as [Hl|Hl].
    + exact (IH _ Hl).
    + apply elem_of_cons in Hin as [->|Hin]; [|contradiction].
      rewrite (foldl_insert_none_notin _ _ _ Hl), lookup_insert_eq. reflexivity.
Qed.


(** ** The output file *)


Section Output.

Context `{Runtime}.

(** Every record of the output after the header comes from the row of the
    same rank in the input, and with it goes the request of that rank. *)
Lemma transform_output_row (w : world) (hdr : list string)
    (recs : record_stream) (i : nat) (o : list string) :
  in_csv w = Some (inr hdr :: recs) ->
  out_csv (transform w).2 !! S i = Some o ->
  exists cells url,
    data_rows recs !! i = Some cells /\
    sent (transform w).2 !! (length (sent w) + i)%nat = Some url /\
    row_written w (dict_row hdr cells) o url.
Proof.
  intros Hin Ho.
  destruct (transform_run w hdr recs Hin)
    as (outs & urls & Hout & Hsent & _ & _ & _ & Hrows).
  cbv zeta in *. rewrite Hout in Ho. cbn in Ho.
  destruct (Hrows i o Ho) as (cells & url & Hc & Hu & Hw).
  exists cells, url. repeat split; try assumption.
  rewrite Hsent, lookup_app_r by lia.
  replace (length (sent w) + i - length (sent w))%nat with i by lia.
  exact Hu.
Qed.

Lemma fieldnames_split : fieldnames = pass_through ++ derived.
Proof. reflexivity. Qed.

(** C3, amended: when [transform] completes, the output file has one data
    row for each row of the input, under the twelve fixed names: the ten
    of the documented input header followed by the two derived ones,
    whatever the header of the input is; so the columns of the output
    are those of the input followed by the derived ones exactly when the
    input has the documented header. *)
Theorem transform_rows_and_columns (w : world) (hdr : list string)
    (recs : record_stream) :
  in_csv w = Some (inr hdr :: recs) ->
  (transform w).1 = inr tt ->
  exists rows,
    out_csv (transform w).2 = (pass_through ++ derived) :: rows /\
    length rows = length (data_rows recs) /\
    (pass_through ++ derived = hdr ++ derived <-> hdr = pass_through).
Proof.
  intros Hin Hok.
  destruct (transform_run w hdr recs Hin)
    as (outs & urls & Hout & _ & _ & _ & Hlen & _).
  cbv zeta in *. exists outs.
  split; [rewrite Hout; reflexivity|].
  split; [exact (Hlen Hok)|].
  split; [intros Heq; symmetry; exact (app_inv_tail _ _ _ Heq) | intros ->; reflexivity].
Qed.

(** C4: the Measured_Ortho cell of a written row is the text of the float
    [float(Ortho_Measured) - rh], where [rh] is the literal 1.55. *)
Theorem transform_measured_ortho (w : world) (hdr : list string)
    (recs : record_stream) (i : nat) (cells o : list string) :
  in_csv w = Some (inr hdr :: recs) ->
  data_rows recs !! i = Some cells ->
  out_csv (transform w).2 !! S i = Some o ->
  exists om,
    py_float (get (dict_row hdr cells) "Ortho_Measured") = inr om /\
    fieldnames !! 10%nat = Some "Measured_Ortho" /\
    o !! 10%nat = Some (str_of_float (PyFloat.sub om rh)) /\
    rh = PyFloat.of_decimal false 155 (-2).
Proof.
  intros Hin Hcells Ho.
  destruct (transform_output_row w hdr recs i o Hin Ho)
    as (cells' & url & Hc & _ & Hw).
  assert (cells' = cells) as -> by congruence.
  destruct Hw as (lat & lon & elev & om & H0 & wi & w1 & _ & _ & _ & _ & _
                  & Hom & -> & _).
  exists om. repeat split; try assumption; reflexivity.
Qed.





End Output.

(** ** Failures *)

Section Failures.

Context `{Runtime}.

Lemma page_unusable_raises (html : string) (w : world) :
  page_unusable html -> exists e, (parse_geoid18_response html w).1 = inl e.
Proof.
  intros Hbad. unfold parse_geoid18_response. unfold_m.
  destruct Hbad as [[Hpre|Hpre] | block Hpre Hlen
                    | block l0 l1 l2 line rest Hpre Hlines Htoks].
  - rewrite Hpre. eexists; reflexivity.
  - rewrite Hpre. eexists; reflexivity.
  - rewrite Hpre, (getitem_short _ Hlen). eexists; reflexivity.
  - rewrite Hpre, Hlines, getitem_fourth.
    destruct Htoks as [Hshort | (toks & tN & tE & Hsplit & Hnum)].
    + pose proof (getitem_neg_short (PyStr.split line) 2 Hshort) as Hget.
      change (- Z.of_nat 2)%Z with (-2)%Z in Hget. rewrite Hget.
      eexists; reflexivity.
    + rewrite Hsplit, getitem_second_to_last, getitem_last. simpl.
      destruct (float_of_str tN) as [n|]; [|eexists; reflexivity].
      destruct (float_of_str tE) as [e|]; [|eexists; reflexivity].
      destruct Hnum; discriminate.
Qed.

(** A failing record makes the body of the loop raise, before anything is
    written for it. *)
Lemma record_fails_row (w : world) (hdr cells : list string) :
  record_fails (net w) hdr (inr cells) ->
  exists e w',
    transform_row (dict_row hdr cells) w = (inl e, w') /\
    out_csv w' = out_csv w /\ extends w w'.
Proof.
  intros Hfail.
  pose proof (transform_row_run (dict_row hdr cells) w) as Hrun.
  destruct (transform_row (dict_row hdr cells) w) as [[e|[]] w'].
  { destruct Hrun as (Hout & Hext & _). exists e, w'. repeat split; assumption || apply Hext. }
  exfalso.
  destruct Hrun as (lat & lon & elev & om & H0 & w1 & Hlat & Hlon & Helev & Hpp
                    & Hom & _).
  destruct (postprocess_geoid18_inv _ _ _ _ _ _ Hpp)
    as (r & html & n & e & Hnet & Hdec & Hparse & _).
  inversion Hfail as [ | c cs k ex Hk Hbad | c cs lat' lon' ex Hlat' Hlon' Hnet'
                     | c cs lat' lon' r' Hlat' Hlon' Hnet' Hdec'
                     | c cs lat' lon' r' html' Hlat' Hlon' Hnet' Hdec' Hpage ]; subst.
  - unfold numeric_fields in Hk. set_unfold in Hk.
    destruct Hk as [->|[->|[->|[->|[]]]]]; congruence.
  - assert (lat' = lat) as -> by congruence.
    assert (lon' = lon) as -> by congruence. congruence.
  - assert (lat' = lat) as -> by congruence.
    assert (lon' = lon) as -> by congruence.
    assert (r' = r) as -> by congruence. congruence.
  - assert (lat' = lat) as -> by congruence.
    assert (lon' = lon) as -> by congruence.
    assert (r' = r) as -> by congruence.
    assert (html' = html) as -> by congruence.
    destruct (page_unusable_raises html w Hpage) as (ex & Hex).
    rewrite Hparse in Hex. discriminate.
Qed.



End Failures.

(** * The properties on concrete files *)

Section OnFixtures.

#[local] Existing Instance Reference.runtime.

Import Fixture.

(** The rod height is the float that the literal [1.55] denotes. *)
Example rh_literal : rh = PyFloat.of_decimal false 155 (-2).
Proof. reflexivity. Qed.

(** The float subtraction rounds: [0.3 - 0.1] is not the float [0.2]. *)
Example sub_rounds :
  PyFloat.sub (PyFloat.of_decimal false 3 (-1)) (PyFloat.of_decimal false 1 (-1))
  <> PyFloat.of_decimal false 2 (-1).
Proof. vm_compute. discriminate. Qed.

(** A height that is not finite is not written with two decimals. *)
Example survey_other_infinite :
  out_csv (transform survey_other).2 !! 1%nat =
  Some (p4 ++ ["1597.2"; "inf"]).
Proof. vm_compute. reflexivity. Qed.

(** When the service cannot be reached the run ends at the first row,
    with the exception of [requests.get], and only the header is written. *)
Example survey_offline_run :
  (transform survey_offline).1 = inl RequestException /\
  out_csv (transform survey_offline).2 = [fieldnames] /\
  length (sent (transform survey_offline).2) = 1%nat.
Proof. vm_compute. repeat split; reflexivity. Qed.

(** A page without a fourth line ends the run with an [IndexError]. *)
Example survey_short_page_run :
  (transform survey_short_page).1 = inl IndexError /\
  out_csv (transform survey_short_page).2 = [fieldnames].
Proof. vm_compute. split; reflexivity. Qed.

(** A record cut after the elevation is written, its last two fields
    empty; one cut before the elevation ends the run with a [TypeError]. *)
Example survey_truncated_run :
  (transform survey_truncated).1 = inr tt /\
  out_csv (transform survey_truncated).2 !! 1%nat =
    Some (take 8 p1 ++ [""; ""; "1599.65"; "1600.62"]).
Proof. vm_compute. split; reflexivity. Qed.

Example survey_no_elevation_run :
  (transform survey_no_elevation).1 = inl TypeError /\
  out_csv (transform survey_no_elevation).2 = [fieldnames].
Proof. vm_compute. split; reflexivity. Qed.

Lemma parse_geoid18_response_fourth_line_witness :
  pre_string page = Some (Some block) /\
  PyStr.split_on PyStr.newline block = l0 :: l1 :: l2 :: l3 :: [""] /\
  PyStr.split l3 =
    ["USER"; "LOCATION"; "40"; "03"; "2.48040"; "105"; "16"; "55.11000"]
    ++ ["-16.123"; "0.049"] /\
  float_of_str "-16.123" = Some undulation /\
  float_of_str "0.049" = Some error /\
  (parse_geoid18_response page survey).1 = inr (undulation, error).
Proof.
  assert (H1 : pre_string page = Some (Some block)) by (vm_compute; reflexivity).
  assert (H2 : PyStr.split_on PyStr.newline block = l0 :: l1 :: l2 :: l3 :: [""])
    by (vm_compute; reflexivity).
  assert (H3 : PyStr.split l3 =
               ["USER"; "LOCATION"; "40"; "03"; "2.48040"; "105"; "16"; "55.11000"]
               ++ ["-16.123"; "0.049"]) by (vm_compute; reflexivity).
  assert (H4 : float_of_str "-16.123" = Some undulation) by (vm_compute; reflexivity).
  assert (H5 : float_of_str "0.049" = Some error) by (vm_compute; reflexivity).
  repeat (split; [assumption|]).
  exact (parse_geoid18_response_fourth_line page block l0 l1 l2 l3
           "-16.123" "0.049" [""] _ undulation error survey H1 H2 H3 H4 H5).
Defined.


Lemma postprocess_geoid18_deterministic_witness :
  net survey (geoid18_url lat long) = net survey_bad (geoid18_url lat long) /\
  (postprocess_geoid18 lat long h survey).1 =
  (postprocess_geoid18 lat long h survey_bad).1.
Proof.
  assert (H1 : net survey (geoid18_url lat long)
               = net survey_bad (geoid18_url lat long)) by reflexivity.
  split; [assumption|].
  exact (proj1 (postprocess_geoid18_deterministic lat long h survey survey_bad H1)).
Defined.

(** The input of [survey_blank]: the header, then the records. *)
Lemma survey_blank_input :
  in_csv survey_blank = Some (inr header :: [inr p1; inr []; inr p2]).
Proof. reflexivity. Qed.

Lemma survey_input : in_csv survey = Some (inr header :: [inr p1; inr p2]).
Proof. reflexivity. Qed.

Lemma transform_rows_and_columns_witness :
  in_csv survey_blank = Some (inr header :: [inr p1; inr []; inr p2]) /\
  (transform survey_blank).1 = inr tt /\
  exists rows,
    out_csv (transform survey_blank).2 = (pass_through ++ derived) :: rows /\
    length rows = length (data_rows [inr p1; inr []; inr p2]) /\
    (pass_through ++ derived = header ++ derived <-> header = pass_through).
Proof.
  assert (H1 : (transform survey_blank).1 = inr tt) by (vm_compute; reflexivity).
  split; [exact survey_blank_input|]. split; [exact H1|].
  exact (transform_rows_and_columns survey_blank header [inr p1; inr []; inr p2]
           survey_blank_input H1).
Defined.

(** C3 as stated fails on a file with a further column: [transform]
    completes, and the columns of the output are not those of the input
    followed by the two derived ones. *)
Lemma transform_columns_counterexample :
  in_csv survey_notes =
    Some (map inr [header_notes; p1 ++ ["north corner"]; p2 ++ ["fence"]]) /\
  (transform survey_notes).1 = inr tt /\
  out_csv (transform survey_notes).2 !! 0%nat <> Some (header_notes ++ derived).
Proof.
  split; [reflexivity|]. split; [vm_compute; reflexivity|].
  vm_compute. discriminate.
Qed.

Lemma transform_measured_ortho_witness :
  in_csv survey = Some (inr header :: [inr p1; inr p2]) /\
  data_rows [inr p1; inr p2] !! 0%nat = Some p1 /\
  out_csv (transform survey).2 !! 1%nat = Some o1 /\
  exists om,
    py_float (get (dict_row header p1) "Ortho_Measured") = inr om /\
    fieldnames !! 10%nat = Some "Measured_Ortho" /\
    o1 !! 10%nat = Some (str_of_float (PyFloat.sub om rh)) /\
    rh = PyFloat.of_decimal false 155 (-2).
Proof.
  assert (H1 : data_rows [inr p1; inr p2] !! 0%nat = Some p1) by reflexivity.
  assert (H2 : out_csv (transform survey).2 !! 1%nat = Some o1)
    by (vm_compute; reflexivity).
  split; [exact survey_input|]. split; [exact H1|]. split; [exact H2|].
  exact (transform_measured_ortho survey header [inr p1; inr p2] 0 p1 o1
           survey_input H1 H2).
Defined.







End OnFixtures.

(** * Further properties *)

(** ** What a computation reads of the world *)

Lemma affect_none (w : world) : affect w no_effect = w.
Proof.
  destruct w. unfold affect, no_effect. simpl. rewrite !app_nil_r. reflexivity.
Qed.

Lemma affect_affect (w : world) (d1 d2 : effects) :
  affect (affect w d1) d2 = affect w (effects_app d1 d2).
Proof.
  unfold affect, effects_app. simpl. rewrite !app_assoc. reflexivity.
Qed.

Lemma nd_ret {A : Type} (a : A) : net_determined (mret a).
Proof.
  intros w1 w2 _. exists no_effect. rewrite !affect_none. repeat split.
Qed.

Lemma nd_raise {A : Type} (e : exn) : net_determined (raise e : M A).
Proof.
  intros w1 w2 _. exists no_effect. rewrite !affect_none. repeat split.
Qed.

Lemma nd_lift {A : Type} (r : exn + A) : net_determined (lift r).
Proof.
  intros w1 w2 _. exists no_effect. rewrite !affect_none. repeat split.
Qed.

Lemma nd_AddMessage (m : message) : net_determined (AddMessage m).
Proof.
  intros w1 w2 _. exists {| e_sent := []; e_messages := [m]; e_written := [] |}.
  unfold AddMessage, affect. simpl. rewrite !app_nil_r. repeat split.
Qed.

Lemma nd_requests_get (url : string) : net_determined (requests_get url).
Proof.
  intros w1 w2 Hnet. exists {| e_sent := [url]; e_messages := []; e_written := [] |}.
  unfold requests_get, affect. simpl. rewrite !app_nil_r, Hnet. repeat split.
Qed.

Lemma nd_write_record (cells : list string) : net_determined (write_record cells).
Proof.
  intros w1 w2 _. exists {| e_sent := []; e_messages := []; e_written := [cells] |}.
  unfold write_record, affect. simpl. rewrite !app_nil_r. repeat split.
Qed.

Lemma nd_bind {A B : Type} (m : M A) (f : A -> M B) :
  net_determined m -> (forall a, net_determined (f a)) -> net_determined (m ≫= f).
Proof.
  intros Hm Hf w1 w2 Hnet.
  destruct (Hm w1 w2 Hnet) as (d1 & Hr & H1 & H2).
  unfold mbind, M_bind.
  destruct (m w1) as [r1 w1'], (m w2) as [r2 w2']. simpl in Hr, H1, H2. subst.
  destruct r2 as [e|a].
  - exists d1. repeat split.
  - destruct (Hf a (affect w1 d1) (affect w2 d1) Hnet) as (d2 & Hr' & H1' & H2').
    exists (effects_app d1 d2). rewrite <- !affect_affect. repeat split; assumption.
Qed.

Ltac nd :=
  repeat first
    [ apply nd_bind; [|intros]
    | apply nd_ret | apply nd_raise | apply nd_lift | apply nd_AddMessage
    | apply nd_requests_get | apply nd_write_record
    | match goal with
      | |- net_determined (match ?x with _ => _ end) => destruct x
      end ].

Section Determined.

Context `{Runtime}.

Lemma nd_parse (html : string) : net_determined (parse_geoid18_response html).
Proof. unfold parse_geoid18_response. nd. Qed.

Lemma nd_postprocess (lat long h : float) :
  net_determined (postprocess_geoid18 lat long h).
Proof. unfold postprocess_geoid18. cbv zeta. nd. Qed.

Lemma nd_transform_row (row : dict) : net_determined (transform_row row).
Proof.
  unfold transform_row, writerow. cbv zeta. nd.
Qed.

Lemma nd_for_rows (hdr : list string) (recs : record_stream) :
  net_determined (for_rows hdr recs transform_row).
Proof.
  induction recs as [|[e|[|c cs]] rest IH]; cbn [for_rows].
  - apply nd_ret.
  - apply nd_raise.
  - exact IH.
  - apply nd_bind; [apply nd_transform_row | intros; exact IH].
Qed.

End Determined.

(** ** The run of [transform] *)

Section Loop.

Context `{Runtime}.

Lemma transform_start (w : world) :
  transform w = (recs ← open_r; for_dict_reader recs transform_row) (started w).
Proof.
  unfold transform, pwd, set_path, started, prelude_messages.
  unfold mbind, mret, M_bind, M_ret, AddMessage, writeheader, write_record,
    sys_path_0, open_w.
  cbn [script_dir net in_csv out_csv sent messages app].
  rewrite <- !app_assoc. reflexivity.
Qed.

Lemma transform_on_input (w : world) (hdr : list string) (recs : record_stream) :
  in_csv w = Some (inr hdr :: recs) ->
  transform w = for_rows hdr recs transform_row (started w).
Proof.
  intros Hin. rewrite transform_start.
  unfold mbind, M_bind, open_r. cbn [in_csv started]. rewrite Hin. reflexivity.
Qed.

(** The loop over two runs of records is the loop over the first, then
    over the second. *)
Lemma for_rows_app (hdr : list string) (a b : record_stream)
    (body : dict -> M unit) (w : world) :
  for_rows hdr (a ++ b) body w =
  (for_rows hdr a body;; for_rows hdr b body) w.
Proof.
  revert w. induction a as [|[e|[|c cs]] a IH]; intros w; cbn [app for_rows].
  - reflexivity.
  - reflexivity.
  - exact (IH w).
  - unfold mbind, M_bind in *.
    destruct (body (dict_row hdr (c :: cs)) w) as [[e|[]] w']; [reflexivity|].
    exact (IH w').
Qed.

Lemma for_rows_without_blanks (hdr : list string) (recs : record_stream)
    (body : dict -> M unit) (w : world) :
  for_rows hdr (without_blanks recs) body w = for_rows hdr recs body w.
Proof.
  revert w. induction recs as [|[e|[|c cs]] rest IH]; intros w;
    cbn [without_blanks List.filter is_blank negb for_rows].
  - reflexivity.
  - reflexivity.
  - exact (IH w).
  - unfold mbind, M_bind.
    destruct (body (dict_row hdr (c :: cs)) w) as [[e|[]] w']; [reflexivity|].
    exact (IH w').
Qed.

(** Two input files on which the loop does the same, in every world with
    the network of [w], give runs that leave the same behind. *)
Lemma transform_same_loop (w : world) (hdr : list string)
    (recs1 recs2 : record_stream) :
  (forall w', net w' = net w ->
     for_rows hdr recs1 transform_row w' = for_rows hdr recs2 transform_row w') ->
  observed (transform (with_input (Some (inr hdr :: recs1)) w)) =
  observed (transform (with_input (Some (inr hdr :: recs2)) w)).
Proof.
  intros Hloop.
  rewrite (transform_on_input (with_input (Some (inr hdr :: recs1)) w) hdr recs1),
    (transform_on_input (with_input (Some (inr hdr :: recs2)) w) hdr recs2)
    by reflexivity.
  rewrite Hloop by reflexivity.
  destruct (nd_for_rows hdr recs2
              (started (with_input (Some (inr hdr :: recs1)) w))
              (started (with_input (Some (inr hdr :: recs2)) w)) eq_refl)
    as (d & Hr & H1 & H2).
  unfold observed. rewrite Hr, H1, H2. reflexivity.
Qed.

(** A run of [transform] reads the directory of the script, the network
    and the input file, and nothing else of the world it starts in. *)
Lemma transform_reads (w1 w2 : world) :
  script_dir w1 = script_dir w2 -> net w1 = net w2 -> in_csv w1 = in_csv w2 ->
  (transform w1).1 = (transform w2).1 /\
  out_csv (transform w1).2 = out_csv (transform w2).2 /\
  exists urls,
    sent (transform w1).2 = sent w1 ++ urls /\
    sent (transform w2).2 = sent w2 ++ urls.
Proof.
  intros Hdir Hnet Hin. rewrite !transform_start.
  unfold mbind, M_bind, open_r. cbn [in_csv started]. rewrite <- Hin.
  destruct (in_csv w1) as [[|[e|hdr] recs]|]; cbn [for_dict_reader];
    try (repeat split; exists []; rewrite !app_nil_r; split; reflexivity).
  destruct (nd_for_rows hdr recs (started w1) (started w2) Hnet) as (d & Hr & H1 & H2).
  rewrite Hr, H1, H2. unfold affect. cbn [out_csv sent started].
  repeat split. exists (e_sent d). split; reflexivity.
Qed.

(** What [transform] shows first, in every run. *)
Lemma transform_announces (w : world) :
  exists ms,
    messages (transform w).2 = messages w ++ prelude_messages (script_dir w) ++ ms.
Proof.
  rewrite transform_start. unfold mbind, M_bind, open_r. cbn [in_csv started].
  destruct (in_csv w) as [[|[e|hdr] recs]|]; cbn [for_dict_reader];
    try (exists []; rewrite app_nil_r; reflexivity).
  destruct (nd_for_rows hdr recs (started w) (started w) eq_refl) as (d & _ & H1 & _).
  rewrite H1. exists (e_messages d). unfold affect. cbn [messages started].
  rewrite <- app_assoc. reflexivity.
Qed.

(** What a run leaves of the world: what it started in, with the output
    file begun anew and with requests, messages and records added. *)
Lemma transform_effect (w : world) :
  exists d, (transform w).2 = affect (started w) d.
Proof.
  rewrite transform_start. unfold mbind, M_bind, open_r. cbn [in_csv started].
  destruct (in_csv w) as [[|[e|hdr] recs]|]; cbn [for_dict_reader];
    try (exists no_effect; rewrite affect_none; reflexivity).
  destruct (nd_for_rows hdr recs (started w) (started w) eq_refl) as (d & _ & H1 & _).
  exists d. exact H1.
Qed.

End Loop.

Section Body.

Context `{Runtime}.

(** The body of the loop, step by step. *)
Lemma transform_row_unfold (row : dict) (w : world) :
  transform_row row w =
  match py_float (get row "Latitude") with
  | inl e => (inl e, w)
  | inr lat =>
  match py_float (get row "Longitude") with
  | inl e => (inl e, w)
  | inr lon =>
  match py_float (get row "Elevation") with
  | inl e => (inl e, w)
  | inr elev =>
  match postprocess_geoid18 lat (PyFloat.abs lon) elev w with
  | (inl e, w1) => (inl e, w1)
  | (inr H0, w1) =>
  match py_float (get row "Ortho_Measured") with
  | inl e => (inl e, w1)
  | inr om =>
      (inr tt,
       affect w1
         {| e_sent := [];
            e_messages := [MsgWritingRow (row_dict row (PyFloat.sub om rh) H0)];
            e_written := [written_cells row (PyFloat.sub om rh) H0] |})
  end end end end end.
Proof.
  unfold transform_row. unfold_m. cbn beta zeta.
  destruct (py_float (get row "Latitude")) as [e|lat]; [reflexivity|].
  destruct (py_float (get row "Longitude")) as [e|lon]; [reflexivity|].
  destruct (py_float (get row "Elevation")) as [e|elev]; [reflexivity|].
  destruct (postprocess_geoid18 lat (PyFloat.abs lon) elev w) as [[e|H0] w1];
    [reflexivity|].
  destruct (py_float (get row "Ortho_Measured")) as [e|om]; [reflexivity|].
  unfold writerow. unfold_m. rewrite dict_to_list_row_dict.
  unfold affect, written_cells. cbn [e_sent e_messages e_written out_csv sent messages
    script_dir net in_csv].
  rewrite app_nil_r. reflexivity.
Qed.

(** The body sends one request at most, and none unless it has converted
    the three coordinates; it writes a record exactly when it returns. *)
Lemma transform_row_requests (row : dict) (w : world) :
  exists urls outs,
    sent (transform_row row w).2 = sent w ++ urls /\
    out_csv (transform_row row w).2 = out_csv w ++ outs /\
    net (transform_row row w).2 = net w /\
    (length urls <= 1)%nat /\
    match (transform_row row w).1 with
    | inr _ => length urls = 1%nat /\ length outs = 1%nat
    | inl _ => outs = []
    end.
Proof.
  rewrite transform_row_unfold.
  destruct (py_float (get row "Latitude")) as [e|lat];
    [exists [], []; rewrite !app_nil_r; repeat split; simpl; lia|].
  destruct (py_float (get row "Longitude")) as [e|lon];
    [exists [], []; rewrite !app_nil_r; repeat split; simpl; lia|].
  destruct (py_float (get row "Elevation")) as [e|elev];
    [exists [], []; rewrite !app_nil_r; repeat split; simpl; lia|].
  pose proof (postprocess_geoid18_frame lat (PyFloat.abs lon) elev w) as Hfr.
  destruct (postprocess_geoid18 lat (PyFloat.abs lon) elev w) as [[e|H0] w1];
    cbv zeta in Hfr; simpl fst in Hfr; simpl snd in Hfr;
    destruct Hfr as ((_ & Hnet & _) & Hout & Hsent).
  - exists [geoid18_url lat (PyFloat.abs lon)], [].
    rewrite app_nil_r. repeat split; simpl; try assumption; lia.
  - destruct (py_float (get row "Ortho_Measured")) as [e|om].
    + exists [geoid18_url lat (PyFloat.abs lon)], [].
      rewrite app_nil_r. repeat split; simpl; try assumption; lia.
    + exists [geoid18_url lat (PyFloat.abs lon)],
        [written_cells row (PyFloat.sub om rh) H0].
      cbn [fst snd affect sent out_csv net e_sent e_written].
      rewrite app_nil_r, Hout, Hsent. repeat split; try assumption; simpl; lia.
Qed.

(** The loop sends one request for each record it writes, and one more at
    most, for the record on which it raised. *)
Lemma for_rows_requests (hdr : list string) (recs : record_stream) (w : world) :
  exists urls outs,
    sent (for_rows hdr recs transform_row w).2 = sent w ++ urls /\
    out_csv (for_rows hdr recs transform_row w).2 = out_csv w ++ outs /\
    (length outs <= length urls <= S (length outs))%nat /\
    ((for_rows hdr recs transform_row w).1 = inr tt ->
     length urls = length (data_rows recs) /\
     length outs = length (data_rows recs)).
Proof.
  revert w. induction recs as [|[e|[|c cs]] rest IH]; intros w;
    cbn [for_rows data_rows].
  - exists [], []. rewrite !app_nil_r. repeat split; simpl; lia.
  - exists [], []. rewrite !app_nil_r. repeat split; simpl; try lia; discriminate.
  - exact (IH w).
  - unfold mbind, M_bind.
    destruct (transform_row_requests (dict_row hdr (c :: cs)) w)
      as (u & o & Hs & Ho & Hn & Hu & Hcase).
    destruct (transform_row (dict_row hdr (c :: cs)) w) as [[e|[]] w'];
      cbn [fst snd] in *.
    + subst o. exists u, []. rewrite app_nil_r in *.
      repeat split; simpl; try assumption; try lia; try discriminate.
    + destruct Hcase as [Hu1 Ho1].
      destruct (IH w') as (u' & o' & Hs' & Ho' & Hb & Hok).
      exists (u ++ u'), (o ++ o').
      rewrite Hs', Ho', Hs, Ho, !app_assoc, !length_app.
      split; [reflexivity|]. split; [reflexivity|]. split; [lia|].
      intros Hfin. destruct (Hok Hfin). simpl. lia.
Qed.

End Body.

Section Files.

Context `{Runtime}.

Lemma for_rows_net (hdr : list string) (recs : record_stream) (w : world) :
  net (for_rows hdr recs transform_row w).2 = net w.
Proof.
  destruct (for_rows_run hdr recs w) as (outs & urls & _ & _ & Hext & _).
  cbv zeta in Hext. apply Hext.
Qed.

(** Runs of the loop from worlds that differ in the input file only leave
    the same behind. *)
Lemma for_rows_observed (hdr : list string) (recs : record_stream) (w1 w2 : world) :
  net w1 = net w2 -> out_csv w1 = out_csv w2 -> sent w1 = sent w2 ->
  messages w1 = messages w2 ->
  observed (for_rows hdr recs transform_row w1) =
  observed (for_rows hdr recs transform_row w2).
Proof.
  intros Hnet Hout Hsent Hmsg.
  destruct (nd_for_rows hdr recs w1 w2 Hnet) as (d & Hr & H1 & H2).
  unfold observed. rewrite Hr, H1, H2. unfold affect. simpl.
  rewrite Hout, Hsent, Hmsg. reflexivity.
Qed.

(** On a failing record the loop raises, whatever follows the record. *)
Lemma for_rows_failing_record (hdr : list string) (rec : exn + list string)
    (after : record_stream) (w : world) :
  record_fails (net w) hdr rec ->
  for_rows hdr (rec :: after) transform_row w = for_rows hdr [rec] transform_row w /\
  out_csv (for_rows hdr [rec] transform_row w).2 = out_csv w /\
  exists e, (for_rows hdr [rec] transform_row w).1 = inl e.
Proof.
  intros Hfail. destruct rec as [e|[|c cs]].
  - cbn. repeat split. exists e. reflexivity.
  - inversion Hfail.
  - destruct (record_fails_row w hdr (c :: cs) Hfail) as (e & w' & Hrow & Hout & _).
    cbn [for_rows]. unfold mbind, M_bind. rewrite Hrow. cbn.
    repeat split; [exact Hout | exists e; reflexivity].
Qed.

Lemma for_rows_until_failure (hdr : list string) (before : record_stream)
    (rec : exn + list string) (after : record_stream) (w : world) :
  record_fails (net w) hdr rec ->
  for_rows hdr (before ++ rec :: after) transform_row w =
  for_rows hdr (before ++ [rec]) transform_row w /\
  out_csv (for_rows hdr (before ++ [rec]) transform_row w).2 =
  out_csv (for_rows hdr before transform_row w).2 /\
  exists e, (for_rows hdr (before ++ [rec]) transform_row w).1 = inl e.
Proof.
  intros Hfail. rewrite !for_rows_app. unfold mbind, M_bind.
  pose proof (for_rows_net hdr before w) as Hnet.
  destruct (for_rows hdr before transform_row w) as [[e|[]] w1]; cbn [snd] in *.
  - repeat split. exists e. reflexivity.
  - rewrite <- Hnet in Hfail.
    destruct (for_rows_failing_record hdr rec after w1 Hfail) as (Heq & Hout & e & He).
    rewrite Heq. repeat split; [exact Hout | exists e; exact He].
Qed.

(** X1: on a file without a data record (an empty file, a header alone, a
    header followed by blank lines only) the run completes, the output file
    holds the field names and nothing else, whatever it held before, and
    no request is sent. *)
Theorem transform_without_data (w : world) :
  in_csv w = Some [] \/
  (exists hdr blanks,
     in_csv w = Some (inr hdr :: blanks) /\ Forall (fun r => r = inr []) blanks) ->
  (transform w).1 = inr tt /\
  out_csv (transform w).2 = [fieldnames] /\
  sent (transform w).2 = sent w.
Proof.
  intros [Hin | (hdr & blanks & Hin & Hblank)].
  - rewrite transform_start. unfold mbind, M_bind, open_r. cbn [in_csv started].
    rewrite Hin. repeat split.
  - rewrite (transform_on_input w hdr blanks Hin). clear Hin.
    generalize (started w) (eq_refl : out_csv (started w) = [fieldnames])
      (eq_refl : sent (started w) = sent w).
    induction Hblank as [|r blanks -> _ IH]; intros w0 Hout Hsent.
    + cbn. repeat split; assumption.
    + cbn [for_rows]. exact (IH w0 Hout Hsent).
Qed.

(** X2: when the input file cannot be opened, or the reader raises on its
    first record, the run ends with that exception after the output file
    has been emptied and given its header; no request is sent. *)
Theorem transform_unreadable_input (w : world) (e : exn) :
  (in_csv w = None /\ e = FileNotFoundError) \/
  (exists recs, in_csv w = Some (inl e :: recs)) ->
  (transform w).1 = inl e /\
  out_csv (transform w).2 = [fieldnames] /\
  sent (transform w).2 = sent w.
Proof.
  intros [[Hin ->] | [recs Hin]];
    rewrite transform_start; unfold mbind, M_bind, open_r; cbn [in_csv started];
    rewrite Hin; repeat split.
Qed.

(** X3: the run sends one request for each record it writes, in the same
    order, and one more at most, for the record on which it raised; a run
    that completes sends exactly one request for each data row, also when
    rows repeat the same coordinates. *)
Theorem transform_one_request_per_row (w : world) (hdr : list string)
    (recs : record_stream) :
  in_csv w = Some (inr hdr :: recs) ->
  exists urls outs,
    sent (transform w).2 = sent w ++ urls /\
    out_csv (transform w).2 = fieldnames :: outs /\
    (length outs <= length urls <= S (length outs))%nat /\
    ((transform w).1 = inr tt ->
     length urls = length (data_rows recs) /\
     length outs = length (data_rows recs)).
Proof.
  intros Hin. rewrite (transform_on_input w hdr recs Hin).
  destruct (for_rows_requests hdr recs (started w)) as (urls & outs & Hs & Ho & Hb & Hok).
  exists urls, outs. repeat split; try assumption; try lia; apply Hok; assumption.
Qed.

(** X4: nothing that follows a failing record is looked at: the run on a
    file leaves behind what the run on the file cut after the failing
    record does, the same exception, output, requests and messages. *)
Theorem transform_stops_at_failure (w : world) (hdr : list string)
    (before : record_stream) (rec : exn + list string) (after : record_stream) :
  record_fails (net w) hdr rec ->
  observed (transform (with_input (Some (inr hdr :: before ++ rec :: after)) w)) =
  observed (transform (with_input (Some (inr hdr :: before ++ [rec])) w)).
Proof.
  intros Hfail. apply transform_same_loop. intros w' Hnet.
  rewrite <- Hnet in Hfail.
  exact (proj1 (for_rows_until_failure hdr before rec after w' Hfail)).
Qed.

(** X5: a failing record leaves no trace in the output file, nor does
    anything after it: the file is the one the run on the records before
    it writes. *)
Theorem transform_keeps_rows_before_failure (w : world) (hdr : list string)
    (before : record_stream) (rec : exn + list string) (after : record_stream) :
  record_fails (net w) hdr rec ->
  out_csv (transform (with_input (Some (inr hdr :: before ++ rec :: after)) w)).2 =
  out_csv (transform (with_input (Some (inr hdr :: before)) w)).2.
Proof.
  intros Hfail.
  rewrite (transform_on_input (with_input (Some (inr hdr :: before ++ rec :: after)) w)
             hdr (before ++ rec :: after)),
    (transform_on_input (with_input (Some (inr hdr :: before)) w) hdr before)
    by reflexivity.
  set (w1 := started (with_input (Some (inr hdr :: before ++ rec :: after)) w)).
  set (w2 := started (with_input (Some (inr hdr :: before)) w)).
  destruct (for_rows_until_failure hdr before rec after w1 Hfail) as (Heq & Hout & _).
  rewrite Heq, Hout.
  pose proof (for_rows_observed hdr before w1 w2 eq_refl eq_refl eq_refl eq_refl) as Hobs.
  unfold observed in Hobs. congruence.
Qed.

(** X6: records added at the end of the input change nothing of what is
    written for the earlier ones: the output of the run on the shorter
    file is the beginning of the output of the run on the longer one. *)
Theorem transform_output_grows (w : world) (hdr : list string)
    (a b : record_stream) :
  out_csv (transform (with_input (Some (inr hdr :: a)) w)).2
  `prefix_of`
  out_csv (transform (with_input (Some (inr hdr :: a ++ b)) w)).2.
Proof.
  rewrite (transform_on_input (with_input (Some (inr hdr :: a ++ b)) w) hdr (a ++ b)),
    (transform_on_input (with_input (Some (inr hdr :: a)) w) hdr a) by reflexivity.
  set (w1 := started (with_input (Some (inr hdr :: a)) w)).
  set (w2 := started (with_input (Some (inr hdr :: a ++ b)) w)).
  pose proof (for_rows_observed hdr a w1 w2 eq_refl eq_refl eq_refl eq_refl) as Hobs.
  unfold observed in Hobs.
  assert (Hout : out_csv (for_rows hdr a transform_row w1).2
                 = out_csv (for_rows hdr a transform_row w2).2) by congruence.
  rewrite Hout, for_rows_app. unfold mbind, M_bind.
  destruct (for_rows hdr a transform_row w2) as [[e|[]] w3]; cbn [snd].
  - exists []. rewrite app_nil_r. reflexivity.
  - destruct (for_rows_requests hdr b w3) as (urls & outs & _ & Ho & _).
    exists outs. exact Ho.
Qed.

(** X7: blank lines between the records change nothing: the run leaves
    behind what the run on the file without them does. *)
Theorem transform_skips_blank_records (w : world) (hdr : list string)
    (recs : record_stream) :
  observed (transform (with_input (Some (inr hdr :: recs)) w)) =
  observed (transform (with_input (Some (inr hdr :: without_blanks recs)) w)).
Proof.
  apply transform_same_loop. intros w' _.
  symmetry. apply for_rows_without_blanks.
Qed.

(** X24: a second run, after the first and with the network and the input
    file unchanged, ends as the first did and leaves the same output file:
    the file is written anew, not added to. Every request of the first
    run is sent again. *)
Theorem transform_rerun (w : world) :
  let first := transform w in
  let second := transform first.2 in
  second.1 = first.1 /\
  out_csv second.2 = out_csv first.2 /\
  exists urls,
    sent first.2 = sent w ++ urls /\
    sent second.2 = sent w ++ urls ++ urls.
Proof.
  cbv zeta. destruct (transform_effect w) as (d & Hd).
  destruct (transform_reads (transform w).2 w) as (Hres & Hout & urls & H1 & H2);
    try (rewrite Hd; reflexivity).
  split; [exact Hres|]. split; [exact Hout|].
  exists urls. split; [exact H2|]. rewrite H1, H2, <- app_assoc. reflexivity.
Qed.

End Files.

(** ** The fields of a row *)

(** A name that is not in the header gives [None]. *)
Lemma dict_row_absent (hdr cells : list string) (k : string) :
  k ∉ hdr -> get (dict_row hdr cells) k = VNone.
Proof.
  intros Hk. unfold get, dict_row.
  rewrite foldl_insert_none_notin.
  - rewrite foldl_insert_str_notin; [reflexivity|].
    intros Hin. apply Hk. exact (zip_fst_elem_of _ _ _ Hin).
  - intros Hin. apply Hk. exact (elem_of_sublist _ _ _ Hin (sublist_drop hdr _)).
Qed.

Section Fields.

Context `{Runtime}.

(** What is written for a row is a function of what [row.get] gives for
    the ten names. *)
Lemma written_cells_ext (row1 row2 : dict) (m c : float) :
  Forall (fun k => get row1 k = get row2 k) pass_through ->
  written_cells row1 m c = written_cells row2 m c.
Proof.
  intros Hall. unfold pass_through in Hall.
  repeat match goal with
         | H : Forall _ (_ :: _) |- _ => apply Forall_cons in H as [? H]
         end.
  unfold written_cells. congruence.
Qed.

(** The height computed for a written row, from the answer of the service. *)
Lemma row_written_height (w : world) (row : dict) (o : list string) (url : string) :
  row_written w row o url ->
  exists lat lon elev om r html n e,
    py_float (get row "Latitude") = inr lat /\
    py_float (get row "Longitude") = inr lon /\
    py_float (get row "Elevation") = inr elev /\
    py_float (get row "Ortho_Measured") = inr om /\
    net w (geoid18_url lat (PyFloat.abs lon)) = inr r /\
    decode_utf8 (content r) = Some html /\
    (forall w0, (parse_geoid18_response html w0).1 = inr (n, e)) /\
    o = written_cells row (PyFloat.sub om rh) (PyFloat.sub elev n).
Proof.
  intros (lat & lon & elev & om & H0 & wi & w1 & Hext & Hlat & Hlon & Helev & Hpp
          & Hom & -> & _).
  destruct (postprocess_geoid18_inv _ _ _ _ _ _ Hpp)
    as (r & html & n & e & Hn & Hd & Hp & -> & _).
  destruct Hext as (_ & Hnet & _). rewrite Hnet in Hn.
  exists lat, lon, elev, om, r, html, n, e. repeat split; assumption.
Qed.

(** X8: the record written for a row depends on the input through the ten
    named fields only: two rows for which [row.get] gives the same for
    each of the ten names are written the same, whatever other columns,
    column order or other rows their files have. *)
Theorem transform_reads_named_fields_only (w1 w2 : world) (hdr1 hdr2 : list string)
    (recs1 recs2 : record_stream) (i1 i2 : nat) (cells1 cells2 o1 o2 : list string) :
  (forall url, net w1 url = net w2 url) ->
  in_csv w1 = Some (inr hdr1 :: recs1) ->
  in_csv w2 = Some (inr hdr2 :: recs2) ->
  data_rows recs1 !! i1 = Some cells1 ->
  data_rows recs2 !! i2 = Some cells2 ->
  Forall (fun k => get (dict_row hdr1 cells1) k = get (dict_row hdr2 cells2) k)
    pass_through ->
  out_csv (transform w1).2 !! S i1 = Some o1 ->
  out_csv (transform w2).2 !! S i2 = Some o2 ->
  o1 = o2.
Proof.
  intros Hnet Hin1 Hin2 Hc1 Hc2 Hsame Ho1 Ho2.
  destruct (transform_output_row w1 hdr1 recs1 i1 o1 Hin1 Ho1)
    as (c1 & url1 & Hc1' & _ & Hw1).
  destruct (transform_output_row w2 hdr2 recs2 i2 o2 Hin2 Ho2)
    as (c2 & url2 & Hc2' & _ & Hw2).
  assert (c1 = cells1) as -> by congruence.
  assert (c2 = cells2) as -> by congruence.
  destruct (row_written_height _ _ _ _ Hw1)
    as (lat & lon & elev & om & r & html & n & e & Hlat & Hlon & Helev & Hom
        & Hn & Hd & Hp & ->).
  destruct (row_written_height _ _ _ _ Hw2)
    as (lat' & lon' & elev' & om' & r' & html' & n' & e' & Hlat' & Hlon' & Helev'
        & Hom' & Hn' & Hd' & Hp' & ->).
  pose proof Hsame as Hall. unfold pass_through in Hall.
  repeat match goal with
         | H : Forall _ (_ :: _) |- _ => apply Forall_cons in H as [? H]
         end.
  assert (lat' = lat) as -> by congruence.
  assert (lon' = lon) as -> by congruence.
  assert (elev' = elev) as -> by congruence.
  assert (om' = om) as -> by congruence.
  rewrite Hnet, Hn' in Hn. injection Hn as <-.
  assert (html' = html) as -> by congruence.
  specialize (Hp w1). specialize (Hp' w1).
  assert (n' = n) as -> by congruence.
  apply written_cells_ext. exact Hsame.
Qed.

(** X9: the Calculated_Ortho cell depends on the row through three numbers
    only, the latitude, the absolute value of the longitude and the
    elevation: rows that give the same three are given the same cell, so a
    longitude east of Greenwich is answered like the western one of the
    same size, and the spelling of the numbers does not matter. *)
Theorem transform_calculated_ortho_inputs (w1 w2 : world) (hdr1 hdr2 : list string)
    (recs1 recs2 : record_stream) (i1 i2 : nat) (cells1 cells2 o1 o2 : list string)
    (lat lon1 lon2 elev : float) :
  (forall url, net w1 url = net w2 url) ->
  in_csv w1 = Some (inr hdr1 :: recs1) ->
  in_csv w2 = Some (inr hdr2 :: recs2) ->
  data_rows recs1 !! i1 = Some cells1 ->
  data_rows recs2 !! i2 = Some cells2 ->
  py_float (get (dict_row hdr1 cells1) "Latitude") = inr lat ->
  py_float (get (dict_row hdr2 cells2) "Latitude") = inr lat ->
  py_float (get (dict_row hdr1 cells1) "Longitude") = inr lon1 ->
  py_float (get (dict_row hdr2 cells2) "Longitude") = inr lon2 ->
  PyFloat.abs lon1 = PyFloat.abs lon2 ->
  py_float (get (dict_row hdr1 cells1) "Elevation") = inr elev ->
  py_float (get (dict_row hdr2 cells2) "Elevation") = inr elev ->
  out_csv (transform w1).2 !! S i1 = Some o1 ->
  out_csv (transform w2).2 !! S i2 = Some o2 ->
  o1 !! 11%nat = o2 !! 11%nat.
Proof.
  intros Hnet Hin1 Hin2 Hc1 Hc2 Hlat1 Hlat2 Hlon1 Hlon2 Habs Hel1 Hel2 Ho1 Ho2.
  destruct (transform_output_row w1 hdr1 recs1 i1 o1 Hin1 Ho1)
    as (c1 & url1 & Hc1' & _ & Hw1).
  destruct (transform_output_row w2 hdr2 recs2 i2 o2 Hin2 Ho2)
    as (c2 & url2 & Hc2' & _ & Hw2).
  assert (c1 = cells1) as -> by congruence.
  assert (c2 = cells2) as -> by congruence.
  destruct (row_written_height _ _ _ _ Hw1)
    as (lat' & lon & elev' & om & r & html & n & e & Hlat & Hlon & Helev & Hom
        & Hn & Hd & Hp & ->).
  destruct (row_written_height _ _ _ _ Hw2)
    as (lat'' & lon' & elev'' & om' & r' & html' & n' & e' & Hlat' & Hlon' & Helev'
        & Hom' & Hn' & Hd' & Hp' & ->).
  assert (lat' = lat) as -> by congruence.
  assert (lat'' = lat) as -> by congruence.
  assert (lon = lon1) as -> by congruence.
  assert (lon' = lon2) as -> by congruence.
  assert (elev' = elev) as -> by congruence.
  assert (elev'' = elev) as -> by congruence.
  rewrite Habs, Hnet, Hn' in Hn. injection Hn as <-.
  assert (html' = html) as -> by congruence.
  specialize (Hp w1). specialize (Hp' w1).
  assert (n' = n) as -> by congruence.
  reflexivity.
Qed.

(** X10: in a row that is written, a pass-through field that the record
    does not provide, because its column is not in the header or because
    the record ends before it, is an empty cell. *)
Theorem transform_missing_field_empty (w : world) (hdr : list string)
    (recs : record_stream) (i j : nat) (cells o : list string) (k : string) :
  in_csv w = Some (inr hdr :: recs) ->
  data_rows recs !! i = Some cells ->
  out_csv (transform w).2 !! S i = Some o ->
  pass_through !! j = Some k ->
  k ∉ hdr \/ (exists n, hdr !! n = Some k /\ (length cells <= n)%nat) ->
  o !! j = Some "".
Proof.
  intros Hin Hcells Ho Hj Hmiss.
  destruct (transform_output_row w hdr recs i o Hin Ho)
    as (cells' & url & Hc & _ & Hw).
  assert (cells' = cells) as -> by congruence.
  destruct Hw as (lat & lon & elev & om & H0 & wi & w1 & _ & _ & _ & _ & _ & _
                  & -> & _).
  assert (Hnone : get (dict_row hdr cells) k = VNone).
  { destruct Hmiss as [Habs | (n & Hn & Hlen)].
    - exact (dict_row_absent hdr cells k Habs).
    - exact (dict_row_missing hdr cells n k Hn Hlen). }
  assert (Hj10 : (j < 10)%nat) by (apply lookup_lt_Some in Hj; exact Hj).
  rewrite <- (lookup_take_lt _ 10 j Hj10).
  change (take 10 (written_cells (dict_row hdr cells) (PyFloat.sub om rh) H0))
    with (map (fun k => cell_text (get (dict_row hdr cells) k)) pass_through).
  rewrite list_lookup_fmap, Hj. simpl. rewrite Hnone. reflexivity.
Qed.

(** X11: the three coordinates are converted before the service is asked: a
    row whose latitude, longitude or elevation is missing or is not a
    number makes the body raise and leaves the world as it was, without a
    request or a message. *)
Theorem transform_row_coordinates_first (row : dict) (w : world) (k : string)
    (e : exn) :
  k ∈ ["Latitude"; "Longitude"; "Elevation"] ->
  py_float (get row k) = inl e ->
  exists e', transform_row row w = (inl e', w).
Proof.
  intros Hk Hbad. rewrite transform_row_unfold.
  set_unfold in Hk.
  destruct (py_float (get row "Latitude")) as [e1|lat] eqn:Hlat; [eexists; reflexivity|].
  destruct (py_float (get row "Longitude")) as [e2|lon] eqn:Hlon; [eexists; reflexivity|].
  destruct (py_float (get row "Elevation")) as [e3|elev] eqn:Helev; [eexists; reflexivity|].
  destruct Hk as [->|[->|[->|[]]]]; congruence.
Qed.

(** X12: the measured height is converted after the service has answered: a
    row that is wrong in Ortho_Measured alone makes the body raise the
    exception of that conversion once the request has been sent and
    answered, and nothing is written for it. *)
Theorem transform_row_measured_last (row : dict) (w w1 : world)
    (lat lon elev H0 : float) (e : exn) :
  py_float (get row "Latitude") = inr lat ->
  py_float (get row "Longitude") = inr lon ->
  py_float (get row "Elevation") = inr elev ->
  postprocess_geoid18 lat (PyFloat.abs lon) elev w = (inr H0, w1) ->
  py_float (get row "Ortho_Measured") = inl e ->
  transform_row row w = (inl e, w1) /\
  sent w1 = sent w ++ [geoid18_url lat (PyFloat.abs lon)] /\
  out_csv w1 = out_csv w.
Proof.
  intros Hlat Hlon Helev Hpp Hom.
  rewrite transform_row_unfold, Hlat, Hlon, Helev, Hpp, Hom.
  pose proof (postprocess_geoid18_frame lat (PyFloat.abs lon) elev w) as Hfr.
  rewrite Hpp in Hfr. cbv zeta in Hfr. simpl in Hfr.
  destruct Hfr as (_ & Hout & Hsent). repeat split; assumption.
Qed.

End Fields.

(** ** The page of the service *)

(** ** Indexing, the other way round *)

Lemma getitem_fourth_inv {A : Type} (l : list A) (x : A) :
  PyStr.getitem l 3 = inr x -> exists a b c rest, l = a :: b :: c :: x :: rest.
Proof.
  destruct l as [|a [|b [|c [|d rest]]]]; try (rewrite getitem_short by (simpl; lia); discriminate).
  rewrite getitem_fourth. intros Heq. injection Heq as ->. eauto.
Qed.

Lemma getitem_neg_inv {A : Type} (l : list A) (k : nat) (x : A) :
  (0 < k)%nat -> PyStr.getitem l (- Z.of_nat k) = inr x ->
  (k <= length l)%nat /\ nth_error l (length l - k) = Some x.
Proof.
  intros Hk. unfold PyStr.getitem.
  assert (Hneg : (- Z.of_nat k <? 0)%Z = true) by (apply Z.ltb_lt; lia).
  rewrite Hneg.
  destruct (0 <=? - Z.of_nat k + Z.of_nat (length l))%Z eqn:H0; [|discriminate].
  apply Z.leb_le in H0.
  destruct (- Z.of_nat k + Z.of_nat (length l) <? Z.of_nat (length l))%Z; [|discriminate].
  simpl andb. cbv iota.
  replace (Z.to_nat (- Z.of_nat k + Z.of_nat (length l))) with (length l - k)%nat by lia.
  destruct (nth_error l (length l - k)) as [y|] eqn:Hnth; [|discriminate].
  intros Heq. injection Heq as ->. split; [lia | reflexivity].
Qed.

Lemma getitem_last_two_inv {A : Type} (l : list A) (a b : A) :
  PyStr.getitem l (-2) = inr a -> PyStr.getitem l (-1) = inr b ->
  exists pre, l = pre ++ [a; b].
Proof.
  intros Ha Hb.
  apply (getitem_neg_inv l 2 a) in Ha as [Hlen Ha]; [|lia].
  apply (getitem_neg_inv l 1 b) in Hb as [_ Hb]; [|lia].
  exists (take (length l - 2) l).
  rewrite <- (take_drop (length l - 2) l) at 1. f_equal.
  assert (Hd : length (drop (length l - 2) l) = 2%nat) by (rewrite length_drop; lia).
  rewrite <- (Nat.add_0_r (length l - 2)) in Ha.
  replace (length l - 1)%nat with (length l - 2 + 1)%nat in Hb by lia.
  rewrite <- nth_error_skipn in Ha, Hb.
  destruct (drop (length l - 2) l) as [|x [|y [|z t]]]; try discriminate.
  simpl in Ha, Hb. congruence.
Qed.

(** ** Whitespace at the end of a line *)

Lemma split_spaces (pad : string) :
  string_forall PyStr.isspace pad = true -> PyStr.split pad = [].
Proof.
  induction pad as [|c pad IH]; [reflexivity|].
  simpl. intros Hall. apply andb_prop in Hall as [Hc Hpad].
  rewrite Hc. exact (IH Hpad).
Qed.

Lemma split_trailing_spaces (s pad : string) :
  string_forall PyStr.isspace pad = true ->
  PyStr.split (s +:+ pad) = PyStr.split s.
Proof.
  intros Hpad. induction s as [|c s IH].
  - exact (split_spaces pad Hpad).
  - change (String c s +:+ pad) with (String c (s +:+ pad)).
    cbn [PyStr.split]. destruct (PyStr.isspace c); [exact IH|].
    destruct s as [|c' s'].
    + change ("" +:+ pad) with pad in *.
      destruct pad as [|p pad']; [reflexivity|].
      simpl in Hpad. apply andb_prop in Hpad as [Hp Hpad'].
      rewrite Hp. rewrite (split_spaces (String p pad')); [reflexivity|].
      simpl. rewrite Hp. exact Hpad'.
    + change (String c' s' +:+ pad) with (String c' (s' +:+ pad)) in *.
      lazy beta iota. rewrite IH. reflexivity.
Qed.

Section Pages.

Context `{Runtime}.

(** The whole run of [parse_geoid18_response] on a page of the documented
    shape. *)
Lemma parse_geoid18_response_run (html block l0 l1 l2 line tN tE : string)
    (rest toks : list string) (N e : float) (w : world) :
  pre_string html = Some (Some block) ->
  PyStr.split_on PyStr.newline block = l0 :: l1 :: l2 :: line :: rest ->
  PyStr.split line = toks ++ [tN; tE] ->
  float_of_str tN = Some N ->
  float_of_str tE = Some e ->
  parse_geoid18_response html w =
  (inr (N, e),
   affect w {| e_sent := [];
               e_messages := [MsgData (toks ++ [tN; tE]); MsgN N; MsgError e];
               e_written := [] |}).
Proof.
  intros Hpre Hlines Htoks HN He.
  unfold parse_geoid18_response. unfold_m.
  rewrite Hpre, Hlines, getitem_fourth, Htoks.
  rewrite getitem_second_to_last, getitem_last.
  simpl. rewrite HN, He. unfold affect. simpl.
  rewrite !app_nil_r, <- !app_assoc. reflexivity.
Qed.

(** X13: a page is read only if it has the documented shape: when
    [parse_geoid18_response] returns a pair, the page has preformatted
    text with a fourth line, that line ends in two tokens, and the pair is
    the two tokens as numbers. *)
Theorem parse_geoid18_response_only_documented (html : string) (w : world)
    (N e : float) :
  (parse_geoid18_response html w).1 = inr (N, e) ->
  exists block l0 l1 l2 line rest toks tN tE,
    pre_string html = Some (Some block) /\
    PyStr.split_on PyStr.newline block = l0 :: l1 :: l2 :: line :: rest /\
    PyStr.split line = toks ++ [tN; tE] /\
    float_of_str tN = Some N /\
    float_of_str tE = Some e.
Proof.
  unfold parse_geoid18_response. unfold_m.
  destruct (pre_string html) as [[block|]|] eqn:Hpre; try discriminate.
  destruct (PyStr.getitem (PyStr.split_on PyStr.newline block) 3) as [ex|line] eqn:Hline;
    [discriminate|].
  destruct (PyStr.getitem (PyStr.split line) (-2)) as [ex|tN] eqn:HtN; [discriminate|].
  simpl. destruct (float_of_str tN) as [n|] eqn:HN; [|discriminate].
  destruct (PyStr.getitem (PyStr.split line) (-1)) as [ex|tE] eqn:HtE; [discriminate|].
  simpl. destruct (float_of_str tE) as [x|] eqn:He; [|discriminate].
  simpl. intros Heq. injection Heq as <- <-.
  destruct (getitem_fourth_inv _ _ Hline) as (l0 & l1 & l2 & rest & Hlines).
  destruct (getitem_last_two_inv _ _ _ HtN HtE) as (toks & Htoks).
  exists block, l0, l1, l2, line, rest, toks, tN, tE. repeat split; assumption.
Qed.

(** X14: when [parse_geoid18_response] raises it has shown no message and
    left the world as it was, and the exception tells what is wrong with
    the page: [AttributeError] without preformatted text, [IndexError]
    without a fourth line or without two tokens on it, [ValueError] when
    one of the two tokens is not a number. *)
Theorem parse_geoid18_response_raises (html : string) (w : world) (ex : exn) :
  (parse_geoid18_response html w).1 = inl ex ->
  (parse_geoid18_response html w).2 = w /\
  match pre_string html with
  | Some (Some block) =>
      match PyStr.split_on PyStr.newline block with
      | _ :: _ :: _ :: line :: _ =>
          if (length (PyStr.split line) <? 2)%nat then ex = IndexError
          else ex = ValueError
      | _ => ex = IndexError
      end
  | _ => ex = AttributeError
  end.
Proof.
  unfold parse_geoid18_response. unfold_m.
  destruct (pre_string html) as [[block|]|] eqn:Hpre;
    try (simpl; intros Heq; injection Heq as <-; split; reflexivity).
  destruct (PyStr.split_on PyStr.newline block) as [|l0 [|l1 [|l2 [|line rest]]]] eqn:Hl;
    try (rewrite getitem_short by (simpl; lia); simpl; intros Heq;
         injection Heq as <-; split; reflexivity).
  rewrite getitem_fourth.
  destruct (length (PyStr.split line) <? 2)%nat eqn:Hlen.
  - apply Nat.ltb_lt in Hlen.
    pose proof (getitem_neg_short (PyStr.split line) 2 Hlen) as Hget.
    change (- Z.of_nat 2)%Z with (-2)%Z in Hget. rewrite Hget. simpl.
    intros Heq; injection Heq as <-; split; reflexivity.
  - apply Nat.ltb_ge in Hlen.
    destruct (PyStr.getitem (PyStr.split line) (-2)) as [e2|tN] eqn:HtN.
    { exfalso. unfold PyStr.getitem in HtN.
      replace (-2 <? 0)%Z with true in HtN by reflexivity.
      assert (H0 : (0 <=? -2 + Z.of_nat (length (PyStr.split line)))%Z = true)
        by (apply Z.leb_le; lia).
      assert (H1 : (-2 + Z.of_nat (length (PyStr.split line))
                    <? Z.of_nat (length (PyStr.split line)))%Z = true)
        by (apply Z.ltb_lt; lia).
      rewrite H0, H1 in HtN. simpl andb in HtN. cbv iota in HtN.
      destruct (nth_error (PyStr.split line)
                  (Z.to_nat (-2 + Z.of_nat (length (PyStr.split line))))) eqn:Hnth;
        [discriminate|].
      apply nth_error_None in Hnth. lia. }
    simpl. destruct (float_of_str tN) as [n|];
      [|intros Heq; injection Heq as <-; split; reflexivity].
    destruct (PyStr.getitem (PyStr.split line) (-1)) as [e1|tE] eqn:HtE.
    { exfalso. unfold PyStr.getitem in HtE.
      replace (-1 <? 0)%Z with true in HtE by reflexivity.
      assert (H0 : (0 <=? -1 + Z.of_nat (length (PyStr.split line)))%Z = true)
        by (apply Z.leb_le; lia).
      assert (H1 : (-1 + Z.of_nat (length (PyStr.split line))
                    <? Z.of_nat (length (PyStr.split line)))%Z = true)
        by (apply Z.ltb_lt; lia).
      rewrite H0, H1 in HtE. simpl andb in HtE. cbv iota in HtE.
      destruct (nth_error (PyStr.split line)
                  (Z.to_nat (-1 + Z.of_nat (length (PyStr.split line))))) eqn:Hnth;
        [discriminate|].
      apply nth_error_None in Hnth. lia. }
    simpl. destruct (float_of_str tE) as [x|];
      [discriminate | intros Heq; injection Heq as <-; split; reflexivity].
Qed.

(** X15: whitespace at the end of the fourth line, such as the carriage
    return of a line that ends in CR LF, does not change what is read. *)
Theorem parse_geoid18_response_trailing_space
    (html block l0 l1 l2 line pad tN tE : string) (rest toks : list string)
    (N e : float) (w : world) :
  pre_string html = Some (Some block) ->
  PyStr.split_on PyStr.newline block = l0 :: l1 :: l2 :: (line +:+ pad) :: rest ->
  string_forall PyStr.isspace pad = true ->
  PyStr.split line = toks ++ [tN; tE] ->
  float_of_str tN = Some N ->
  float_of_str tE = Some e ->
  (parse_geoid18_response html w).1 = inr (N, e).
Proof.
  intros Hpre Hlines Hpad Htoks HN He.
  rewrite <- (split_trailing_spaces line pad Hpad) in Htoks.
  rewrite (parse_geoid18_response_run html block l0 l1 l2 (line +:+ pad) tN tE
             rest toks N e w Hpre Hlines Htoks HN He).
  reflexivity.
Qed.

(** X16: the status of the answer is never looked at: two answers with the
    same content give the same outcome, a height or an exception, whatever
    their status codes are. *)
Theorem postprocess_geoid18_ignores_status (lat long h : float) (w1 w2 : world)
    (r1 r2 : response) :
  net w1 (geoid18_url lat long) = inr r1 ->
  net w2 (geoid18_url lat long) = inr r2 ->
  content r1 = content r2 ->
  (postprocess_geoid18 lat long h w1).1 = (postprocess_geoid18 lat long h w2).1.
Proof.
  intros Hn1 Hn2 Hc.
  unfold postprocess_geoid18. unfold_m. cbn beta zeta.
  rewrite Hn1, Hn2, Hc.
  destruct (decode_utf8 (content r2)) as [html|]; [|reflexivity].
  match goal with
  | |- context [(let (_, _) := parse_geoid18_response html ?wa in _).1 =
                (let (_, _) := parse_geoid18_response html ?wb in _).1] =>
      pose proof (parse_value_indep html wa wb) as Hval;
      destruct (parse_geoid18_response html wa) as [[ea|[na ea]] wa'];
      destruct (parse_geoid18_response html wb) as [[eb|[nb eb]] wb']
  end; simpl in Hval |- *; congruence.
Qed.

End Pages.

(** ** The host application *)

Lemma status_code_known (k : Z) :
  is_Some (Host.status_code !! k) <-> (0 <= k <= 10)%Z.
Proof.
  split.
  - intros [text Hk]. apply elem_of_list_to_map_2 in Hk.
    repeat (apply elem_of_cons in Hk as [Hk|Hk]; [inversion Hk; lia|]).
    inversion Hk.
  - intros Hk.
    assert (k = 0 \/ k = 1 \/ k = 2 \/ k = 3 \/ k = 4 \/ k = 5 \/ k = 6 \/
            k = 7 \/ k = 8 \/ k = 9 \/ k = 10)%Z as Hcases by lia.
    repeat (destruct Hcases as [->|Hcases]; [eexists; reflexivity|]).
    subst k. eexists; reflexivity.
Qed.

Lemma status_code_unknown (k : Z) :
  Host.status_code !! k = None <-> (k < 0 \/ 10 < k)%Z.
Proof.
  rewrite eq_None_not_Some, status_code_known. lia.
Qed.

Ltac unfold_hm :=
  unfold Host.status_code_getitem;
  unfold mbind, mret, Host.HM_bind, Host.HM_ret, Host.raise, Host.AddMessage,
    Host.read_status, Host.sleep, Host.get_env, Host.set_env.

(** One turn of the loop, when the job is not finished at the test and its
    status is a known one when the message is built. *)
Lemma wait_loop_turn (fuel : nat) (result : Host.job) (s : Host.session) (text : string) :
  (Host.status_at result (Host.polls s) < 4)%Z ->
  Host.status_code !! Host.status_at result (2 + Host.polls s) = Some text ->
  Host.wait_loop (S fuel) result s =
  Host.wait_loop fuel result
    {| Host.wld := Host.wld s; Host.env := Host.env s;
       Host.describe := Host.describe s;
       Host.xy_table_to_point := Host.xy_table_to_point s;
       Host.window := Host.window s ++
         [(length (messages (Host.wld s)),
           Host.MsgJobStatusInLoop (Host.status_at result (1 + Host.polls s)) text)];
       Host.tools := Host.tools s;
       Host.polls := 3 + Host.polls s;
       Host.sleeps := S (Host.sleeps s) |}.
Proof.
  intros Hlt Htext. cbn [Host.wait_loop]. unfold_hm.
  apply Z.ltb_lt in Hlt. rewrite Hlt.
  cbn [Host.polls Host.wld Host.env Host.describe Host.xy_table_to_point
       Host.window Host.tools Host.sleeps].
  cbn [plus] in Htext. rewrite Htext. reflexivity.
Qed.

Lemma wait_loop_done (fuel : nat) (result : Host.job) (s : Host.session) :
  (4 <= Host.status_at result (Host.polls s))%Z ->
  Host.wait_loop (S fuel) result s =
  (Host.Returned tt,
   {| Host.wld := Host.wld s; Host.env := Host.env s;
      Host.describe := Host.describe s;
      Host.xy_table_to_point := Host.xy_table_to_point s;
      Host.window := Host.window s; Host.tools := Host.tools s;
      Host.polls := S (Host.polls s); Host.sleeps := Host.sleeps s |}).
Proof.
  intros Hge. cbn [Host.wait_loop]. unfold_hm.
  apply Z.ltb_ge in Hge. rewrite Hge. reflexivity.
Qed.

(** The loop on a job that is finished at its [k]-th test and not before:
    [k] turns, [k] messages, [k] sleeps. *)
Lemma wait_loop_finishes (k : nat) :
  forall (fuel : nat) (result : Host.job) (s : Host.session),
  (k < fuel)%nat ->
  (forall i, (i < k)%nat ->
     (Host.status_at result (3 * i + Host.polls s) < 4)%Z /\
     (0 <= Host.status_at result (3 * i + 2 + Host.polls s) <= 10)%Z) ->
  (4 <= Host.status_at result (3 * k + Host.polls s))%Z ->
  exists shown,
    length shown = k /\
    Host.wait_loop fuel result s =
    (Host.Returned tt,
     {| Host.wld := Host.wld s; Host.env := Host.env s;
        Host.describe := Host.describe s;
        Host.xy_table_to_point := Host.xy_table_to_point s;
        Host.window := Host.window s ++ shown; Host.tools := Host.tools s;
        Host.polls := 3 * k + 1 + Host.polls s;
        Host.sleeps := k + Host.sleeps s |}).
Proof.
  induction k as [|k IH]; intros fuel result s Hfuel Hturns Hdone.
  - destruct fuel as [|fuel]; [lia|]. exists []. split; [reflexivity|].
    rewrite wait_loop_done by exact Hdone. rewrite app_nil_r. reflexivity.
  - destruct fuel as [|fuel]; [lia|].
    destruct (Hturns 0%nat ltac:(lia)) as [Hlt Hknown]. cbn [Nat.mul plus] in Hlt, Hknown.
    apply status_code_known in Hknown as [text Htext].
    rewrite (wait_loop_turn fuel result s text Hlt Htext).
    match goal with |- context [Host.wait_loop fuel result ?s1] => set (s' := s1) end.
    destruct (IH fuel result s' ltac:(lia)) as (shown & Hlen & Hrun).
    + intros i Hi. destruct (Hturns (S i) ltac:(lia)) as [H1 H2].
      subst s'. cbn [Host.polls].
      replace (3 * i + (3 + Host.polls s))%nat with (3 * S i + Host.polls s)%nat by lia.
      replace (3 * i + 2 + (3 + Host.polls s))%nat
        with (3 * S i + 2 + Host.polls s)%nat by lia.
      split; assumption.
    + subst s'. cbn [Host.polls].
      replace (3 * k + (3 + Host.polls s))%nat with (3 * S k + Host.polls s)%nat by lia.
      exact Hdone.
    + eexists (_ :: shown). split; [cbn [length]; rewrite Hlen; reflexivity|].
      rewrite Hrun. subst s'.
      cbn [Host.polls Host.wld Host.env Host.describe Host.xy_table_to_point
           Host.window Host.tools Host.sleeps].
      rewrite <- app_assoc. cbn [app].
      replace (3 * k + 1 + (3 + Host.polls s))%nat
        with (3 * S k + 1 + Host.polls s)%nat by lia.
      replace (k + S (Host.sleeps s))%nat with (S k + Host.sleeps s)%nat by lia.
      reflexivity.
Qed.

(** The loop on a job that stays unfinished: every turn allowed is used. *)
Lemma wait_loop_waits (fuel : nat) :
  forall (result : Host.job) (s : Host.session),
  (forall n, (Host.polls s <= n)%nat -> (0 <= Host.status_at result n < 4)%Z) ->
  (Host.wait_loop fuel result s).1 = Host.Waiting /\
  Host.sleeps (Host.wait_loop fuel result s).2 = (fuel + Host.sleeps s)%nat.
Proof.
  induction fuel as [|fuel IH]; intros result s Hstay.
  - split; reflexivity.
  - destruct (Hstay (Host.polls s) ltac:(lia)) as [_ Hlt].
    assert (is_Some (Host.status_code !! Host.status_at result (2 + Host.polls s)))
      as [text Htext].
    { apply status_code_known. destruct (Hstay (2 + Host.polls s)%nat ltac:(lia)). lia. }
    rewrite (wait_loop_turn fuel result s text Hlt Htext).
    match goal with |- context [Host.wait_loop fuel result ?s1] => set (s' := s1) end.
    destruct (IH result s') as [Hres Hsl].
    + intros n Hn. apply Hstay. subst s'. cbn [Host.polls] in Hn. lia.
    + split; [exact Hres|]. rewrite Hsl. subst s'. cbn [Host.sleeps]. lia.
Qed.

Section Application.

Context `{Runtime}.

Lemma main_unfold (fuel : nat) (s : Host.session) :
  let w := Host.wld s in
  let dir := script_dir w in
  let n := length (messages w) in
  let setting :=
    [(n + 2, Host.MsgWorkspace (Some (path_join dir "R10FieldMaps.gdb")));
     (n + 2, Host.MsgOverwriteOutput true)]%nat in
  let described sr :=
    [(n + 2, Host.MsgSpatialReference (Host.name sr));
     (n + 2, Host.MsgOutputCoordinateSystem (Host.name sr))]%nat in
  Host.main fuel s =
  match Host.describe s (env_before_describe s) "usgs_dem_05m" with
  | inl e =>
      (Host.Raised e,
       {| Host.wld :=
            {| script_dir := dir; net := net w; in_csv := in_csv w;
               out_csv := out_csv w; sent := sent w;
               messages := messages w ++
                 [MsgWd dir; MsgPathName (path_join dir "R10FieldMaps.gdb")] |};
          Host.env := env_before_describe s;
          Host.describe := Host.describe s;
          Host.xy_table_to_point := Host.xy_table_to_point s;
          Host.window := Host.window s ++ setting;
          Host.tools := Host.tools s; Host.polls := Host.polls s;
          Host.sleeps := Host.sleeps s |})
  | inr sr =>
      let at_tool w' called :=
        {| Host.wld := w'; Host.env := env_after_setup s sr;
           Host.describe := Host.describe s;
           Host.xy_table_to_point := Host.xy_table_to_point s;
           Host.window := Host.window s ++ setting ++ described sr;
           Host.tools := Host.tools s ++ called; Host.polls := Host.polls s;
           Host.sleeps := Host.sleeps s |} in
      match transform (world_before_transform w) with
      | (inl e, w') => (Host.Raised (Host.ScriptError e), at_tool w' [])
      | (inr _, w') =>
          match Host.xy_table_to_point s (env_after_setup s sr) w' (points_call dir) with
          | inl e => (Host.Raised e, at_tool w' [points_call dir])
          | inr generate_points =>
              match Host.check_status fuel generate_points
                      (at_tool w' [points_call dir]) with
              | (Host.Returned _, s') => (Host.Returned tt, s')
              | (Host.Raised e, s') => (Host.Raised e, s')
              | (Host.Waiting, s') => (Host.Waiting, s')
              end
          end
      end
  end.
Proof.
  destruct s as [[dir nt inp out snt msgs] en d t win tl p sl].
  lazy beta iota zeta delta
       [Host.main Host.setup_env Host.import_spatial_reference Host.script
        Host.Describe Host.XYTableToPoint Host.AddMessage Host.get_env
        Host.set_env Host.raise Host.HM_bind Host.HM_ret mbind mret
        pwd set_path M_bind M_ret AddMessage sys_path_0
        env_before_describe env_after_setup world_before_transform points_call
        Host.polls Host.wld Host.env Host.describe Host.xy_table_to_point
        Host.window Host.tools Host.sleeps script_dir net in_csv out_csv sent
        messages Host.workspace Host.overwriteOutput Host.outputCoordinateSystem
        Host.name].
  rewrite <- ?app_assoc. cbn [app]. rewrite ?length_app. cbn [length].
  destruct (d _ _) as [e|sr]; [reflexivity|].
  rewrite <- ?app_assoc. cbn [app]. rewrite ?length_app. cbn [length].
  destruct (transform _) as [[e|[]] w'].
  - rewrite app_nil_r. reflexivity.
  - destruct (t _ w' _) as [e|j]; [reflexivity|].
    destruct (Host.check_status fuel j _) as [[m|e|] s']; reflexivity.
Qed.

(** When the job is finished at the [k]-th test of the loop and not
    before, the call returns the messages of the job after [k] sleeps. *)
Lemma check_status_run (fuel k : nat) (result : Host.job) (s : Host.session) :
  (k < fuel)%nat ->
  (0 <= Host.status_at result (1 + Host.polls s) <= 10)%Z ->
  (forall i, (i < k)%nat ->
     (Host.status_at result (3 * i + 2 + Host.polls s) < 4)%Z /\
     (0 <= Host.status_at result (3 * i + 4 + Host.polls s) <= 10)%Z) ->
  (4 <= Host.status_at result (3 * k + 2 + Host.polls s))%Z ->
  exists shown,
    length shown = (k + 2)%nat /\
    Host.check_status fuel result s =
    (Host.Returned (Host.getMessages result),
     {| Host.wld := Host.wld s; Host.env := Host.env s;
        Host.describe := Host.describe s;
        Host.xy_table_to_point := Host.xy_table_to_point s;
        Host.window := Host.window s ++ shown; Host.tools := Host.tools s;
        Host.polls := 3 * k + 3 + Host.polls s;
        Host.sleeps := k + Host.sleeps s |}).
Proof.
  intros Hfuel Hfirst Hturns Hdone.
  apply status_code_known in Hfirst as [text Htext].
  unfold Host.check_status. unfold_hm.
  cbn [Host.polls Host.wld Host.env Host.describe Host.xy_table_to_point
       Host.window Host.tools Host.sleeps].
  cbn [plus] in Htext. rewrite Htext.
  match goal with |- context [Host.wait_loop fuel result ?s1] => set (s' := s1) end.
  destruct (wait_loop_finishes k fuel result s' Hfuel) as (shown & Hlen & Hrun).
  - intros i Hi. destruct (Hturns i Hi) as [H1 H2]. subst s'. cbn [Host.polls].
    replace (3 * i + S (S (Host.polls s)))%nat with (3 * i + 2 + Host.polls s)%nat by lia.
    replace (3 * i + 2 + S (S (Host.polls s)))%nat
      with (3 * i + 4 + Host.polls s)%nat by lia.
    split; assumption.
  - subst s'. cbn [Host.polls].
    replace (3 * k + S (S (Host.polls s)))%nat with (3 * k + 2 + Host.polls s)%nat by lia.
    exact Hdone.
  - rewrite Hrun. subst s'.
    cbn [Host.polls Host.wld Host.env Host.describe Host.xy_table_to_point
         Host.window Host.tools Host.sleeps].
    eexists (_ :: shown ++ [_]). split.
    + cbn [length]. rewrite length_app, Hlen. cbn [length]. lia.
    + rewrite <- !app_assoc. cbn [app].
      replace (3 * k + 1 + S (S (Host.polls s)))%nat
        with (3 * k + 3 + Host.polls s)%nat by lia.
      reflexivity.
Qed.

(** The loop and [check_status] touch nothing but the window, the count of
    reads and the count of sleeps. *)
Lemma wait_loop_frame (fuel : nat) :
  forall (result : Host.job) (s : Host.session),
  let s' := (Host.wait_loop fuel result s).2 in
  Host.wld s' = Host.wld s /\ Host.env s' = Host.env s /\
  Host.tools s' = Host.tools s.
Proof.
  induction fuel as [|fuel IH]; intros result s; cbv zeta.
  - repeat split.
  - cbn [Host.wait_loop]. unfold_hm.
    destruct (Host.status_at result (Host.polls s) <? 4)%Z; [|repeat split].
    cbn [Host.polls Host.wld Host.env Host.describe Host.xy_table_to_point
         Host.window Host.tools Host.sleeps].
    destruct (Host.status_code !! _) as [text|]; [|repeat split].
    match goal with |- context [Host.wait_loop fuel result ?s1] =>
      exact (IH result s1) end.
Qed.

Lemma check_status_frame (fuel : nat) (result : Host.job) (s : Host.session) :
  let s' := (Host.check_status fuel result s).2 in
  Host.wld s' = Host.wld s /\ Host.env s' = Host.env s /\
  Host.tools s' = Host.tools s.
Proof.
  cbv zeta. unfold Host.check_status. unfold_hm.
  cbn [Host.polls Host.wld Host.env Host.describe Host.xy_table_to_point
       Host.window Host.tools Host.sleeps].
  destruct (Host.status_code !! _) as [text|]; [|repeat split].
  match goal with |- context [Host.wait_loop fuel result ?s1] =>
    pose proof (wait_loop_frame fuel result s1) as Hfr;
    destruct (Host.wait_loop fuel result s1) as [[[]|e|] s2] end;
    exact Hfr.
Qed.

(** X17: [check_status] returns the messages of the job as soon as a test
    of its loop finds a status of 4 or more, whatever that status is: a
    job that failed, timed out or was cancelled is returned from like one
    that succeeded, without an exception. Finished at the test after [k]
    turns, the call has slept [k] times, read the status [3 * k + 3] times
    and shown [k + 2] messages. *)
Theorem check_status_returns_messages (fuel k : nat) (result : Host.job)
    (s : Host.session) :
  (k < fuel)%nat ->
  (0 <= Host.status_at result (1 + Host.polls s) <= 10)%Z ->
  (forall i, (i < k)%nat ->
     (Host.status_at result (3 * i + 2 + Host.polls s) < 4)%Z /\
     (0 <= Host.status_at result (3 * i + 4 + Host.polls s) <= 10)%Z) ->
  (4 <= Host.status_at result (3 * k + 2 + Host.polls s))%Z ->
  (Host.check_status fuel result s).1 = Host.Returned (Host.getMessages result) /\
  Host.sleeps (Host.check_status fuel result s).2 = (k + Host.sleeps s)%nat /\
  Host.polls (Host.check_status fuel result s).2 = (3 * k + 3 + Host.polls s)%nat /\
  length (Host.window (Host.check_status fuel result s).2) =
    (length (Host.window s) + (k + 2))%nat.
Proof.
  intros Hfuel Hfirst Hturns Hdone.
  destruct (check_status_run fuel k result s Hfuel Hfirst Hturns Hdone)
    as (shown & Hlen & ->).
  cbn [fst snd Host.sleeps Host.polls Host.window].
  rewrite length_app, Hlen. repeat split.
Qed.

(** X18: a status outside 0..10 when the first message is built makes
    [check_status] raise [KeyError] before it has shown anything or
    slept. *)
Theorem check_status_unknown_status (fuel : nat) (result : Host.job)
    (s : Host.session) :
  (Host.status_at result (1 + Host.polls s) < 0 \/
   10 < Host.status_at result (1 + Host.polls s))%Z ->
  (Host.check_status fuel result s).1 = Host.Raised Host.KeyError /\
  Host.window (Host.check_status fuel result s).2 = Host.window s /\
  Host.sleeps (Host.check_status fuel result s).2 = Host.sleeps s.
Proof.
  intros Hout. apply status_code_unknown in Hout.
  unfold Host.check_status. unfold_hm.
  cbn [Host.polls Host.wld Host.env Host.describe Host.xy_table_to_point
       Host.window Host.tools Host.sleeps].
  cbn [plus] in Hout. rewrite Hout. repeat split.
Qed.

(** X19: [check_status] has no timeout: on a job whose status stays below 4
    it does not return, however many turns of the loop it is given, and
    it sleeps once in each turn. *)
Theorem check_status_no_timeout (fuel : nat) (result : Host.job)
    (s : Host.session) :
  (forall n, (Host.polls s <= n)%nat -> (0 <= Host.status_at result n < 4)%Z) ->
  (Host.check_status fuel result s).1 = Host.Waiting /\
  Host.sleeps (Host.check_status fuel result s).2 = (fuel + Host.sleeps s)%nat.
Proof.
  intros Hstay.
  assert (is_Some (Host.status_code !! Host.status_at result (1 + Host.polls s)))
    as [text Htext].
  { apply status_code_known. destruct (Hstay (1 + Host.polls s)%nat ltac:(lia)). lia. }
  unfold Host.check_status. unfold_hm.
  cbn [Host.polls Host.wld Host.env Host.describe Host.xy_table_to_point
       Host.window Host.tools Host.sleeps].
  cbn [plus] in Htext. rewrite Htext.
  match goal with |- context [Host.wait_loop fuel result ?s1] =>
    destruct (wait_loop_waits fuel result s1) as [Hres Hsl];
    [intros n Hn; apply Hstay; cbn [Host.polls] in Hn; lia|];
    destruct (Host.wait_loop fuel result s1) as [[[]|e|] s2] end;
    cbn [fst snd] in *; try discriminate.
  split; [reflexivity | exact Hsl].
Qed.

(** X20: when the spatial reference of the dataset cannot be had, [main]
    ends with the exception of [Describe] before [transform] has run: the
    output file is as it was, no request has been sent and the tool has
    not been called. The workspace and the overwrite option are set by
    then and stay set. *)
Theorem main_stops_without_spatial_reference (fuel : nat) (s : Host.session)
    (e : Host.host_exn) :
  Host.describe s (env_before_describe s) "usgs_dem_05m" = inl e ->
  (Host.main fuel s).1 = Host.Raised e /\
  out_csv (Host.wld (Host.main fuel s).2) = out_csv (Host.wld s) /\
  sent (Host.wld (Host.main fuel s).2) = sent (Host.wld s) /\
  Host.tools (Host.main fuel s).2 = Host.tools s /\
  Host.env (Host.main fuel s).2 = env_before_describe s.
Proof.
  intros Hd. rewrite main_unfold. cbv zeta. rewrite Hd. repeat split.
Qed.

(** X21: when [transform] raises, [main] ends with that exception and the
    tool is never called: no feature class is made from a file that is
    incomplete. The file keeps what [transform] had written. *)
Theorem main_stops_when_transform_raises (fuel : nat) (s : Host.session)
    (sr : Host.spatial_reference) (e : exn) :
  Host.describe s (env_before_describe s) "usgs_dem_05m" = inr sr ->
  (transform (Host.wld s)).1 = inl e ->
  (Host.main fuel s).1 = Host.Raised (Host.ScriptError e) /\
  Host.tools (Host.main fuel s).2 = Host.tools s /\
  Host.polls (Host.main fuel s).2 = Host.polls s /\
  out_csv (Host.wld (Host.main fuel s).2) = out_csv (transform (Host.wld s)).2.
Proof.
  intros Hd Ht. rewrite main_unfold. cbv zeta. rewrite Hd.
  destruct (transform_reads (world_before_transform (Host.wld s)) (Host.wld s)
              eq_refl eq_refl eq_refl) as (Hres & Hout & _).
  rewrite Ht in Hres.
  destruct (transform (world_before_transform (Host.wld s))) as [r w'].
  cbn [fst snd] in Hres, Hout. subst r. cbn [fst snd Host.tools Host.polls Host.wld].
  rewrite app_nil_r. repeat split. exact Hout.
Qed.

(** X22: when the environment is set up and [transform] completes, [main]
    calls the tool once, whatever the tool and the job then do: on the
    file [transform] wrote, under the path [transform] announced last
    before it opened its files, with Longitude as the x field and Latitude
    as the y field, in the workspace of the geodatabase beside the script,
    with overwriting on and the spatial reference of the dataset. *)
Theorem main_generates_points (fuel : nat) (s : Host.session)
    (sr : Host.spatial_reference) :
  Host.describe s (env_before_describe s) "usgs_dem_05m" = inr sr ->
  (transform (Host.wld s)).1 = inr tt ->
  let dir := script_dir (Host.wld s) in
  Host.tools (Host.main fuel s).2 = Host.tools s ++ [points_call dir] /\
  Host.env (Host.main fuel s).2 = env_after_setup s sr /\
  out_csv (Host.wld (Host.main fuel s).2) = out_csv (transform (Host.wld s)).2 /\
  (exists ms,
     messages (transform (Host.wld s)).2 =
     messages (Host.wld s) ++ prelude_messages dir ++ ms) /\
  last (prelude_messages dir) = Some (MsgPathName (Host.in_table (points_call dir))).
Proof.
  intros Hd Ht. cbv zeta.
  pose proof (transform_announces (Host.wld s)) as Hann.
  rewrite main_unfold. cbv zeta. rewrite Hd.
  destruct (transform_reads (world_before_transform (Host.wld s)) (Host.wld s)
              eq_refl eq_refl eq_refl) as (Hres & Hout & _).
  rewrite Ht in Hres.
  destruct (transform (world_before_transform (Host.wld s))) as [r w'].
  cbn [fst snd] in Hres, Hout. subst r.
  destruct (Host.xy_table_to_point s _ w' _) as [e|j].
  - cbn [fst snd Host.tools Host.env Host.wld].
    split; [reflexivity|]. split; [reflexivity|]. split; [exact Hout|].
    split; [exact Hann | reflexivity].
  - match goal with |- context [Host.check_status fuel j ?s1] =>
      pose proof (check_status_frame fuel j s1) as Hfr;
      destruct (Host.check_status fuel j s1) as [[m|e|] s2] end;
      cbv zeta in Hfr; cbn [fst snd Host.tools Host.env Host.wld] in Hfr |- *;
      destruct Hfr as (Hw & He & Htl); rewrite Hw, He, Htl;
      (split; [reflexivity|]; split; [reflexivity|]; split; [exact Hout|];
       split; [exact Hann | reflexivity]).
Qed.

(** X23: [main] completes whenever the job the tool returns comes to an
    end, also when the job failed: with the environment set up,
    [transform] completed and a job that is finished at the test after
    [k] turns of the loop, [main] returns after [k] sleeps. *)
Theorem main_completes (fuel k : nat) (s : Host.session)
    (sr : Host.spatial_reference) (generate_points : Host.job) :
  Host.describe s (env_before_describe s) "usgs_dem_05m" = inr sr ->
  (transform (Host.wld s)).1 = inr tt ->
  Host.xy_table_to_point s (env_after_setup s sr)
    (transform (world_before_transform (Host.wld s))).2
    (points_call (script_dir (Host.wld s))) = inr generate_points ->
  (k < fuel)%nat ->
  (0 <= Host.status_at generate_points (1 + Host.polls s) <= 10)%Z ->
  (forall i, (i < k)%nat ->
     (Host.status_at generate_points (3 * i + 2 + Host.polls s) < 4)%Z /\
     (0 <= Host.status_at generate_points (3 * i + 4 + Host.polls s) <= 10)%Z) ->
  (4 <= Host.status_at generate_points (3 * k + 2 + Host.polls s))%Z ->
  (Host.main fuel s).1 = Host.Returned tt /\
  Host.sleeps (Host.main fuel s).2 = (k + Host.sleeps s)%nat.
Proof.
  intros Hd Ht Htool Hfuel Hfirst Hturns Hdone. rewrite main_unfold. cbv zeta. rewrite Hd.
  destruct (transform_reads (world_before_transform (Host.wld s)) (Host.wld s)
              eq_refl eq_refl eq_refl) as (Hres & Hout & _).
  rewrite Ht in Hres.
  destruct (transform (world_before_transform (Host.wld s))) as [r w'].
  cbn [fst snd] in Hres, Hout, Htool. subst r.
  rewrite Htool.
  match goal with |- context [Host.check_status fuel generate_points ?s1] =>
    destruct (check_status_run fuel k generate_points s1 Hfuel Hfirst Hturns Hdone)
      as (shown & _ & ->) end.
  split; reflexivity.
Qed.

End Application.

(** ** On concrete inputs and sessions *)

Section OnScenarios.

#[local] Existing Instance Reference.runtime.

Import Fixture.
Import Scenario.

Lemma transform_without_data_witness :
  (in_csv survey_header_only = Some [] \/
   exists hdr blanks,
     in_csv survey_header_only = Some (inr hdr :: blanks) /\
     Forall (fun r => r = inr []) blanks) /\
  (transform survey_header_only).1 = inr tt /\
  out_csv (transform survey_header_only).2 = [fieldnames] /\
  sent (transform survey_header_only).2 = sent survey_header_only.
Proof.
  assert (H1 : in_csv survey_header_only = Some [] \/
               exists hdr blanks,
                 in_csv survey_header_only = Some (inr hdr :: blanks) /\
                 Forall (fun r => r = inr []) blanks).
  { right. exists header, [inr []; inr []]. split; [reflexivity|].
    repeat constructor. }
  split; [exact H1|].
  exact (transform_without_data survey_header_only H1).
Defined.

Lemma transform_unreadable_input_witness :
  ((in_csv survey_missing = None /\ FileNotFoundError = FileNotFoundError) \/
   exists recs, in_csv survey_missing = Some (inl FileNotFoundError :: recs)) /\
  (transform survey_missing).1 = inl FileNotFoundError /\
  out_csv (transform survey_missing).2 = [fieldnames] /\
  sent (transform survey_missing).2 = sent survey_missing.
Proof.
  assert (H1 : (in_csv survey_missing = None /\ FileNotFoundError = FileNotFoundError) \/
               exists recs, in_csv survey_missing = Some (inl FileNotFoundError :: recs)).
  { left. split; reflexivity. }
  split; [exact H1|].
  exact (transform_unreadable_input survey_missing FileNotFoundError H1).
Defined.

Lemma transform_one_request_per_row_witness :
  in_csv survey_blank = Some (inr header :: [inr p1; inr []; inr p2]) /\
  exists urls outs,
    sent (transform survey_blank).2 = sent survey_blank ++ urls /\
    out_csv (transform survey_blank).2 = fieldnames :: outs /\
    (length outs <= length urls <= S (length outs))%nat /\
    ((transform survey_blank).1 = inr tt ->
     length urls = length (data_rows [inr p1; inr []; inr p2]) /\
     length outs = length (data_rows [inr p1; inr []; inr p2])).
Proof.
  split; [exact survey_blank_input|].
  exact (transform_one_request_per_row survey_blank header
           [inr p1; inr []; inr p2] survey_blank_input).
Defined.

Lemma p3_fails : record_fails (net survey_bad) header (inr p3).
Proof.
  apply (field_not_a_number _ _ _ _ "Ortho_Measured" ValueError).
  - apply list_elem_of_In. vm_compute. tauto.
  - vm_compute. reflexivity.
Qed.

Lemma transform_stops_at_failure_witness :
  record_fails (net survey_bad) header (inr p3) /\
  observed (transform (with_input (Some (inr header :: [inr p1] ++ inr p3 :: [inr p2]))
                         survey_bad)) =
  observed (transform (with_input (Some (inr header :: [inr p1] ++ [inr p3]))
                         survey_bad)).
Proof.
  split; [exact p3_fails|].
  exact (transform_stops_at_failure survey_bad header [inr p1] (inr p3) [inr p2]
           p3_fails).
Defined.

Lemma transform_keeps_rows_before_failure_witness :
  record_fails (net survey_bad) header (inr p3) /\
  out_csv (transform (with_input (Some (inr header :: [inr p1] ++ inr p3 :: [inr p2]))
                        survey_bad)).2 =
  out_csv (transform (with_input (Some (inr header :: [inr p1])) survey_bad)).2.
Proof.
  split; [exact p3_fails|].
  exact (transform_keeps_rows_before_failure survey_bad header [inr p1] (inr p3)
           [inr p2] p3_fails).
Defined.

Lemma survey_notes_input :
  in_csv survey_notes =
  Some (inr header_notes :: [inr (p1 ++ ["north corner"]); inr (p2 ++ ["fence"])]).
Proof. reflexivity. Qed.

Lemma transform_reads_named_fields_only_witness :
  (forall url, net survey url = net survey_notes url) /\
  in_csv survey = Some (inr header :: [inr p1; inr p2]) /\
  in_csv survey_notes =
    Some (inr header_notes :: [inr (p1 ++ ["north corner"]); inr (p2 ++ ["fence"])]) /\
  data_rows [inr p1; inr p2] !! 0%nat = Some p1 /\
  data_rows [inr (p1 ++ ["north corner"]); inr (p2 ++ ["fence"])] !! 0%nat =
    Some (p1 ++ ["north corner"]) /\
  Forall (fun k => get (dict_row header p1) k =
                   get (dict_row header_notes (p1 ++ ["north corner"])) k)
    pass_through /\
  out_csv (transform survey).2 !! 1%nat = Some o1 /\
  out_csv (transform survey_notes).2 !! 1%nat = Some o1 /\
  o1 = o1.
Proof.
  assert (H0 : forall url, net survey url = net survey_notes url)
    by (intros url; reflexivity).
  assert (H1 : data_rows [inr p1; inr p2] !! 0%nat = Some p1) by reflexivity.
  assert (H2 : data_rows [inr (p1 ++ ["north corner"]); inr (p2 ++ ["fence"])] !! 0%nat
               = Some (p1 ++ ["north corner"])) by reflexivity.
  assert (H3 : Forall (fun k => get (dict_row header p1) k =
                                get (dict_row header_notes (p1 ++ ["north corner"])) k)
                 pass_through)
    by (repeat (constructor; [vm_compute; reflexivity|]); constructor).
  assert (H4 : out_csv (transform survey).2 !! 1%nat = Some o1)
    by (vm_compute; reflexivity).
  assert (H5 : out_csv (transform survey_notes).2 !! 1%nat = Some o1)
    by (vm_compute; reflexivity).
  repeat (split; [assumption || exact survey_input || exact survey_notes_input|]).
  exact (transform_reads_named_fields_only survey survey_notes header header_notes
           [inr p1; inr p2] [inr (p1 ++ ["north corner"]); inr (p2 ++ ["fence"])]
           0 0 p1 (p1 ++ ["north corner"]) o1 o1
           H0 survey_input survey_notes_input H1 H2 H3 H4 H5).
Defined.

Lemma survey_east_input : in_csv survey_east = Some (inr header :: [inr p1_east]).
Proof. reflexivity. Qed.

Lemma transform_calculated_ortho_inputs_witness :
  (forall url, net survey url = net survey_east url) /\
  in_csv survey = Some (inr header :: [inr p1; inr p2]) /\
  in_csv survey_east = Some (inr header :: [inr p1_east]) /\
  data_rows [inr p1; inr p2] !! 0%nat = Some p1 /\
  data_rows [inr p1_east] !! 0%nat = Some p1_east /\
  py_float (get (dict_row header p1) "Latitude") = inr lat /\
  py_float (get (dict_row header p1_east) "Latitude") = inr lat /\
  py_float (get (dict_row header p1) "Longitude") =
    inr (PyFloat.of_decimal true 105281975 (-6)) /\
  py_float (get (dict_row header p1_east) "Longitude") = inr long /\
  PyFloat.abs (PyFloat.of_decimal true 105281975 (-6)) = PyFloat.abs long /\
  py_float (get (dict_row header p1) "Elevation") = inr h /\
  py_float (get (dict_row header p1_east) "Elevation") = inr h /\
  out_csv (transform survey).2 !! 1%nat = Some o1 /\
  out_csv (transform survey_east).2 !! 1%nat =
    Some (p1_east ++ ["1599.65"; "1600.62"]) /\
  o1 !! 11%nat = (p1_east ++ ["1599.65"; "1600.62"]) !! 11%nat.
Proof.
  assert (H0 : forall url, net survey url = net survey_east url)
    by (intros url; reflexivity).
  assert (H1 : data_rows [inr p1; inr p2] !! 0%nat = Some p1) by reflexivity.
  assert (H2 : data_rows [inr p1_east] !! 0%nat = Some p1_east) by reflexivity.
  assert (H3 : py_float (get (dict_row header p1) "Latitude") = inr lat)
    by (vm_compute; reflexivity).
  assert (H4 : py_float (get (dict_row header p1_east) "Latitude") = inr lat)
    by (vm_compute; reflexivity).
  assert (H5 : py_float (get (dict_row header p1) "Longitude") =
               inr (PyFloat.of_decimal true 105281975 (-6)))
    by (vm_compute; reflexivity).
  assert (H6 : py_float (get (dict_row header p1_east) "Longitude") = inr long)
    by (vm_compute; reflexivity).
  assert (H7 : PyFloat.abs (PyFloat.of_decimal true 105281975 (-6)) = PyFloat.abs long)
    by (vm_compute; reflexivity).
  assert (H8 : py_float (get (dict_row header p1) "Elevation") = inr h)
    by (vm_compute; reflexivity).
  assert (H9 : py_float (get (dict_row header p1_east) "Elevation") = inr h)
    by (vm_compute; reflexivity).
  assert (H10 : out_csv (transform survey).2 !! 1%nat = Some o1)
    by (vm_compute; reflexivity).
  assert (H11 : out_csv (transform survey_east).2 !! 1%nat =
                Some (p1_east ++ ["1599.65"; "1600.62"]))
    by (vm_compute; reflexivity).
  repeat (split; [assumption || exact survey_input || exact survey_east_input|]).
  exact (transform_calculated_ortho_inputs survey survey_east header header
           [inr p1; inr p2] [inr p1_east] 0 0 p1 p1_east o1
           (p1_east ++ ["1599.65"; "1600.62"]) lat _ long h
           H0 survey_input survey_east_input H1 H2 H3 H4 H5 H6 H7 H8 H9 H10 H11).
Defined.

Lemma survey_truncated_input :
  in_csv survey_truncated = Some (inr header :: [inr (take 8 p1); inr p2]).
Proof. reflexivity. Qed.

Lemma transform_missing_field_empty_witness :
  in_csv survey_truncated = Some (inr header :: [inr (take 8 p1); inr p2]) /\
  data_rows [inr (take 8 p1); inr p2] !! 0%nat = Some (take 8 p1) /\
  out_csv (transform survey_truncated).2 !! 1%nat =
    Some (take 8 p1 ++ [""; ""; "1599.65"; "1600.62"]) /\
  pass_through !! 9%nat = Some "FixTime" /\
  ("FixTime" ∉ header \/
   exists n, header !! n = Some "FixTime" /\ (length (take 8 p1) <= n)%nat) /\
  (take 8 p1 ++ [""; ""; "1599.65"; "1600.62"]) !! 9%nat = Some "".
Proof.
  assert (H1 : data_rows [inr (take 8 p1); inr p2] !! 0%nat = Some (take 8 p1))
    by reflexivity.
  assert (H2 : out_csv (transform survey_truncated).2 !! 1%nat =
               Some (take 8 p1 ++ [""; ""; "1599.65"; "1600.62"]))
    by (vm_compute; reflexivity).
  assert (H3 : pass_through !! 9%nat = Some "FixTime") by reflexivity.
  assert (H4 : "FixTime" ∉ header \/
               exists n, header !! n = Some "FixTime" /\ (length (take 8 p1) <= n)%nat).
  { right. exists 9%nat. split; [reflexivity | simpl; lia]. }
  repeat (split; [assumption || exact survey_truncated_input|]).
  exact (transform_missing_field_empty survey_truncated header
           [inr (take 8 p1); inr p2] 0 9 (take 8 p1) _ "FixTime"
           survey_truncated_input H1 H2 H3 H4).
Defined.

Lemma transform_row_coordinates_first_witness :
  "Elevation" ∈ ["Latitude"; "Longitude"; "Elevation"] /\
  py_float (get (dict_row header (take 7 p1)) "Elevation") = inl TypeError /\
  exists e',
    transform_row (dict_row header (take 7 p1)) survey_no_elevation =
    (inl e', survey_no_elevation).
Proof.
  assert (H1 : "Elevation" ∈ ["Latitude"; "Longitude"; "Elevation"])
    by (apply list_elem_of_In; vm_compute; tauto).
  assert (H2 : py_float (get (dict_row header (take 7 p1)) "Elevation") = inl TypeError)
    by (vm_compute; reflexivity).
  split; [exact H1|]. split; [exact H2|].
  exact (transform_row_coordinates_first (dict_row header (take 7 p1))
           survey_no_elevation "Elevation" TypeError H1 H2).
Defined.

Lemma transform_row_measured_last_witness :
  let w1 := (postprocess_geoid18 (PyFloat.of_decimal false 4005 (-2))
               (PyFloat.abs (PyFloat.of_decimal true 10528 (-2)))
               (PyFloat.of_decimal false 158125 (-2)) survey_bad).2 in
  let H0 := PyFloat.sub (PyFloat.of_decimal false 158125 (-2)) undulation in
  py_float (get (dict_row header p3) "Latitude") =
    inr (PyFloat.of_decimal false 4005 (-2)) /\
  py_float (get (dict_row header p3) "Longitude") =
    inr (PyFloat.of_decimal true 10528 (-2)) /\
  py_float (get (dict_row header p3) "Elevation") =
    inr (PyFloat.of_decimal false 158125 (-2)) /\
  postprocess_geoid18 (PyFloat.of_decimal false 4005 (-2))
    (PyFloat.abs (PyFloat.of_decimal true 10528 (-2)))
    (PyFloat.of_decimal false 158125 (-2)) survey_bad = (inr H0, w1) /\
  py_float (get (dict_row header p3) "Ortho_Measured") = inl ValueError /\
  transform_row (dict_row header p3) survey_bad = (inl ValueError, w1) /\
  sent w1 = sent survey_bad ++
    [geoid18_url (PyFloat.of_decimal false 4005 (-2))
       (PyFloat.abs (PyFloat.of_decimal true 10528 (-2)))] /\
  out_csv w1 = out_csv survey_bad.
Proof.
  intros w1 H0.
  assert (H1 : py_float (get (dict_row header p3) "Latitude") =
               inr (PyFloat.of_decimal false 4005 (-2))) by (vm_compute; reflexivity).
  assert (H2 : py_float (get (dict_row header p3) "Longitude") =
               inr (PyFloat.of_decimal true 10528 (-2))) by (vm_compute; reflexivity).
  assert (H3 : py_float (get (dict_row header p3) "Elevation") =
               inr (PyFloat.of_decimal false 158125 (-2))) by (vm_compute; reflexivity).
  assert (H4 : postprocess_geoid18 (PyFloat.of_decimal false 4005 (-2))
                 (PyFloat.abs (PyFloat.of_decimal true 10528 (-2)))
                 (PyFloat.of_decimal false 158125 (-2)) survey_bad = (inr H0, w1))
    by (vm_compute; reflexivity).
  assert (H5 : py_float (get (dict_row header p3) "Ortho_Measured") = inl ValueError)
    by (vm_compute; reflexivity).
  repeat (split; [assumption|]).
  exact (transform_row_measured_last (dict_row header p3) survey_bad w1 _ _ _ H0
           ValueError H1 H2 H3 H4 H5).
Defined.

Lemma parse_geoid18_response_only_documented_witness :
  (parse_geoid18_response page survey).1 = inr (undulation, error) /\
  exists block l0 l1 l2 line rest toks tN tE,
    pre_string page = Some (Some block) /\
    PyStr.split_on PyStr.newline block = l0 :: l1 :: l2 :: line :: rest /\
    PyStr.split line = toks ++ [tN; tE] /\
    float_of_str tN = Some undulation /\
    float_of_str tE = Some error.
Proof.
  assert (H1 : (parse_geoid18_response page survey).1 = inr (undulation, error))
    by (vm_compute; reflexivity).
  split; [exact H1|].
  exact (parse_geoid18_response_only_documented page survey undulation error H1).
Defined.

Lemma parse_geoid18_response_raises_witness :
  (parse_geoid18_response short_page survey).1 = inl IndexError /\
  (parse_geoid18_response short_page survey).2 = survey /\
  match pre_string short_page with
  | Some (Some block) =>
      match PyStr.split_on PyStr.newline block with
      | _ :: _ :: _ :: line :: _ =>
          if (length (PyStr.split line) <? 2)%nat then IndexError = IndexError
          else IndexError = ValueError
      | _ => IndexError = IndexError
      end
  | _ => IndexError = AttributeError
  end.
Proof.
  assert (H1 : (parse_geoid18_response short_page survey).1 = inl IndexError)
    by (vm_compute; reflexivity).
  split; [exact H1|].
  exact (parse_geoid18_response_raises short_page survey IndexError H1).
Defined.

Lemma parse_geoid18_response_trailing_space_witness :
  pre_string page_crlf = Some (Some block_crlf) /\
  PyStr.split_on PyStr.newline block_crlf =
    (l0 +:+ cr) :: (l1 +:+ cr) :: (l2 +:+ cr) :: (l3 +:+ cr) :: [""] /\
  string_forall PyStr.isspace cr = true /\
  PyStr.split l3 =
    ["USER"; "LOCATION"; "40"; "03"; "2.48040"; "105"; "16"; "55.11000"]
    ++ ["-16.123"; "0.049"] /\
  float_of_str "-16.123" = Some undulation /\
  float_of_str "0.049" = Some error /\
  (parse_geoid18_response page_crlf survey).1 = inr (undulation, error).
Proof.
  assert (H1 : pre_string page_crlf = Some (Some block_crlf))
    by (vm_compute; reflexivity).
  assert (H2 : PyStr.split_on PyStr.newline block_crlf =
               (l0 +:+ cr) :: (l1 +:+ cr) :: (l2 +:+ cr) :: (l3 +:+ cr) :: [""])
    by (vm_compute; reflexivity).
  assert (H3 : string_forall PyStr.isspace cr = true) by (vm_compute; reflexivity).
  assert (H4 : PyStr.split l3 =
               ["USER"; "LOCATION"; "40"; "03"; "2.48040"; "105"; "16"; "55.11000"]
               ++ ["-16.123"; "0.049"]) by (vm_compute; reflexivity).
  assert (H5 : float_of_str "-16.123" = Some undulation) by (vm_compute; reflexivity).
  assert (H6 : float_of_str "0.049" = Some error) by (vm_compute; reflexivity).
  repeat (split; [assumption|]).
  exact (parse_geoid18_response_trailing_space page_crlf block_crlf
           (l0 +:+ cr) (l1 +:+ cr) (l2 +:+ cr) l3 cr "-16.123" "0.049" [""] _
           undulation error survey H1 H2 H3 H4 H5 H6).
Defined.

Lemma postprocess_geoid18_ignores_status_witness :
  net survey (geoid18_url lat long) = inr (answer page) /\
  net survey_server_error (geoid18_url lat long) =
    inr {| status_code := 500; content := page |} /\
  content (answer page) = content {| status_code := 500; content := page |} /\
  (postprocess_geoid18 lat long h survey).1 =
  (postprocess_geoid18 lat long h survey_server_error).1.
Proof.
  assert (H1 : net survey (geoid18_url lat long) = inr (answer page)) by reflexivity.
  assert (H2 : net survey_server_error (geoid18_url lat long) =
               inr {| status_code := 500; content := page |}) by reflexivity.
  assert (H3 : content (answer page) = content {| status_code := 500; content := page |})
    by reflexivity.
  repeat (split; [assumption|]).
  exact (postprocess_geoid18_ignores_status lat long h survey survey_server_error
           _ _ H1 H2 H3).
Defined.

Lemma check_status_returns_messages_witness :
  (2 < 3)%nat /\
  (0 <= Host.status_at failing_job (1 + Host.polls session_failing_job) <= 10)%Z /\
  (forall i, (i < 2)%nat ->
     (Host.status_at failing_job (3 * i + 2 + Host.polls session_failing_job) < 4)%Z /\
     (0 <= Host.status_at failing_job (3 * i + 4 + Host.polls session_failing_job)
      <= 10)%Z) /\
  (4 <= Host.status_at failing_job (3 * 2 + 2 + Host.polls session_failing_job))%Z /\
  (Host.check_status 3 failing_job session_failing_job).1 =
    Host.Returned (Host.getMessages failing_job) /\
  Host.sleeps (Host.check_status 3 failing_job session_failing_job).2 =
    (2 + Host.sleeps session_failing_job)%nat /\
  Host.polls (Host.check_status 3 failing_job session_failing_job).2 =
    (3 * 2 + 3 + Host.polls session_failing_job)%nat /\
  length (Host.window (Host.check_status 3 failing_job session_failing_job).2) =
    (length (Host.window session_failing_job) + (2 + 2))%nat.
Proof.
  assert (H1 : (2 < 3)%nat) by lia.
  assert (H2 : (0 <= Host.status_at failing_job (1 + Host.polls session_failing_job)
                <= 10)%Z) by (simpl; lia).
  assert (H3 : forall i, (i < 2)%nat ->
     (Host.status_at failing_job (3 * i + 2 + Host.polls session_failing_job) < 4)%Z /\
     (0 <= Host.status_at failing_job (3 * i + 4 + Host.polls session_failing_job)
      <= 10)%Z).
  { intros [|[|i]] Hi; [simpl; lia | simpl; lia | lia]. }
  assert (H4 : (4 <= Host.status_at failing_job
                       (3 * 2 + 2 + Host.polls session_failing_job))%Z)
    by (simpl; lia).
  repeat (split; [assumption|]).
  exact (check_status_returns_messages 3 2 failing_job session_failing_job
           H1 H2 H3 H4).
Defined.

Lemma check_status_unknown_status_witness :
  (Host.status_at odd_job (1 + Host.polls session_failing_job) < 0 \/
   10 < Host.status_at odd_job (1 + Host.polls session_failing_job))%Z /\
  (Host.check_status 3 odd_job session_failing_job).1 = Host.Raised Host.KeyError /\
  Host.window (Host.check_status 3 odd_job session_failing_job).2 =
    Host.window session_failing_job /\
  Host.sleeps (Host.check_status 3 odd_job session_failing_job).2 =
    Host.sleeps session_failing_job.
Proof.
  assert (H1 : (Host.status_at odd_job (1 + Host.polls session_failing_job) < 0 \/
                10 < Host.status_at odd_job (1 + Host.polls session_failing_job))%Z)
    by (simpl; lia).
  split; [exact H1|].
  exact (check_status_unknown_status 3 odd_job session_failing_job H1).
Defined.

Lemma check_status_no_timeout_witness :
  (forall n, (Host.polls session_failing_job <= n)%nat ->
     (0 <= Host.status_at stuck_job n < 4)%Z) /\
  (Host.check_status 100 stuck_job session_failing_job).1 = Host.Waiting /\
  Host.sleeps (Host.check_status 100 stuck_job session_failing_job).2 =
    (100 + Host.sleeps session_failing_job)%nat.
Proof.
  assert (H1 : forall n, (Host.polls session_failing_job <= n)%nat ->
                 (0 <= Host.status_at stuck_job n < 4)%Z)
    by (intros n _; simpl; lia).
  split; [exact H1|].
  exact (check_status_no_timeout 100 stuck_job session_failing_job H1).
Defined.

Lemma main_stops_without_spatial_reference_witness :
  Host.describe session_no_dataset (env_before_describe session_no_dataset)
    "usgs_dem_05m" = inl Host.ExecuteError /\
  (Host.main 3 session_no_dataset).1 = Host.Raised Host.ExecuteError /\
  out_csv (Host.wld (Host.main 3 session_no_dataset).2) =
    out_csv (Host.wld session_no_dataset) /\
  sent (Host.wld (Host.main 3 session_no_dataset).2) =
    sent (Host.wld session_no_dataset) /\
  Host.tools (Host.main 3 session_no_dataset).2 = Host.tools session_no_dataset /\
  Host.env (Host.main 3 session_no_dataset).2 =
    env_before_describe session_no_dataset.
Proof.
  assert (H1 : Host.describe session_no_dataset
                 (env_before_describe session_no_dataset) "usgs_dem_05m"
               = inl Host.ExecuteError) by reflexivity.
  split; [exact H1|].
  exact (main_stops_without_spatial_reference 3 session_no_dataset
           Host.ExecuteError H1).
Defined.

Lemma main_stops_when_transform_raises_witness :
  Host.describe session_bad_file (env_before_describe session_bad_file)
    "usgs_dem_05m" = inr nad83 /\
  (transform (Host.wld session_bad_file)).1 = inl ValueError /\
  (Host.main 3 session_bad_file).1 = Host.Raised (Host.ScriptError ValueError) /\
  Host.tools (Host.main 3 session_bad_file).2 = Host.tools session_bad_file /\
  Host.polls (Host.main 3 session_bad_file).2 = Host.polls session_bad_file /\
  out_csv (Host.wld (Host.main 3 session_bad_file).2) =
    out_csv (transform (Host.wld session_bad_file)).2.
Proof.
  assert (H1 : Host.describe session_bad_file (env_before_describe session_bad_file)
                 "usgs_dem_05m" = inr nad83) by reflexivity.
  assert (H2 : (transform (Host.wld session_bad_file)).1 = inl ValueError)
    by (vm_compute; reflexivity).
  split; [exact H1|]. split; [exact H2|].
  exact (main_stops_when_transform_raises 3 session_bad_file nad83 ValueError H1 H2).
Defined.

Lemma main_generates_points_witness :
  Host.describe session_failing_job (env_before_describe session_failing_job)
    "usgs_dem_05m" = inr nad83 /\
  (transform (Host.wld session_failing_job)).1 = inr tt /\
  Host.tools (Host.main 3 session_failing_job).2 =
    Host.tools session_failing_job ++
    [points_call (script_dir (Host.wld session_failing_job))] /\
  Host.env (Host.main 3 session_failing_job).2 =
    env_after_setup session_failing_job nad83 /\
  out_csv (Host.wld (Host.main 3 session_failing_job).2) =
    out_csv (transform (Host.wld session_failing_job)).2 /\
  (exists ms,
     messages (transform (Host.wld session_failing_job)).2 =
     messages (Host.wld session_failing_job) ++
     prelude_messages (script_dir (Host.wld session_failing_job)) ++ ms) /\
  last (prelude_messages (script_dir (Host.wld session_failing_job))) =
    Some (MsgPathName
            (Host.in_table (points_call (script_dir (Host.wld session_failing_job))))).
Proof.
  assert (H1 : Host.describe session_failing_job
                 (env_before_describe session_failing_job) "usgs_dem_05m"
               = inr nad83) by reflexivity.
  assert (H2 : (transform (Host.wld session_failing_job)).1 = inr tt)
    by (vm_compute; reflexivity).
  split; [exact H1|]. split; [exact H2|].
  exact (main_generates_points 3 session_failing_job nad83 H1 H2).
Defined.

Lemma main_completes_witness :
  Host.describe session_failing_job (env_before_describe session_failing_job)
    "usgs_dem_05m" = inr nad83 /\
  (transform (Host.wld session_failing_job)).1 = inr tt /\
  Host.xy_table_to_point session_failing_job
    (env_after_setup session_failing_job nad83)
    (transform (world_before_transform (Host.wld session_failing_job))).2
    (points_call (script_dir (Host.wld session_failing_job))) = inr failing_job /\
  (2 < 3)%nat /\
  (0 <= Host.status_at failing_job (1 + Host.polls session_failing_job) <= 10)%Z /\
  (forall i, (i < 2)%nat ->
     (Host.status_at failing_job (3 * i + 2 + Host.polls session_failing_job) < 4)%Z /\
     (0 <= Host.status_at failing_job (3 * i + 4 + Host.polls session_failing_job)
      <= 10)%Z) /\
  (4 <= Host.status_at failing_job (3 * 2 + 2 + Host.polls session_failing_job))%Z /\
  (Host.main 3 session_failing_job).1 = Host.Returned tt /\
  Host.sleeps (Host.main 3 session_failing_job).2 =
    (2 + Host.sleeps session_failing_job)%nat.
Proof.
  assert (H1 : Host.describe session_failing_job
                 (env_before_describe session_failing_job) "usgs_dem_05m"
               = inr nad83) by reflexivity.
  assert (H2 : (transform (Host.wld session_failing_job)).1 = inr tt)
    by (vm_compute; reflexivity).
  assert (H3 : Host.xy_table_to_point session_failing_job
                 (env_after_setup session_failing_job nad83)
                 (transform (world_before_transform (Host.wld session_failing_job))).2
                 (points_call (script_dir (Host.wld session_failing_job)))
               = inr failing_job) by reflexivity.
  assert (H4 : (2 < 3)%nat) by lia.
  assert (H5 : (0 <= Host.status_at failing_job (1 + Host.polls session_failing_job)
                <= 10)%Z) by (simpl; lia).
  assert (H6 : forall i, (i < 2)%nat ->
     (Host.status_at failing_job (3 * i + 2 + Host.polls session_failing_job) < 4)%Z /\
     (0 <= Host.status_at failing_job (3 * i + 4 + Host.polls session_failing_job)
      <= 10)%Z).
  { intros [|[|i]] Hi; [simpl; lia | simpl; lia | lia]. }
  assert (H7 : (4 <= Host.status_at failing_job
                       (3 * 2 + 2 + Host.polls session_failing_job))%Z)
    by (simpl; lia).
  repeat (split; [assumption|]).
  exact (main_completes 3 2 session_failing_job nad83 failing_job
           H1 H2 H3 H4 H5 H6 H7).
Defined.

End OnScenarios.
